(** * The multi-agent proposal pipeline of [streamlit_app.py]

    A shallow embedding of the four agents and of the orchestrator
    ([research_agent], [use_case_generation_agent],
    [resource_collection_agent], [optional_genai_proposer_agent],
    [orchestrator]) together with the search wrapper
    [perform_GoogleSearch] and with the script of the page that shows
    the bundle of [orchestrator].

    - Python values are terms of [value]; a [dict] is an association list
      in insertion order, as CPython keeps it.
    - A Python [str] is a [string]; one [ascii] stands for one character
      (code points below 256).
    - The two collaborators (the Custom Search service and the Gemini
      model) are events of the free monad [prog]; [run] feeds a program
      the replies of the collaborators, so a statement quantified over all
      replies covers every behaviour of the collaborators.
    - [json.loads], the representation of floats and their [repr] belong
      to the Python runtime: the classes [Json] and [Floats].
    - The [st.*] calls of the agents only draw on the page and are left
      out; those of the script of the page are the widgets of
      [display_results]. *)

From Stdlib Require Import String Ascii List ZArith Bool Lia.
From Stdlib Require Import DecimalString.
From Stdlib Require DecimalPos.
Import ListNotations.
Local Open Scope string_scope.

(** ** Strings *)

Module Str.

Definition dq : string := String "034"%char EmptyString.
Definition nl : string := String "010"%char EmptyString.

(** Characters that [str.strip] removes (the whitespace of Unicode below
    256). *)
Definition is_space (c : ascii) : bool :=
  let n := nat_of_ascii c in
  (Nat.leb 9 n && Nat.leb n 13) || (Nat.leb 28 n && Nat.leb n 32)
  || Nat.eqb n 133 || Nat.eqb n 160.

Fixpoint lstrip (s : string) : string :=
  match s with
  | EmptyString => EmptyString
  | String c s' => if is_space c then lstrip s' else s
  end.

Fixpoint rstrip (s : string) : string :=
  match s with
  | EmptyString => EmptyString
  | String c s' =>
      match rstrip s' with
      | EmptyString => if is_space c then EmptyString else String c EmptyString
      | r => String c r
      end
  end.

(** [s.strip()] *)
Definition strip (s : string) : string := rstrip (lstrip s).

(** [s.startswith(p)] *)
Definition startswith (p s : string) : bool := prefix p s.

(** [s.endswith(p)] *)
Definition endswith (p s : string) : bool :=
  let n := String.length s in
  let m := String.length p in
  Nat.leb m n && String.eqb (substring (n - m) m s) p.

(** [s[n:]] *)
Definition drop (n : nat) (s : string) : string :=
  substring n (String.length s - n) s.

(** [s[:n]] *)
Definition take (n : nat) (s : string) : string := substring 0 n s.

(** [s[:-k]] for [k > 0] *)
Definition drop_last (k : nat) (s : string) : string :=
  substring 0 (String.length s - k) s.

(** [s.find(c)] for a one-character [c]: the first index, or [-1]. *)
Fixpoint find (c : ascii) (s : string) : Z :=
  match s with
  | EmptyString => (-1)%Z
  | String a s' =>
      if Ascii.eqb a c then 0%Z
      else let i := find c s' in if (i =? -1)%Z then (-1)%Z else (i + 1)%Z
  end.

(** [s.rfind(c)] for a one-character [c]: the last index, or [-1]. *)
Fixpoint rfind (c : ascii) (s : string) : Z :=
  match s with
  | EmptyString => (-1)%Z
  | String a s' =>
      let i := rfind c s' in
      if (i =? -1)%Z then (if Ascii.eqb a c then 0%Z else (-1)%Z)
      else (i + 1)%Z
  end.

(** [s[a:b]] for [0 <= a]. *)
Definition slice (a b : Z) (s : string) : string :=
  substring (Z.to_nat a) (Z.to_nat (b - a)) s.

(** [sub in s] for strings. *)
Fixpoint contains (sub s : string) : bool :=
  prefix sub s ||
  match s with
  | EmptyString => false
  | String _ s' => contains sub s'
  end.

(** [sep.join(l)] for a list of strings. *)
Definition join (sep : string) (l : list string) : string := String.concat sep l.

(** Concatenation of the pieces of an f-string. *)
Fixpoint cat (l : list string) : string :=
  match l with
  | [] => EmptyString
  | s :: l' => s ++ cat l'
  end.

(** [str(z)] for an integer. *)
Definition of_Z (z : Z) : string := NilZero.string_of_int (Z.to_int z).

Definition is_empty (s : string) : bool :=
  match s with EmptyString => true | _ => false end.

End Str.

(** ** Python values *)

(** The classes of the exceptions that occur; every one of them derives
    from [Exception], and [JSONDecodeError] derives from [ValueError]. *)
Inductive exn_class : Type :=
| JSONDecodeError
| TypeError
| ValueError
| AttributeError
| OtherError (name : string).

(** An exception: its class and [str(e)]. *)
Record exn : Type := Exn { exn_cls : exn_class; exn_msg : string }.

Definition is_JSONDecodeError (e : exn) : bool :=
  match exn_cls e with JSONDecodeError => true | _ => false end.

(** The values that flow through the pipeline: what [json.loads] builds,
    and the dictionaries and lists the agents build.  [F] is the type of
    floats. *)
#[local] Set Warnings "-register-all,-abstract-large-number".
Inductive value (F : Type) : Type :=
| VNone
| VBool (b : bool)
| VInt (z : Z)
| VFloat (f : F)
| VStr (s : string)
| VList (l : list (value F))
| VDict (d : list (value F * value F)).

Arguments VNone {F}.
Arguments VBool {F} b.
Arguments VInt {F} z.
Arguments VFloat {F} f.
Arguments VStr {F} s.
Arguments VList {F} l.
Arguments VDict {F} d.

(** The floats of the Python runtime, with what the pipeline does with
    them: the comparison of two keys and [repr]. *)
Class Floats : Type := {
  pyfloat : Type;
  float_eqb : pyfloat -> pyfloat -> bool;
  float_eq_int : pyfloat -> Z -> bool;
  float_repr : pyfloat -> string
}.

(** [json.loads]; [inl e] when it raises [e]. *)
Class Json {FL : Floats} : Type := {
  json_loads : string -> exn + value pyfloat
}.

(** ** Dictionaries and the operations of Python on values *)

Section Values.

Context {FL : Floats}.

Definition val : Type := value pyfloat.

(** A [dict]: the entries in insertion order. *)
Definition dict : Type := list (val * val).

Definition type_name (v : val) : string :=
  match v with
  | VNone => "NoneType"
  | VBool _ => "bool"
  | VInt _ => "int"
  | VFloat _ => "float"
  | VStr _ => "str"
  | VList _ => "list"
  | VDict _ => "dict"
  end.

(** Lists and dictionaries cannot be keys. *)
Definition hashable (v : val) : bool :=
  match v with
  | VList _ | VDict _ => false
  | _ => true
  end.

Definition as_int (v : val) : option Z :=
  match v with
  | VBool b => Some (if b then 1%Z else 0%Z)
  | VInt z => Some z
  | _ => None
  end.

(** [a == b] for two keys: strings by their characters, numbers
    ([bool], [int], [float]) by their numeric value. *)
Definition key_eqb (a b : val) : bool :=
  match a, b with
  | VNone, VNone => true
  | VStr s, VStr t => String.eqb s t
  | VFloat f, VFloat g => float_eqb f g
  | VFloat f, _ =>
      match as_int b with Some z => float_eq_int f z | None => false end
  | _, VFloat g =>
      match as_int a with Some z => float_eq_int g z | None => false end
  | _, _ =>
      match as_int a, as_int b with
      | Some x, Some y => Z.eqb x y
      | _, _ => false
      end
  end.

(** The entry of key [k], if any. *)
Fixpoint dict_find {V : Type} (k : val) (d : list (val * V)) : option V :=
  match d with
  | [] => None
  | (k', v) :: d' => if key_eqb k' k then Some v else dict_find k d'
  end.

(** [d[k] = v]: an existing key keeps its place, a new one goes last. *)
Fixpoint dict_set {V : Type} (k : val) (v : V) (d : list (val * V))
  : list (val * V) :=
  match d with
  | [] => [(k, v)]
  | (k', v') :: d' =>
      if key_eqb k' k then (k', v) :: d' else (k', v') :: dict_set k v d'
  end.

(** [d.get(k, default)] *)
Definition dict_get (d : dict) (k : string) (default : val) : val :=
  match dict_find (VStr k) d with
  | Some v => v
  | None => default
  end.

(** [d.get(k)] *)
Definition dict_get_none (d : dict) (k : string) : val :=
  dict_get d k VNone.

Definition set_field (k : string) (v : val) (d : dict) : dict :=
  dict_set (VStr k) v d.

(** The characters of a string, as the one-character strings that
    iterating over it yields. *)
Fixpoint chars (s : string) : list val :=
  match s with
  | EmptyString => []
  | String c s' => VStr (String c EmptyString) :: chars s'
  end.

(** *** [dict.update]

    [d.update(v)] changes [d] in place, so what it did before it raised
    stays: the result is the dictionary afterwards and the exception, if
    any.  A value that is not a [dict] is read as a sequence of pairs. *)

Definition seq2_error (i : nat) (n : nat) : exn :=
  Exn ValueError
    ("dictionary update sequence element #" ++ Str.of_Z (Z.of_nat i)
     ++ " has length " ++ Str.of_Z (Z.of_nat n) ++ "; 2 is required").

Definition seq2_pair (i : nat) (item : val) : exn + (val * val) :=
  match item with
  | VList [k; x] => inr (k, x)
  | VList l => inl (seq2_error i (List.length l))
  | VDict [(k, _); (x, _)] => inr (k, x)
  | VDict d => inl (seq2_error i (List.length d))
  | VStr s =>
      match chars s with
      | [k; x] => inr (k, x)
      | l => inl (seq2_error i (List.length l))
      end
  | _ =>
      inl (Exn TypeError
             ("cannot convert dictionary update sequence element #"
              ++ Str.of_Z (Z.of_nat i) ++ " to a sequence"))
  end.

Fixpoint merge_seq2 (d : dict) (i : nat) (l : list val)
  : dict * option exn :=
  match l with
  | [] => (d, None)
  | item :: l' =>
      match seq2_pair i item with
      | inl e => (d, Some e)
      | inr (k, x) =>
          if hashable k then merge_seq2 (dict_set k x d) (S i) l'
          else (d, Some (Exn TypeError
                           ("unhashable type: '" ++ type_name k ++ "'")))
      end
  end.

(** The entries of [m] set one after the other. *)
Definition dict_merge (d m : dict) : dict :=
  fold_left (fun acc kv => dict_set (fst kv) (snd kv) acc) m d.

Definition dict_update (d : dict) (v : val) : dict * option exn :=
  match v with
  | VDict m => (dict_merge d m, None)
  | VList l => merge_seq2 d 0 l
  | VStr s => merge_seq2 d 0 (chars s)
  | _ =>
      (d, Some (Exn TypeError
                  ("'" ++ type_name v ++ "' object is not iterable")))
  end.

(** *** [repr] and [str] *)

Definition hex_digit (n : nat) : string :=
  substring n 1 "0123456789abcdef".

(** Characters that [repr] prints as they are. *)
Definition printable (c : ascii) : bool :=
  let n := nat_of_ascii c in
  (Nat.leb 32 n && Nat.leb n 126)
  || (Nat.leb 161 n && negb (Nat.eqb n 173)).

Definition repr_char (quote : ascii) (c : ascii) : string :=
  let n := nat_of_ascii c in
  if Ascii.eqb c quote || Ascii.eqb c "\"%char
  then String "\"%char (String c EmptyString)
  else if Nat.eqb n 9 then "\t"
  else if Nat.eqb n 10 then "\n"
  else if Nat.eqb n 13 then "\r"
  else if printable c then String c EmptyString
  else "\x" ++ hex_digit (n / 16) ++ hex_digit (n mod 16).

Fixpoint repr_chars (quote : ascii) (s : string) : string :=
  match s with
  | EmptyString => EmptyString
  | String c s' => repr_char quote c ++ repr_chars quote s'
  end.

(** [repr(s)]: single quotes, unless [s] holds a single quote and no
    double quote. *)
Definition repr_str (s : string) : string :=
  let quote :=
    if Str.contains "'" s && negb (Str.contains Str.dq s)
    then "034"%char else "'"%char in
  String quote (repr_chars quote s) ++ String quote EmptyString.

Fixpoint py_repr (v : val) : string :=
  match v with
  | VNone => "None"
  | VBool true => "True"
  | VBool false => "False"
  | VInt z => Str.of_Z z
  | VFloat f => float_repr f
  | VStr s => repr_str s
  | VList l => "[" ++ Str.join ", " (map py_repr l) ++ "]"
  | VDict d =>
      "{" ++ Str.join ", "
               (map (fun kv => py_repr (fst kv) ++ ": " ++ py_repr (snd kv)) d)
      ++ "}"
  end.

(** [str(v)], what an f-string puts in place of [{v}]. *)
Definition py_str (v : val) : string :=
  match v with
  | VStr s => s
  | _ => py_repr v
  end.

(** *** Tests *)

(** [v in [None, "N/A"]] *)
Definition is_none_or_na (v : val) : bool :=
  match v with
  | VNone => true
  | VStr s => String.eqb s "N/A"
  | _ => false
  end.

Definition is_str (s : string) (v : val) : bool :=
  match v with
  | VStr t => String.eqb t s
  | _ => false
  end.

(** [s in v]: a substring test on a string, a membership test on a list
    or on the keys of a dictionary, a [TypeError] on anything else. *)
Definition py_in (s : string) (v : val) : exn + bool :=
  match v with
  | VStr t => inr (Str.contains s t)
  | VList l => inr (existsb (is_str s) l)
  | VDict d => inr (existsb (fun kv => is_str s (fst kv)) d)
  | _ =>
      inl (Exn TypeError
             ("argument of type '" ++ type_name v ++ "' is not iterable"))
  end.

(** [", ".join(l)]: every element has to be a string. *)
Fixpoint join_values (i : nat) (l : list val) : exn + list string :=
  match l with
  | [] => inr []
  | VStr s :: l' =>
      match join_values (S i) l' with
      | inr r => inr (s :: r)
      | inl e => inl e
      end
  | v :: _ =>
      inl (Exn TypeError
             ("sequence item " ++ Str.of_Z (Z.of_nat i)
              ++ ": expected str instance, " ++ type_name v ++ " found"))
  end.

End Values.

(** ** [json.dumps]

    The text that [json.dumps] makes of a value with its defaults: the
    separators [", "] and [": "], and [ensure_ascii], under which a
    string keeps the characters from the blank to the tilde, but for
    the quote and the backslash, and has an escape for every other
    one.  A finite float is written as its [repr]. *)

Section Serialization.

Context {FL : Floats}.

Definition dumps_char (c : ascii) : string :=
  let n := nat_of_ascii c in
  if Nat.eqb n 34 then String "\"%char Str.dq
  else if Nat.eqb n 92 then "\\"
  else if Nat.eqb n 10 then "\n"
  else if Nat.eqb n 13 then "\r"
  else if Nat.eqb n 9 then "\t"
  else if Nat.eqb n 8 then "\b"
  else if Nat.eqb n 12 then "\f"
  else if Nat.leb 32 n && Nat.leb n 126 then String c EmptyString
  else "\u00" ++ hex_digit (n / 16) ++ hex_digit (n mod 16).

Fixpoint dumps_chars (s : string) : string :=
  match s with
  | EmptyString => EmptyString
  | String c s' => dumps_char c ++ dumps_chars s'
  end.

Definition dumps_str (s : string) : string :=
  Str.dq ++ dumps_chars s ++ Str.dq.

(** A key: a string as it is; a number, a boolean or [None] as the
    string of its JSON text.  (A list or a dictionary is not a key of a
    Python dictionary.) *)
Definition dumps_key (k : val) : string :=
  match k with
  | VStr s => dumps_str s
  | VNone => dumps_str "null"
  | VBool true => dumps_str "true"
  | VBool false => dumps_str "false"
  | VInt z => dumps_str (Str.of_Z z)
  | VFloat f => dumps_str (float_repr f)
  | _ => dumps_str EmptyString
  end.

Fixpoint json_dumps (v : val) : string :=
  match v with
  | VNone => "null"
  | VBool true => "true"
  | VBool false => "false"
  | VInt z => Str.of_Z z
  | VFloat f => float_repr f
  | VStr s => dumps_str s
  | VList l => "[" ++ Str.join ", " (map json_dumps l) ++ "]"
  | VDict d =>
      "{" ++ Str.join ", "
               (map (fun kv => dumps_key (fst kv) ++ ": " ++ json_dumps (snd kv))
                  d)
      ++ "}"
  end.

End Serialization.

(** ** The collaborators *)

(** An item of a search response.  A field is [None] when the item has
    no such key. *)
Record item : Type := Item {
  item_title : option string;
  item_snippet : option string;
  item_link : option string
}.

(** [item.get(k, default)] *)
Definition get_or (field : option string) (default : string) : string :=
  match field with
  | Some s => s
  | None => default
  end.

(** What [GoogleSearch_service.cse().list(...).execute()] does: it raises,
    or it answers with a response that has an ['items'] list or none. *)
Definition search_reply : Type := exn + option (list item).

(** What [llm_model.generate_content(prompt)] followed by [.text] does:
    it raises, or it gives a text. *)
Definition generation_reply : Type := exn + string.

(** Programs that call the collaborators and may raise. *)
Inductive prog (A : Type) : Type :=
| Ret (a : A)
| Raise (e : exn)
| CseExecute (q : string) (num : nat) (k : search_reply -> prog A)
| GenerateContent (prompt : string) (k : generation_reply -> prog A).

Arguments Ret {A} a.
Arguments Raise {A} e.
Arguments CseExecute {A} q num k.
Arguments GenerateContent {A} prompt k.

Fixpoint bind {A B : Type} (p : prog A) (f : A -> prog B) : prog B :=
  match p with
  | Ret a => f a
  | Raise e => Raise e
  | CseExecute q num k => CseExecute q num (fun r => bind (k r) f)
  | GenerateContent prompt k => GenerateContent prompt (fun r => bind (k r) f)
  end.

Declare Scope prog_scope.
Delimit Scope prog_scope with prog.
Notation "x <- p ;; q" := (bind p (fun x => q))
  (at level 61, p at next level, right associativity) : prog_scope.

(** A pure step that may raise. *)
Definition lift {A : Type} (r : exn + A) : prog A :=
  match r with
  | inl e => Raise e
  | inr a => Ret a
  end.

(** A call, and a reply of a collaborator. *)
Inductive call : Type :=
| SearchCall (q : string) (num : nat)
| GenCall (prompt : string).

Inductive reply : Type :=
| SearchReply (r : search_reply)
| GenReply (r : generation_reply).

Inductive outcome (A : Type) : Type :=
| Returned (a : A)
| Raised (e : exn).

Arguments Returned {A} a.
Arguments Raised {A} e.

(** [run p script] runs [p] against collaborators that answer with the
    replies of [script], one per call and in order.  It gives the outcome
    of [p] and the calls [p] made, when [p] ends having used up exactly
    the script. *)
Fixpoint run {A : Type} (p : prog A) (script : list reply)
  : option (outcome A * list call) :=
  match p, script with
  | Ret a, [] => Some (Returned a, [])
  | Raise e, [] => Some (Raised e, [])
  | CseExecute q num k, SearchReply r :: script' =>
      match run (k r) script' with
      | Some (o, calls) => Some (o, SearchCall q num :: calls)
      | None => None
      end
  | GenerateContent prompt k, GenReply r :: script' =>
      match run (k r) script' with
      | Some (o, calls) => Some (o, GenCall prompt :: calls)
      | None => None
      end
  | _, _ => None
  end.

(** A search tool, as the agents receive it: the query and
    [num_results], [None] when the caller leaves it to the default. *)
Definition search_tool_t : Type := string -> option nat -> prog (list item).

(** [perform_GoogleSearch(query, num_results=5)] *)
Definition perform_GoogleSearch : search_tool_t :=
  fun query num_results =>
    let num_results := match num_results with Some n => n | None => 5 end in
    CseExecute query num_results (fun r =>
      match r with
      | inr (Some items) => Ret items
      | inr None => Ret []
      | inl _ => Ret []
      end).

(** ** The agents *)

Section Pipeline.

Context {FL : Floats} {JS : Json}.

Local Open Scope prog_scope.

(** The text that one result item adds to the search text. *)
Definition snippet_text (it : item) : string :=
  Str.cat
    [ "Title: "; get_or (item_title it) "N/A"; Str.nl;
      "Snippet: "; get_or (item_snippet it) "N/A"; Str.nl;
      "URL: "; get_or (item_link it) "#"; Str.nl; Str.nl ].

Fixpoint snippets_text (results : list item) : string :=
  match results with
  | [] => EmptyString
  | it :: results' => snippet_text it ++ snippets_text results'
  end.

(** A result item as the dictionary it is. *)
Definition value_of_item (it : item) : val :=
  let field k f :=
    match f with Some s => [(VStr k, VStr s)] | None => [] end in
  VDict (field "title" (item_title it) ++ field "snippet" (item_snippet it)
         ++ field "link" (item_link it)).

(** [research_data["search_results"].extend(results)] *)
Definition extend_search_results (research_data : dict) (results : list item)
  : dict :=
  match dict_find (VStr "search_results") research_data with
  | Some (VList l) =>
      set_field "search_results" (VList (l ++ map value_of_item results))
        research_data
  | _ => research_data
  end.

Definition research_prompt (company_or_industry_name all_search_text : string)
  : string :=
  Str.cat
    [
      Str.nl;
      "    Analyze the following text snippets from web searches about ";
        Str.dq; company_or_industry_name; Str.dq; "."; Str.nl;
      "    Identify and extract the following information:"; Str.nl;
      "    1. The main industry sector (e.g., Automotive, Finance, Healthcare)."; Str.nl;
      "    2. The specific segment within that industry (e.g., Commercial Banking, Oncology, E-commerce)."; Str.nl;
      "    3. Key products, services, or offerings (as a list of strings).";
        Str.nl;
      "    4. Strategic focus areas or priorities (as a list of strings, e.g., improving efficiency, customer experience, expansion)."; Str.nl;
      Str.nl;
      "    Provide the output *only* as a structured JSON format with the keys: "; Str.dq; "industry"; Str.dq; ", "; Str.dq; "segment"; Str.dq; ", "; Str.dq; "offerings"; Str.dq; ", "; Str.dq; "strategic_focus"; Str.dq; "."; Str.nl;
      "    If information for a key is not found, use "; Str.dq; "N/A"; Str.dq;
        " or an empty list [] where appropriate (e.g., offerings: []). Do not include any other text, explanation, or markdown formatting (like ```json) outside the JSON object."; Str.nl;
      Str.nl;
      "    --- Text Snippets ---"; Str.nl;
      "    "; Str.take 7000 all_search_text;
        " # Limit text length slightly more conservatively for safety"; Str.nl;
      Str.nl;
      "    --- JSON Output ---"; Str.nl;
      "    " ].

(** The four fields after a failure, [marker] being the text put in
    them. *)
Definition failure_fields (marker : string) (research_data : dict) : dict :=
  set_field "strategic_focus" (VList [VStr marker])
    (set_field "offerings" (VList [VStr marker])
       (set_field "segment" (VStr marker)
          (set_field "industry" (VStr marker) research_data))).

(** The handler [except Exception as e] of [research_agent]. *)
Definition error_fields (e : exn) (research_data : dict) : dict :=
  failure_fields ("Error: " ++ exn_msg e) research_data.

(** [research_data.update(extracted_info)] under the outer [try]. *)
Definition update_research_data (research_data : dict) (extracted_info : val)
  : dict :=
  match dict_update research_data extracted_info with
  | (research_data, None) => research_data
  | (research_data, Some e) => error_fields e research_data
  end.

(** The removal of the code fences: [strip], a leading [```json], a
    trailing [```], [strip]. *)
Definition clean_fences (s : string) : string :=
  let cleaned := Str.strip s in
  let cleaned :=
    if Str.startswith "```json" cleaned then Str.drop 7 cleaned else cleaned in
  let cleaned :=
    if Str.endswith "```" cleaned then Str.drop_last 3 cleaned else cleaned in
  Str.strip cleaned.

(** What [research_agent] does with the stripped text of the response:
    the inner [try] and its handlers, under the outer [try]. *)
Definition extract_info (research_data : dict) (extracted_info_str : string)
  : dict :=
  match json_loads extracted_info_str with
  | inr extracted_info => update_research_data research_data extracted_info
  | inl e =>
      if is_JSONDecodeError e then
        let cleaned_info_str := clean_fences extracted_info_str in
        match json_loads cleaned_info_str with
        | inr extracted_info =>
            update_research_data research_data extracted_info
        | inl e2 =>
            if is_JSONDecodeError e2
            then failure_fields "Extraction Failed (Parsing Error)"
                   research_data
            else error_fields e2 research_data
        end
      else error_fields e research_data
  end.

(** The last step of [research_agent]: an [industry] that is [None]
    becomes ["N/A"]. *)
Definition ensure_industry (research_data : dict) : dict :=
  match dict_get_none research_data "industry" with
  | VNone => set_field "industry" (VStr "N/A") research_data
  | _ => research_data
  end.

Definition research_queries (company_or_industry_name : string)
  : list string :=
  [ company_or_industry_name ++ " industry sector";
    company_or_industry_name ++ " key products and services";
    company_or_industry_name ++ " strategic priorities focus areas";
    company_or_industry_name ++ " company profile" ].

(** The loop over the queries of [research_agent]. *)
Fixpoint research_searches (search_tool : search_tool_t)
  (queries : list string) (research_data : dict) (all_search_text : string)
  : prog (dict * string) :=
  match queries with
  | [] => Ret (research_data, all_search_text)
  | query :: queries' =>
      results <- search_tool query None ;;
      research_searches search_tool queries'
        (extend_search_results research_data results)
        (all_search_text ++ snippets_text results)
  end.

Definition initial_research_data (company_or_industry_name : string) : dict :=
  [ (VStr "input_name", VStr company_or_industry_name);
    (VStr "industry", VNone);
    (VStr "segment", VNone);
    (VStr "offerings", VNone);
    (VStr "strategic_focus", VNone);
    (VStr "search_results", VList []) ].

(** What [research_agent] does once the searches are done. *)
Definition research_extraction (company_or_industry_name : string)
  (research_data : dict) (all_search_text : string) : prog (option dict) :=
  if Str.is_empty all_search_text then Ret None
  else
    GenerateContent
      (research_prompt company_or_industry_name all_search_text)
      (fun r =>
         let research_data :=
           match r with
           | inr text => extract_info research_data (Str.strip text)
           | inl e => error_fields e research_data
           end in
         Ret (Some (ensure_industry research_data))).

(** Agent 1.  The result is [None] or the research dictionary. *)
Definition research_agent (company_or_industry_name : string)
  (search_tool : search_tool_t) : prog (option dict) :=
  found <- research_searches search_tool
             (research_queries company_or_industry_name)
             (initial_research_data company_or_industry_name) EmptyString ;;
  research_extraction company_or_industry_name (fst found) (snd found).

(** The test that opens [use_case_generation_agent] and
    [optional_genai_proposer_agent] and that [orchestrator] makes on the
    result of the research:
    [not research_data or research_data.get("industry") in [None, "N/A"]
     or "Error" in research_data.get("industry", "")]. *)
Definition insufficient (research_data : option dict) : exn + bool :=
  match research_data with
  | None => inr true
  | Some [] => inr true
  | Some d =>
      if is_none_or_na (dict_get_none d "industry") then inr true
      else py_in "Error" (dict_get d "industry" (VStr EmptyString))
  end.

(** [v if isinstance(v, list) and v else default] *)
Definition list_or (v : val) (default : list val) : list val :=
  match v with
  | VList (x :: l) => x :: l
  | _ => default
  end.

(** What the two generating agents read from the research dictionary. *)
Record profile : Type := Profile {
  industry : val;
  segment : val;
  offerings : string;
  focus_areas : string;
  company_name : val
}.

Definition read_profile (research_data : dict) : exn + profile :=
  let industry := dict_get research_data "industry" (VStr "a general industry") in
  let segment := dict_get research_data "segment" industry in
  match
    join_values 0 (list_or (dict_get_none research_data "offerings")
                     [VStr "various products/services"])
  with
  | inl e => inl e
  | inr offerings =>
      match
        join_values 0
          (list_or (dict_get_none research_data "strategic_focus")
             [VStr "improving operations and customer experience"])
      with
      | inl e => inl e
      | inr focus_areas =>
          inr (Profile industry segment (Str.join ", " offerings)
                 (Str.join ", " focus_areas)
                 (dict_get research_data "input_name" (VStr "The company")))
      end
  end.

Definition trend_queries (industry segment : val) : list string :=
  [ "AI trends in " ++ py_str industry ++ " sector";
    "Generative AI applications " ++ py_str segment;
    "Machine Learning use cases " ++ py_str industry ++ " operations";
    py_str industry ++ " companies using AI for customer experience" ].

(** The loop over the trend queries. *)
Fixpoint trend_searches (search_tool : search_tool_t) (queries : list string)
  (trend_snippets : string) : prog string :=
  match queries with
  | [] => Ret trend_snippets
  | query :: queries' =>
      results <- search_tool query (Some 3) ;;
      trend_searches search_tool queries'
        (trend_snippets ++ snippets_text results)
  end.

Definition hypothetical_insights (industry : val) : string :=
  Str.cat
    [
      Str.nl;
      "Based on recent reports from McKinsey and Deloitte on digital transformation in the "; py_str industry; " sector:"; Str.nl;
      "- Companies are seeing significant ROI from AI in supply chain forecasting."; Str.nl;
      "- GenAI is increasingly used for personalizing customer communication and support."; Str.nl;
      "- ML models are improving fraud detection rates by over 30%."; Str.nl;
      "- Automation of routine tasks using AI frees up employees for strategic work."; Str.nl ].

Definition use_case_prompt (p : profile) (trend_snippets : string) : string :=
  let company_name := company_name p in
  let industry := industry p in
  let segment := segment p in
  let offerings := offerings p in
  let focus_areas := focus_areas p in
  Str.cat
    [
      Str.nl;
      "Based on the following research about "; Str.dq; py_str company_name;
        Str.dq; ", which is in the "; Str.dq; py_str industry; Str.dq;
        " sector,"; Str.nl;
      "specifically the "; Str.dq; py_str segment; Str.dq;
        " segment, offering products/services like "; Str.dq; offerings;
        Str.dq; ","; Str.nl;
      "and focusing strategically on areas like "; Str.dq; focus_areas; Str.dq;
        "."; Str.nl;
      Str.nl;
      "Also consider the following industry trends and insights regarding AI, ML, and Generative AI:"; Str.nl;
      "--- Industry Trends/Insights ---"; Str.nl;
      Str.take 7000 trend_snippets; " # Limit trend text"; Str.nl;
      Str.nl;
      "Propose a list of 5-10 relevant AI/ML/GenAI use cases for "; Str.dq;
        py_str company_name; Str.dq; "."; Str.nl;
      "For each use case:"; Str.nl;
      "1. Give it a clear title."; Str.nl;
      "2. Briefly describe the problem it solves or the opportunity it addresses."; Str.nl;
      "3. Explain how AI/ML/GenAI is applied."; Str.nl;
      "4. Mention the potential benefit (e.g., improve process X, enhance customer Y, boost operational efficiency Z)."; Str.nl;
      "5. Briefly mention *why* this use case is relevant to the company/industry context (link to their offerings, focus areas, or industry trends)."; Str.nl;
      Str.nl;
      "Provide the output *only* as a JSON list of objects, where each object has keys: "; Str.dq; "title"; Str.dq; ", "; Str.dq; "description"; Str.dq; ", "; Str.dq; "ai_application"; Str.dq; ", "; Str.dq; "potential_benefit"; Str.dq; ", "; Str.dq; "relevance"; Str.dq; ". Do not include any other text, explanation, or markdown formatting (like ```json) outside the JSON array. If you cannot think of specific relevant use cases based on this information, return an empty JSON array []."; Str.nl;
      Str.nl;
      "--- JSON Output ---"; Str.nl ].

(** [v if isinstance(v, list) else []] *)
Definition as_list (v : val) : list val :=
  match v with
  | VList l => l
  | _ => []
  end.

(** What the two generating agents do with the stripped text of the
    response: the inner [try] and its handlers, under the outer [try]
    whose handler gives the empty list. *)
Definition parse_list (s : string) : list val :=
  match json_loads s with
  | inr v => as_list v
  | inl e =>
      if is_JSONDecodeError e then
        let cleaned := clean_fences s in
        let start_index := Str.find "["%char cleaned in
        let end_index := Str.rfind "]"%char cleaned in
        if negb (start_index =? -1)%Z && negb (end_index =? -1)%Z
           && (start_index <? end_index)%Z
        then
          let json_array_str :=
            Str.slice start_index (end_index + 1) cleaned in
          match json_loads json_array_str with
          | inr v => as_list v
          | inl _ => []
          end
        else []
      else []
  end.

(** The generation step of the two agents. *)
Definition generate_list (prompt : string) : prog (list val) :=
  GenerateContent prompt (fun r =>
    match r with
    | inr text => Ret (parse_list (Str.strip text))
    | inl _ => Ret []
    end).

(** Agent 2. *)
Definition use_case_generation_agent (research_data : option dict)
  (search_tool : search_tool_t) : prog (list val) :=
  skip <- lift (insufficient research_data) ;;
  if skip : bool then Ret []
  else
    let research_data :=
      match research_data with Some d => d | None => [] end in
    p <- lift (read_profile research_data) ;;
    trend_snippets <- trend_searches search_tool
                        (trend_queries (industry p) (segment p)) EmptyString ;;
    let trend_snippets := trend_snippets ++ hypothetical_insights (industry p) in
    generate_list (use_case_prompt p trend_snippets).

(** An entry of the resource lists. *)
Record resource : Type := Resource {
  res_title : string;
  res_link : string;
  res_snippet : string
}.

(** The loop over the items of one response: an item is added when its
    link is not empty and not yet in the list. *)
Fixpoint collect (links : list resource) (results : list item)
  : list resource :=
  match results with
  | [] => links
  | it :: results' =>
      match item_link it with
      | Some link =>
          if negb (Str.is_empty link)
             && negb (existsb (String.eqb link) (map res_link links))
          then collect
                 (links ++ [Resource (get_or (item_title it) "No Title") link
                              (get_or (item_snippet it) "N/A")])
                 results'
          else collect links results'
      | None => collect links results'
      end
  end.

Definition resource_queries (title : val) : list string :=
  [ py_str title
    ++ " dataset site:kaggle.com OR site:huggingface.co/datasets OR site:github.com";
    py_str title ++ " github code OR example site:github.com" ].

(** The loop over the queries of one use case; [links] is
    [collected_links[title]]. *)
Fixpoint resource_searches (search_tool : search_tool_t)
  (queries : list string) (links : list resource) : prog (list resource) :=
  match queries with
  | [] => Ret links
  | query :: queries' =>
      results <- search_tool query (Some 2) ;;
      resource_searches search_tool queries' (collect links results)
  end.

(** The loop over the use cases.  [uc.get] needs [uc] to be a
    dictionary, and [collected_links[title] = []] needs [title] to be
    hashable.  The list of a title is put in the map once it is complete:
    the map is the same, as no other key is set in between. *)
Fixpoint collect_all (search_tool : search_tool_t) (use_cases : list val)
  (collected_links : list (val * list resource))
  : prog (list (val * list resource)) :=
  match use_cases with
  | [] => Ret collected_links
  | uc :: use_cases' =>
      match uc with
      | VDict d =>
          let title := dict_get d "title" (VStr "Untitled Use Case") in
          if hashable title then
            links <- resource_searches search_tool (resource_queries title) [] ;;
            collect_all search_tool use_cases'
              (dict_set title links collected_links)
          else
            Raise (Exn TypeError
                     ("unhashable type: '" ++ type_name title ++ "'"))
      | _ =>
          Raise (Exn AttributeError
                   ("'" ++ type_name uc ++ "' object has no attribute 'get'"))
      end
  end.

(** Agent 3. *)
Definition resource_collection_agent (use_cases : list val)
  (search_tool : search_tool_t) : prog (list (val * list resource)) :=
  match use_cases with
  | [] => Ret []
  | _ => collect_all search_tool use_cases []
  end.

Definition genai_prompt (p : profile) : string :=
  let company_name := company_name p in
  let industry := industry p in
  let segment := segment p in
  let offerings := offerings p in
  let focus_areas := focus_areas p in
  Str.cat
    [
      Str.nl;
      "Considering "; Str.dq; py_str company_name; Str.dq; " in the "; Str.dq;
        py_str industry; Str.dq; " sector, particularly the "; Str.dq;
        py_str segment; Str.dq; " segment,"; Str.nl;
      "with offerings like "; Str.dq; offerings; Str.dq; " and focusing on ";
        Str.dq; focus_areas; Str.dq; "."; Str.nl;
      Str.nl;
      "Propose potential applications for general-purpose Generative AI solutions within this context."; Str.nl;
      "Think about solutions like:"; Str.nl;
      "- AI-powered internal document search or knowledge base chatbots.";
        Str.nl;
      "- Automated report generation or summarization (e.g., market reports, performance summaries)."; Str.nl;
      "- AI-powered customer support chatbots or virtual assistants."; Str.nl;
      "- Automated content creation (e.g., marketing copy, product descriptions)."; Str.nl;
      Str.nl;
      "Provide the output *only* as a JSON list of objects, where each object has keys: "; Str.dq; "title"; Str.dq; ", "; Str.dq; "application"; Str.dq; ", "; Str.dq; "potential_benefit"; Str.dq; ", "; Str.dq; "fit_area"; Str.dq; ". Do not include any other text, explanation, or markdown formatting (like ```json) outside the JSON array."; Str.nl;
      "If you cannot think of specific suggestions relevant to this context, return an empty JSON array []."; Str.nl;
      Str.nl;
      "--- JSON Output ---"; Str.nl ].

Definition fallback_suggestion : val :=
  VDict
    [ (VStr "title", VStr "Generic AI-Powered Chatbot for FAQs");
      (VStr "application",
       VStr "Implement a chatbot on the company website or internal portal to answer frequently asked questions.");
      (VStr "potential_benefit",
       VStr "Improve efficiency by automating responses to common queries, free up staff time, provide 24/7 support.");
      (VStr "fit_area", VStr "Customer Service, Internal Operations, HR") ].

(** Optional agent. *)
Definition optional_genai_proposer_agent (research_data : option dict)
  : prog (list val) :=
  skip <- lift (insufficient research_data) ;;
  if skip : bool then Ret []
  else
    let research_data :=
      match research_data with Some d => d | None => [] end in
    p <- lift (read_profile research_data) ;;
    suggestions <- generate_list (genai_prompt p) ;;
    match suggestions with
    | [] => Ret [fallback_suggestion]
    | _ => Ret suggestions
    end.

(** The bundle that [orchestrator] returns. *)
Record bundle : Type := Bundle {
  use_cases : list val;
  resource_links : list (val * list resource);
  genai_suggestions : list val;
  research_data : option dict;
  status : string
}.

(** What [orchestrator] does with the result of the research. *)
Definition proposal (research_output : option dict)
  (search_tool : search_tool_t) : prog bundle :=
  failed <- lift (insufficient research_output) ;;
  if failed : bool then
    Ret (Bundle [] [] [] research_output "Failed Research")
  else
    use_cases <- use_case_generation_agent research_output search_tool ;;
    resource_links <- resource_collection_agent use_cases search_tool ;;
    genai_suggestions <- optional_genai_proposer_agent research_output ;;
    Ret (Bundle use_cases resource_links genai_suggestions research_output
           "Success").

Definition orchestrator (company_or_industry_name : string)
  (search_tool : search_tool_t) : prog bundle :=
  research_output <- research_agent company_or_industry_name search_tool ;;
  proposal research_output search_tool.

End Pipeline.

(** ** The page

    The script of the page, past the set-up: the text input, the button
    and what is drawn once the button is pressed.  What it draws is the
    list of its widgets, in order; an exception ends the drawing, and
    the widgets drawn before it stay on the page. *)

Inductive widget : Type :=
| StMarkdown (body : string)
| StSubheader (body : string)
| StWrite (body : string)
| StText (body : string)
| StError (body : string)
| StWarning (body : string)
| StSuccess (body : string)
| StDownloadButton (label : string) (data : list Byte.byte)
    (file_name mime : string).

(** Drawing that may raise: the widgets drawn, and the exception or the
    result. *)
Definition ui (A : Type) : Type := (list widget * (exn + A))%type.

Definition ui_ret {A : Type} (a : A) : ui A := ([], inr a).

Definition ui_bind {A B : Type} (m : ui A) (f : A -> ui B) : ui B :=
  match m with
  | (ws, inl e) => (ws, inl e)
  | (ws, inr a) => ((ws ++ fst (f a))%list, snd (f a))
  end.

Definition draw (w : widget) : ui unit := ([w], inr tt).

Definition ui_lift {A : Type} (r : exn + A) : ui A := ([], r).

Declare Scope ui_scope.
Delimit Scope ui_scope with ui.
Notation "x <- p ;; q" := (ui_bind p (fun x => q))
  (at level 61, p at next level, right associativity) : ui_scope.
Notation "p ;; q" := (ui_bind p (fun _ => q))
  (at level 61, right associativity) : ui_scope.

(** [s.replace(old, new)] for two characters. *)
Fixpoint replace_char (old new : ascii) (s : string) : string :=
  match s with
  | EmptyString => EmptyString
  | String c s' =>
      String (if Ascii.eqb c old then new else c) (replace_char old new s')
  end.

(** [s.encode('utf-8')]: one byte for a character below 128, two for
    the others. *)
Fixpoint encode_utf8 (s : string) : list Byte.byte :=
  match s with
  | EmptyString => []
  | String c s' =>
      let n := nat_of_ascii c in
      if Nat.ltb n 128 then byte_of_ascii c :: encode_utf8 s'
      else byte_of_ascii (ascii_of_nat (192 + n / 64))
           :: byte_of_ascii (ascii_of_nat (128 + n mod 64))
           :: encode_utf8 s'
  end.

Definition attribute_error (type attribute : string) : exn :=
  Exn AttributeError
    ("'" ++ type ++ "' object has no attribute '" ++ attribute ++ "'").

Section Page.

Context {FL : Floats} {JS : Json}.

Local Open Scope ui_scope.

(** [results['research_data'].get(k, default)]: the research data is a
    dictionary or [None]. *)
Definition research_get (research_data : option dict) (k : string)
  (default : val) : exn + val :=
  match research_data with
  | Some d => inr (dict_get d k default)
  | None => inl (attribute_error "NoneType" "get")
  end.

(** [v.get(k, default)] *)
Definition value_get (v : val) (k : string) (default : val) : exn + val :=
  match v with
  | VDict d => inr (dict_get d k default)
  | _ => inl (attribute_error (type_name v) "get")
  end.

(** [for item in v]: the elements of a list, the characters of a string,
    the keys of a dictionary. *)
Definition iterate (v : val) : exn + list val :=
  match v with
  | VList l => inr l
  | VStr s => inr (chars s)
  | VDict d => inr (map fst d)
  | _ =>
      inl (Exn TypeError
             ("'" ++ type_name v ++ "' object is not iterable"))
  end.

(** [[item for item in l if isinstance(item, str)]] *)
Fixpoint strings_of (l : list val) : list string :=
  match l with
  | [] => []
  | VStr s :: l' => s :: strings_of l'
  | _ :: l' => strings_of l'
  end.

(** [{i+1}] in an f-string, [i] being the index of [enumerate]. *)
Definition number (i : nat) : string := Str.of_Z (Z.of_nat (i + 1)).

(** The four lines of the research summary; the two branches of the
    page have the same four. *)
Definition research_summary (research_data : option dict) : ui unit :=
  industry <- ui_lift (research_get research_data "industry" (VStr "N/A")) ;;
  draw (StWrite ("**Industry:** " ++ py_str industry)) ;;
  segment <- ui_lift (research_get research_data "segment" (VStr "N/A")) ;;
  draw (StWrite ("**Segment:** " ++ py_str segment)) ;;
  offerings <- ui_lift (research_get research_data "offerings"
                          (VList [VStr "N/A"])) ;;
  items <- ui_lift (iterate offerings) ;;
  draw (StWrite ("**Key Offerings:** " ++ Str.join ", " (strings_of items))) ;;
  strategic_focus <- ui_lift (research_get research_data "strategic_focus"
                                (VList [VStr "N/A"])) ;;
  items <- ui_lift (iterate strategic_focus) ;;
  draw (StWrite ("**Strategic Focus:** "
                 ++ Str.join ", " (strings_of items))).

(** The loop over [enumerate(results["use_cases"])]. *)
Fixpoint show_use_cases (i : nat) (use_cases : list val) : ui unit :=
  match use_cases with
  | [] => ui_ret tt
  | uc :: use_cases' =>
      title <- ui_lift (value_get uc "title" (VStr "Untitled Use Case")) ;;
      draw (StMarkdown ("**" ++ number i ++ ". " ++ py_str title ++ "**")) ;;
      description <- ui_lift (value_get uc "description" (VStr "N/A")) ;;
      draw (StWrite ("**Description:** " ++ py_str description)) ;;
      ai_application <- ui_lift (value_get uc "ai_application"
                                   (VStr "N/A")) ;;
      draw (StWrite ("**AI Application:** " ++ py_str ai_application)) ;;
      potential_benefit <- ui_lift (value_get uc "potential_benefit"
                                      (VStr "N/A")) ;;
      draw (StWrite ("**Potential Benefit:** "
                     ++ py_str potential_benefit)) ;;
      relevance <- ui_lift (value_get uc "relevance" (VStr "N/A")) ;;
      draw (StWrite ("**Relevance:** " ++ py_str relevance)) ;;
      draw (StWrite "---") ;;
      show_use_cases (S i) use_cases'
  end.

(** The line of a resource, on the page and in the file.  An entry of
    the resource lists has its three keys, so the defaults of [res.get]
    are not used. *)
Definition link_line (res : resource) : string :=
  "- [" ++ res_title res ++ "](" ++ res_link res ++ ")".

(** The loop over the links of one use case; the result is
    [resource_file_content]. *)
Fixpoint show_links (links : list resource) (resource_file_content : string)
  : ui string :=
  match links with
  | [] => ui_ret resource_file_content
  | res :: links' =>
      draw (StMarkdown (link_line res)) ;;
      show_links links' (resource_file_content ++ link_line res ++ Str.nl)
  end.

(** The loop over [results["resource_links"].items()]; the result is
    [resource_file_content] and [all_links_found]. *)
Fixpoint show_resources (resource_links : list (val * list resource))
  (resource_file_content : string) (all_links_found : bool)
  : ui (string * bool) :=
  match resource_links with
  | [] => ui_ret (resource_file_content, all_links_found)
  | (use_case_title, links) :: resource_links' =>
      match links with
      | [] =>
          show_resources resource_links' resource_file_content
            all_links_found
      | _ =>
          draw (StMarkdown ("**Resources for: " ++ py_str use_case_title
                            ++ "**")) ;;
          resource_file_content <-
            show_links links
              (resource_file_content ++ "## " ++ py_str use_case_title
               ++ Str.nl ++ Str.nl) ;;
          draw (StText EmptyString) ;;
          show_resources resource_links' (resource_file_content ++ Str.nl)
            true
      end
  end.

(** [file_name]: [input_name] has to be a string for [replace]. *)
Definition resource_file_name (research_data : option dict)
  : exn + string :=
  match research_get research_data "input_name" (VStr "resources") with
  | inl e => inl e
  | inr (VStr s) =>
      inr (replace_char "/" "_" (replace_char " " "_" s)
           ++ "_ai_resources.md")
  | inr v => inl (attribute_error (type_name v) "replace")
  end.

(** The part of the page under [if results["use_cases"]]. *)
Definition show_resource_assets (results : bundle) : ui unit :=
  draw (StSubheader "Relevant Resource Assets") ;;
  file_name <- ui_lift (resource_file_name (research_data results)) ;;
  shown <-
    match resource_links results with
    | [] => ui_ret ("# Relevant Resource Links" ++ Str.nl ++ Str.nl, false)
    | _ =>
        show_resources (resource_links results)
          ("# Relevant Resource Links" ++ Str.nl ++ Str.nl) false
    end ;;
  if snd shown : bool then
    draw (StDownloadButton "Download Resource Links (.md)"
            (encode_utf8 (fst shown)) file_name "text/markdown")
  else
    draw (StWrite
            "No specific resource links found for the generated use cases.").

(** The loop over [enumerate(results["genai_suggestions"])]. *)
Fixpoint show_suggestions (i : nat) (genai_suggestions : list val)
  : ui unit :=
  match genai_suggestions with
  | [] => ui_ret tt
  | suggestion :: genai_suggestions' =>
      title <- ui_lift (value_get suggestion "title"
                          (VStr "Untitled Suggestion")) ;;
      draw (StMarkdown ("**" ++ number i ++ ". " ++ py_str title ++ "**")) ;;
      application <- ui_lift (value_get suggestion "application"
                                (VStr "N/A")) ;;
      draw (StWrite ("**Application:** " ++ py_str application)) ;;
      potential_benefit <- ui_lift (value_get suggestion "potential_benefit"
                                      (VStr "N/A")) ;;
      draw (StWrite ("**Potential Benefit:** "
                     ++ py_str potential_benefit)) ;;
      fit_area <- ui_lift (value_get suggestion "fit_area" (VStr "N/A")) ;;
      draw (StWrite ("**Fit Area:** " ++ py_str fit_area)) ;;
      draw (StText EmptyString) ;;
      show_suggestions (S i) genai_suggestions'
  end.

(** The branch of a status that is not ["Failed Research"]. *)
Definition show_proposal (results : bundle) : ui unit :=
  draw (StSubheader "Research Summary") ;;
  research_summary (research_data results) ;;
  draw (StSubheader "Proposed AI/GenAI Use Cases") ;;
  match use_cases results with
  | [] =>
      draw (StWrite
              "No resource links collected (either no use cases generated or search failed).")
  | _ =>
      show_use_cases 0 (use_cases results) ;;
      show_resource_assets results
  end ;;
  draw (StSubheader "General GenAI Solution Suggestions") ;;
  match genai_suggestions results with
  | [] =>
      draw (StWrite
              "No general GenAI solution suggestions found (this is unexpected).")
  | _ => show_suggestions 0 (genai_suggestions results)
  end.

(** What the page draws of the bundle of [orchestrator]. *)
Definition display_results (results : bundle) : ui unit :=
  draw (StMarkdown "---") ;;
  (if String.eqb (status results) "Failed Research" then
     draw (StError
             "Could not generate a proposal due to initial research failure.") ;;
     draw (StSubheader "Research Attempt Summary:") ;;
     research_summary (research_data results)
   else show_proposal results) ;;
  draw (StMarkdown "---") ;;
  draw (StSuccess "Proposal Generation Complete.").

(** The script of the page: [company_or_industry_input] is what the
    text input holds and [clicked] what [st.button] returns.  An
    exception of [orchestrator] is the exception of the script; the
    result is what the script draws after the call of [orchestrator]. *)
Definition page (company_or_industry_input : string) (clicked : bool)
  : prog (ui unit) :=
  if clicked then
    if Str.is_empty company_or_industry_input then
      Ret (draw (StWarning "Please enter a company name or industry."))
    else
      bind (orchestrator company_or_industry_input perform_GoogleSearch)
        (fun results => Ret (display_results results))
  else Ret (ui_ret tt).

End Page.

(** ** A runtime without floats

    The closed examples below run the pipeline on texts and values that
    hold no float.  [Ref.loads] decodes the JSON texts whose numbers are
    integers and whose characters are below 256, the way [json.loads]
    does: white space is a blank, a tab, a line feed or a carriage
    return; a string holds no control character; of two equal keys of an
    object the last one gives the value.  A text with a fraction, an
    exponent, [NaN] or [Infinity] is outside of what it decodes, and the
    examples use none. *)

Module Ref.

#[export] Instance floats : Floats := {|
  pyfloat := Empty_set;
  float_eqb := fun _ _ => false;
  float_eq_int := fun _ _ => false;
  float_repr := fun _ => EmptyString
|}.

Definition is_ws (c : ascii) : bool :=
  let n := nat_of_ascii c in
  Nat.eqb n 32 || Nat.eqb n 9 || Nat.eqb n 10 || Nat.eqb n 13.

Fixpoint skip_ws (s : string) : string :=
  match s with
  | String c s' => if is_ws c then skip_ws s' else s
  | EmptyString => s
  end.

Definition digit (c : ascii) : option Z :=
  let n := nat_of_ascii c in
  if Nat.leb 48 n && Nat.leb n 57 then Some (Z.of_nat (n - 48)) else None.

Definition hex (c : ascii) : option nat :=
  let n := nat_of_ascii c in
  if Nat.leb 48 n && Nat.leb n 57 then Some (n - 48)
  else if Nat.leb 97 n && Nat.leb n 102 then Some (n - 87)
  else if Nat.leb 65 n && Nat.leb n 70 then Some (n - 55)
  else None.

(** The character that follows a backslash. *)
Definition escape (c : ascii) : option ascii :=
  let n := nat_of_ascii c in
  if Nat.eqb n 34 then Some c
  else if Nat.eqb n 92 then Some c
  else if Nat.eqb n 47 then Some c
  else if Nat.eqb n 98 then Some "008"%char
  else if Nat.eqb n 102 then Some "012"%char
  else if Nat.eqb n 110 then Some "010"%char
  else if Nat.eqb n 114 then Some "013"%char
  else if Nat.eqb n 116 then Some "009"%char
  else None.

Definition cons_char (c : ascii) (r : option (string * string))
  : option (string * string) :=
  match r with
  | Some (t, rest) => Some (String c t, rest)
  | None => None
  end.

(** A string, from after its opening quote: the string and the rest of
    the text. *)
Fixpoint scan_string (s : string) : option (string * string) :=
  match s with
  | EmptyString => None
  | String c s' =>
      if Nat.eqb (nat_of_ascii c) 34 then Some (EmptyString, s')
      else if Nat.eqb (nat_of_ascii c) 92 then
        match s' with
        | String e s'' =>
            match escape e with
            | Some c' => cons_char c' (scan_string s'')
            | None =>
                match e, s'' with
                | "u"%char, String a (String b (String h (String l rest))) =>
                    match hex a, hex b, hex h, hex l with
                    | Some 0, Some 0, Some x, Some y =>
                        cons_char (ascii_of_nat (16 * x + y))
                          (scan_string rest)
                    | _, _, _, _ => None
                    end
                | _, _ => None
                end
            end
        | EmptyString => None
        end
      else if Nat.ltb (nat_of_ascii c) 32 then None
      else cons_char c (scan_string s')
  end.

(** The digits at the head of [s], read after the digits [acc]. *)
Fixpoint scan_digits (acc : Z) (s : string) : Z * string :=
  match s with
  | String c s' =>
      match digit c with
      | Some d => scan_digits (10 * acc + d) s'
      | None => (acc, s)
      end
  | EmptyString => (acc, s)
  end.

Definition starts_fraction (s : string) : bool :=
  match s with
  | String c _ =>
      Ascii.eqb c "."%char || Ascii.eqb c "e"%char || Ascii.eqb c "E"%char
  | EmptyString => false
  end.

(** An integer: [0], or a digit that is not [0] followed by digits. *)
Definition scan_nat (s : string) : option (Z * string) :=
  match s with
  | String c s' =>
      match digit c with
      | Some 0%Z => if starts_fraction s' then None else Some (0%Z, s')
      | Some d =>
          let r := scan_digits d s' in
          if starts_fraction (snd r) then None else Some r
      | None => None
      end
  | EmptyString => None
  end.

Definition after (p s : string) : string :=
  substring (String.length p) (String.length s - String.length p) s.

Definition jval : Type := value Empty_set.

(** A value at the head of [s], the members of an array after a value
    and the members of an object after a value: the value and the rest
    of the text.  Of two calls in a row one uses up a character, so a
    fuel above twice the length of the text is enough. *)
Fixpoint scan_value (fuel : nat) (s : string) : option (jval * string) :=
  match fuel with
  | O => None
  | S fuel =>
      match s with
      | EmptyString => None
      | String c s' =>
          if Ascii.eqb c "034"%char then
            match scan_string s' with
            | Some (t, rest) => Some (VStr t, rest)
            | None => None
            end
          else if Ascii.eqb c "["%char then
            match skip_ws s' with
            | String "]"%char rest => Some (VList [], rest)
            | s1 =>
                match scan_elements fuel s1 with
                | Some (l, rest) => Some (VList l, rest)
                | None => None
                end
            end
          else if Ascii.eqb c "{"%char then
            match skip_ws s' with
            | String "}"%char rest => Some (VDict [], rest)
            | s1 =>
                match scan_members fuel [] s1 with
                | Some (d, rest) => Some (VDict d, rest)
                | None => None
                end
            end
          else if prefix "null" s then Some (VNone, after "null" s)
          else if prefix "true" s then Some (VBool true, after "true" s)
          else if prefix "false" s then Some (VBool false, after "false" s)
          else if Ascii.eqb c "-"%char then
            match scan_nat s' with
            | Some (z, rest) => Some (VInt (- z), rest)
            | None => None
            end
          else
            match scan_nat s with
            | Some (z, rest) => Some (VInt z, rest)
            | None => None
            end
      end
  end

with scan_elements (fuel : nat) (s : string)
  : option (list jval * string) :=
  match fuel with
  | O => None
  | S fuel =>
      match scan_value fuel s with
      | Some (v, rest) =>
          match skip_ws rest with
          | String "]"%char rest' => Some ([v], rest')
          | String ","%char rest' =>
              match scan_elements fuel (skip_ws rest') with
              | Some (l, rest'') => Some (v :: l, rest'')
              | None => None
              end
          | _ => None
          end
      | None => None
      end
  end

with scan_members (fuel : nat) (d : list (jval * jval)) (s : string)
  : option (list (jval * jval) * string) :=
  match fuel with
  | O => None
  | S fuel =>
      match s with
      | String "034"%char s' =>
          match scan_string s' with
          | Some (key, rest) =>
              match skip_ws rest with
              | String ":"%char rest' =>
                  match scan_value fuel (skip_ws rest') with
                  | Some (v, rest'') =>
                      let d := dict_set (VStr key) v d in
                      match skip_ws rest'' with
                      | String "}"%char rest3 => Some (d, rest3)
                      | String ","%char rest3 =>
                          scan_members fuel d (skip_ws rest3)
                      | _ => None
                      end
                  | None => None
                  end
              | _ => None
              end
          | None => None
          end
      | _ => None
      end
  end.

Definition decode_error : exn :=
  Exn JSONDecodeError "Expecting value".

Definition loads (s : string) : exn + jval :=
  match scan_value (2 * String.length s + 2) (skip_ws s) with
  | Some (v, rest) =>
      match skip_ws rest with
      | EmptyString => inr v
      | _ => inl decode_error
      end
  | None => inl decode_error
  end.

#[export] Instance json : Json := {| json_loads := loads |}.

End Ref.

(** ** Notions used in the statements *)

Section Notions.

Context {FL : Floats} {JS : Json}.

Local Open Scope list_scope.

(** The items that [perform_GoogleSearch] makes of a reply. *)
Definition items_of (r : search_reply) : list item :=
  match r with
  | inr (Some items) => items
  | _ => []
  end.

Definition all_items (replies : list search_reply) : list item :=
  flat_map items_of replies.

(** The calls of [perform_GoogleSearch] for a list of queries. *)
Definition search_calls (num : nat) (queries : list string) : list call :=
  map (fun q => SearchCall q num) queries.

(** The research dictionary once the searches got [replies]. *)
Definition researched (company_or_industry_name : string)
  (replies : list search_reply) : dict :=
  fold_left (fun d r => extend_search_results d (items_of r)) replies
    (initial_research_data company_or_industry_name).

(** The calls put before those of what follows. *)
Definition after_calls {A : Type} (calls : list call)
  (r : option (outcome A * list call)) : option (outcome A * list call) :=
  match r with
  | Some (o, calls') => Some (o, calls ++ calls')
  | None => None
  end.

(** The research is insufficient in the sense of the gate: there is no
    dictionary, or its [industry] is [None] or ["N/A"], or its [industry]
    is a string in which ["Error"] occurs. *)
Definition research_failed (research_data : option dict) : Prop :=
  match research_data with
  | None => True
  | Some d =>
      is_none_or_na (dict_get_none d "industry") = true
      \/ exists s, dict_get_none d "industry" = VStr s
                   /\ Str.contains "Error" s = true
  end.

(** The stripped text [s] of a response is decoded as the object [m],
    as it is or once the code fences are removed. *)
Definition parsed_object (s : string) (m : dict) : Prop :=
  json_loads s = inr (VDict m)
  \/ exists e, json_loads s = inl e /\ is_JSONDecodeError e = true
               /\ json_loads (clean_fences s) = inr (VDict m).

(** The bundle of a failed research. *)
Definition failed_bundle (research_output : option dict) : bundle :=
  Bundle [] [] [] research_output "Failed Research".

(** The calls of [research_agent] when the searches give an item. *)
Definition research_calls (name : string) (replies : list search_reply)
  : list call :=
  search_calls 5 (research_queries name)
  ++ [GenCall (research_prompt name (snippets_text (all_items replies)))].

(** The trend text of [use_case_generation_agent] before the prompt is
    built: the search text, then the insights. *)
Definition trend_text (p : profile) (replies : list search_reply) : string :=
  (snippets_text (all_items replies) ++ hypothetical_insights (industry p))
  %string.

(** The calls of [use_case_generation_agent] past its gate. *)
Definition use_case_calls (p : profile) (replies : list search_reply)
  : list call :=
  search_calls 3 (trend_queries (industry p) (segment p))
  ++ [GenCall (use_case_prompt p (trend_text p replies))].

(** The list that the two generating agents make of a reply of the
    generator. *)
Definition list_of_reply (r : generation_reply) : list val :=
  match r with
  | inr text => parse_list (Str.strip text)
  | inl _ => []
  end.

(** A field that [", ".join] accepts: anything but a list that holds
    something else than strings. *)
Definition joinable (v : val) : bool :=
  match v with
  | VList l => forallb (fun x => match x with VStr _ => true | _ => false end) l
  | _ => true
  end.

(** The resource entry made of an item whose link is [link]. *)
Definition resource_of (it : item) (link : string) : resource :=
  Resource (get_or (item_title it) "No Title") link
    (get_or (item_snippet it) "N/A").

Definition has_link (link : string) (it : item) : bool :=
  match item_link it with
  | Some l => String.eqb l link
  | None => false
  end.

(** The links of a list are those of two replies of the script. *)
Definition collected_from (script : list reply) (links : list resource)
  : Prop :=
  exists r1 r2,
    In (SearchReply r1) script /\ In (SearchReply r2) script
    /\ links = collect [] (items_of r1 ++ items_of r2).

(** A use case that [resource_collection_agent] can handle: a
    dictionary whose title is hashable. *)
Definition is_use_case (uc : val) : bool :=
  match uc with
  | VDict d => hashable (dict_get d "title" (VStr "Untitled Use Case"))
  | _ => false
  end.

(** A text of [n] times the character [c]. *)
Fixpoint replicate (n : nat) (c : ascii) : string :=
  match n with
  | O => EmptyString
  | S n' => String c (replicate n' c)
  end.

End Notions.

(** ** Inputs of the examples *)

Module Sample.

Import Ref.

Definition quoted (s : string) : string := Str.dq ++ s ++ Str.dq.

Definition acme_item : item :=
  Item (Some "Acme Bank") (Some "Retail banking since 1950")
    (Some "https://acme.example").

(** Four replies of the search: items, a response without items, an
    error of the service, an empty list of items. *)
Definition research_replies : list search_reply :=
  [ inr (Some [acme_item]); inr None;
    inl (Exn (OtherError "HttpError") "quota exceeded"); inr (Some []) ].

(** Four replies of the search without any item. *)
Definition no_results : list search_reply :=
  [ inr (Some []); inr None;
    inl (Exn (OtherError "HttpError") "quota exceeded"); inr (Some []) ].

(** [{"industry": 5}] *)
Definition text_number_industry : string :=
  "{" ++ quoted "industry" ++ ": 5}".

(** [{"title": "Chatbot"}] *)
Definition text_object : string :=
  "{" ++ quoted "title" ++ ": " ++ quoted "Chatbot" ++ "}".

(** [{"industry": "Retail"}] *)
Definition text_retail : string :=
  "{" ++ quoted "industry" ++ ": " ++ quoted "Retail" ++ "}".

(** [{"segment": "Banking"}] *)
Definition text_segment : string :=
  "{" ++ quoted "segment" ++ ": " ++ quoted "Banking" ++ "}".

(** [{"industry": "Retail", "input_name": "Globex"}] *)
Definition text_input_name : string :=
  "{" ++ quoted "industry" ++ ": " ++ quoted "Retail" ++ ", "
  ++ quoted "input_name" ++ ": " ++ quoted "Globex" ++ "}".

Definition text_prose_list : string :=
  "Sure! Here you go: [1, 2, 3] Hope that helps.".

Definition text_prose_object : string :=
  "Here is the profile: " ++ text_retail ++ " Hope that helps.".

(** A research dictionary that passes the gate. *)
Definition retail : dict :=
  [ (VStr "input_name", VStr "Acme"); (VStr "industry", VStr "Retail") ].

Definition retail_profile : profile :=
  Profile (VStr "Retail") (VStr "Retail") "various products/services"
    "improving operations and customer experience" (VStr "Acme").

(** A research dictionary of a failed generation. *)
Definition timed_out : dict :=
  [ (VStr "input_name", VStr "Acme"); (VStr "industry", VStr "Error: timeout") ].

(** Trend searches of which the first gives an item with a snippet of
    7000 characters. *)
Definition long_replies : list search_reply :=
  [ inr (Some [Item (Some "Report") (Some (replicate 7000 "x"%char))
                 (Some "https://long.example")]);
    inr (Some []); inr (Some []); inr (Some []) ].

Definition chatbot_use_cases : list val :=
  [ VDict [(VStr "title", VStr "Chatbot")] ].

(** The replies to the two resource searches of a use case: three items
    share a link, one has an empty link and one has none. *)
Definition resource_script : list reply :=
  [ SearchReply
      (inr (Some [ Item (Some "First") (Some "s1") (Some "https://a.example");
                   Item (Some "Second") (Some "s2") (Some "https://a.example");
                   Item (Some "Empty") None (Some EmptyString);
                   Item (Some "None") None None ]));
    SearchReply
      (inr (Some [ Item (Some "Third") (Some "s3") (Some "https://a.example");
                   Item None None (Some "https://b.example") ])) ].

Definition chatbot_links : list resource :=
  [ Resource "First" "https://a.example" "s1";
    Resource "No Title" "https://b.example" "N/A" ].



End Sample.

(** ** Outcomes under every behaviour of the collaborators *)

(** [always Q p]: whatever the collaborators reply, [p] ends with an
    outcome that satisfies [Q]. *)
Inductive always {A : Type} (Q : outcome A -> Prop) : prog A -> Prop :=
| always_Ret (a : A) : Q (Returned a) -> always Q (Ret a)
| always_Raise (e : exn) : Q (Raised e) -> always Q (Raise e)
| always_Cse (q : string) (num : nat) (k : search_reply -> prog A) :
    (forall r, always Q (k r)) -> always Q (CseExecute q num k)
| always_Gen (prompt : string) (k : generation_reply -> prog A) :
    (forall r, always Q (k r)) -> always Q (GenerateContent prompt k).

(** The outcome is a result that satisfies [P]. *)
Definition returns {A : Type} (P : A -> Prop) (o : outcome A) : Prop :=
  match o with
  | Returned a => P a
  | Raised _ => False
  end.

(** The outcome is an exception, or a result that satisfies [P]. *)
Definition if_returns {A : Type} (P : A -> Prop) (o : outcome A) : Prop :=
  match o with
  | Returned a => P a
  | Raised _ => True
  end.

(** The script of collaborators that answer a search with [sr] and a
    generation with [gr]. *)
Fixpoint play {A : Type} (sr : string -> nat -> search_reply)
  (gr : string -> generation_reply) (p : prog A) : list reply :=
  match p with
  | Ret _ => []
  | Raise _ => []
  | CseExecute q num k => SearchReply (sr q num) :: play sr gr (k (sr q num))
  | GenerateContent prompt k =>
      GenReply (gr prompt) :: play sr gr (k (gr prompt))
  end.

Section MoreNotions.

Context {FL : Floats} {JS : Json}.

Local Open Scope list_scope.

(** The title under which [resource_collection_agent] files a use
    case. *)
Definition title_of (uc : val) : val :=
  match uc with
  | VDict d => dict_get d "title" (VStr "Untitled Use Case")
  | _ => VNone
  end.

(** The map that the loop over the use cases builds from the replies of
    the search, two for each use case. *)
Fixpoint resource_map (use_cases : list val) (replies : list search_reply)
  (collected_links : list (val * list resource))
  : list (val * list resource) :=
  match use_cases, replies with
  | uc :: use_cases', r1 :: r2 :: replies' =>
      resource_map use_cases' replies'
        (dict_set (title_of uc) (collect [] (items_of r1 ++ items_of r2))
           collected_links)
  | _, _ => collected_links
  end.

(** The calls of [resource_collection_agent]. *)
Definition resource_calls (use_cases : list val) : list call :=
  flat_map (fun uc => search_calls 2 (resource_queries (title_of uc)))
    use_cases.

(** A response within code fences. *)
Definition fenced (s : string) : string := ("```json" ++ s ++ "```")%string.

(** The research dictionary after a failure with the marker
    [marker]. *)
Definition marked (marker : string) (research_data : dict) : Prop :=
  dict_get_none research_data "industry" = VStr marker
  /\ dict_get_none research_data "segment" = VStr marker
  /\ dict_get_none research_data "offerings" = VList [VStr marker]
  /\ dict_get_none research_data "strategic_focus" = VList [VStr marker].

(** The result of [research_agent]: [None], or a dictionary whose
    [industry] is not [None]. *)
Definition researched_or_none (research_output : option dict) : Prop :=
  match research_output with
  | None => True
  | Some d => dict_get_none d "industry" <> VNone
  end.

(** What [orchestrator] promises of its bundle. *)
Definition well_formed_bundle (b : bundle) : Prop :=
  (status b = "Failed Research" /\ use_cases b = [] /\ resource_links b = []
   /\ genai_suggestions b = [] /\ insufficient (research_data b) = inr true)
  \/ (status b = "Success" /\ genai_suggestions b <> []
      /\ insufficient (research_data b) = inr false).

End MoreNotions.

Section PageNotions.

Context {FL : Floats} {JS : Json}.

Local Open Scope list_scope.

(** A value that a [for] loop accepts. *)
Definition iterable (v : val) : bool :=
  match v with
  | VList _ | VStr _ | VDict _ => true
  | _ => false
  end.

Definition is_object (v : val) : bool :=
  match v with
  | VDict _ => true
  | _ => false
  end.

(** The research data of which the summary can be drawn: a dictionary
    whose [offerings] and [strategic_focus] are iterable. *)
Definition summarisable (research_data : option dict) : bool :=
  match research_data with
  | Some d =>
      iterable (dict_get d "offerings" (VList [VStr "N/A"]))
      && iterable (dict_get d "strategic_focus" (VList [VStr "N/A"]))
  | None => false
  end.

(** The research data whose [input_name] is a string or is missing. *)
Definition named (research_data : option dict) : bool :=
  match research_data with
  | Some d =>
      match dict_get d "input_name" (VStr "resources") with
      | VStr _ => true
      | _ => false
      end
  | None => false
  end.

(** The bundles of which the page is drawn to its end. *)
Definition displayable (b : bundle) : bool :=
  summarisable (research_data b)
  && ((status b =? "Failed Research")%string
      || (match use_cases b with
          | [] => true
          | _ => forallb is_object (use_cases b) && named (research_data b)
          end
          && forallb is_object (genai_suggestions b))).

Definition is_button (w : widget) : bool :=
  match w with
  | StDownloadButton _ _ _ _ => true
  | _ => false
  end.

(** The drawing came to its end. *)
Definition drawn {A : Type} (m : ui A) : bool :=
  match snd m with
  | inr _ => true
  | inl _ => false
  end.

(** The download buttons of a drawing. *)
Definition buttons {A : Type} (m : ui A) : list widget :=
  filter is_button (fst m).

(** The entries of the resource map that have a link. *)
Definition linked (resource_links : list (val * list resource))
  : list (val * list resource) :=
  filter (fun kv => match snd kv with [] => false | _ => true end)
    resource_links.

(** The section of a use case in the file of the links. *)
Definition section_text (kv : val * list resource) : string :=
  ("## " ++ py_str (fst kv) ++ Str.nl ++ Str.nl
   ++ Str.cat (map (fun res => link_line res ++ Str.nl) (snd kv))
   ++ Str.nl)%string.

(** The file of the links. *)
Definition resource_markdown (resource_links : list (val * list resource))
  : string :=
  ("# Relevant Resource Links" ++ Str.nl ++ Str.nl
   ++ Str.cat (map section_text (linked resource_links)))%string.

(** What the page draws for a use case that has a link. *)
Definition section_widgets (kv : val * list resource) : list widget :=
  StMarkdown ("**Resources for: " ++ py_str (fst kv) ++ "**")
  :: map (fun res => StMarkdown (link_line res)) (snd kv)
  ++ [StText EmptyString].

(** The bundles for which the page offers the file of the links. *)
Definition offers_download (b : bundle) : bool :=
  negb (status b =? "Failed Research")%string
  && summarisable (research_data b)
  && match use_cases b with [] => false | _ => true end
  && forallb is_object (use_cases b)
  && named (research_data b)
  && match linked (resource_links b) with [] => false | _ => true end.

Definition download_button (b : bundle) : widget :=
  StDownloadButton "Download Resource Links (.md)"
    (encode_utf8 (resource_markdown (resource_links b)))
    match resource_file_name (research_data b) with
    | inr file_name => file_name
    | inl _ => EmptyString
    end
    "text/markdown".

(** The page of a research that failed with [marker] in its four
    fields. *)
Definition failure_page (marker : string) : list widget :=
  [ StMarkdown "---";
    StError "Could not generate a proposal due to initial research failure.";
    StSubheader "Research Attempt Summary:";
    StWrite ("**Industry:** " ++ marker);
    StWrite ("**Segment:** " ++ marker);
    StWrite ("**Key Offerings:** " ++ marker);
    StWrite ("**Strategic Focus:** " ++ marker);
    StMarkdown "---";
    StSuccess "Proposal Generation Complete." ].

End PageNotions.

Section JsonNotions.

Context {FL : Floats}.

Local Open Scope list_scope.

(** No two of the keys are equal. *)
Fixpoint distinct (keys : list val) : bool :=
  match keys with
  | [] => true
  | k :: keys' => negb (existsb (key_eqb k) keys') && distinct keys'
  end.

(** A JSON value: the keys of an object are strings, and no two of them
    are equal. *)
Fixpoint json_value (v : val) : bool :=
  match v with
  | VList l => forallb json_value l
  | VDict d =>
      forallb (fun kv =>
                 match fst kv with VStr _ => true | _ => false end
                 && json_value (snd kv)) d
      && distinct (map fst d)
  | _ => true
  end.

(** A bound on the depth of the calls that decode a value. *)
Fixpoint vsize (v : val) : nat :=
  match v with
  | VList l => S (list_sum (map (fun x => S (vsize x)) l))
  | VDict d => S (list_sum (map (fun kv => S (vsize (snd kv))) d))
  | _ => 1
  end.

(** What follows a value in a JSON text: nothing, a comma or a closing
    bracket. *)
Definition delimited (rest : string) : bool :=
  match rest with
  | EmptyString => true
  | String c _ =>
      Ascii.eqb c ","%char || Ascii.eqb c "]"%char || Ascii.eqb c "}"%char
  end.

(** A text that starts as a value does: with a character that is
    neither white space nor a closing bracket. *)
Definition opens_value (s : string) : bool :=
  match s with
  | EmptyString => false
  | String c _ =>
      negb (Ref.is_ws c) && negb (Ascii.eqb c "]"%char)
      && negb (Ascii.eqb c "}"%char)
  end.

End JsonNotions.

Section DecoderNotions.

Import Ref.

(** What decoding a value that [json.dumps] wrote amounts to. *)
Definition decodes (v : jval) : Prop :=
  json_value v = true ->
  forall fuel rest,
    vsize v <= fuel ->
    delimited rest = true ->
    scan_value fuel (json_dumps v ++ rest) = Some (v, rest).

End DecoderNotions.

(** ** Properties *)

Section Properties.

Context {FL : Floats} {JS : Json}.

Local Open Scope list_scope.
Local Open Scope prog_scope.

(** *** Keys *)

Lemma key_eqb_str_r (a : val) (s : string) :
  key_eqb a (VStr s) = true <-> a = VStr s.
Proof.
  destruct a; simpl; try (split; discriminate).
  split; intros H.
  - apply String.eqb_eq in H. now subst.
  - injection H as ->. apply String.eqb_refl.
Qed.

Lemma key_eqb_str_l (s : string) (b : val) :
  key_eqb (VStr s) b = true <-> b = VStr s.
Proof.
  destruct b; simpl; try (split; discriminate).
  split; intros H.
  - apply String.eqb_eq in H. now subst.
  - injection H as ->. apply String.eqb_refl.
Qed.

(** Looking up a string key after [d[k'] = v]. *)
Lemma dict_find_set_str {V : Type} (s : string) (k' : val) (v : V)
  (d : list (val * V)) :
  dict_find (VStr s) (dict_set k' v d)
  = if key_eqb k' (VStr s) then Some v else dict_find (VStr s) d.
Proof.
  induction d as [|[k0 v0] d IH]; simpl.
  - reflexivity.
  - destruct (key_eqb k0 k') eqn:E0; simpl.
    + destruct (key_eqb k0 (VStr s)) eqn:E1.
      * apply key_eqb_str_r in E1. subst k0.
        apply key_eqb_str_l in E0. subst k'.
        simpl. now rewrite String.eqb_refl.
      * destruct (key_eqb k' (VStr s)) eqn:E2; [|reflexivity].
        apply key_eqb_str_r in E2. subst k'.
        congruence.
    + destruct (key_eqb k0 (VStr s)) eqn:E1.
      * apply key_eqb_str_r in E1. subst k0.
        destruct (key_eqb k' (VStr s)) eqn:E2; [|reflexivity].
        apply key_eqb_str_r in E2. subst k'.
        simpl in E0. now rewrite String.eqb_refl in E0.
      * exact IH.
Qed.

Lemma dict_merge_snoc (d m : dict) (k v : val) :
  dict_merge d (m ++ [(k, v)]) = dict_set k v (dict_merge d m).
Proof.
  unfold dict_merge. now rewrite fold_left_app.
Qed.

(** Looking up a string key after [d.update(m)]: the last entry of [m]
    for the key, or else what [d] had. *)
Lemma dict_find_merge (s : string) (d m : dict) :
  dict_find (VStr s) (dict_merge d m)
  = match dict_find (VStr s) (rev m) with
    | Some v => Some v
    | None => dict_find (VStr s) d
    end.
Proof.
  induction m as [|[k v] m IH] using rev_ind; simpl.
  - reflexivity.
  - rewrite dict_merge_snoc, dict_find_set_str, rev_app_distr. simpl.
    destruct (key_eqb k (VStr s)); [reflexivity | exact IH].
Qed.

Lemma dict_find_app_none {V : Type} (k : val) (d1 d2 : list (val * V)) :
  dict_find k (d1 ++ d2) = None
  <-> dict_find k d1 = None /\ dict_find k d2 = None.
Proof.
  induction d1 as [|[k0 v0] d1 IH]; simpl.
  - split; [intros H; now split | now intros [_ H]].
  - destruct (key_eqb k0 k); [|exact IH].
    split; [discriminate | now intros [H _]].
Qed.

Lemma dict_find_rev_none {V : Type} (k : val) (d : list (val * V)) :
  dict_find k (rev d) = None <-> dict_find k d = None.
Proof.
  induction d as [|[k0 v0] d IH]; simpl.
  - reflexivity.
  - rewrite dict_find_app_none, IH. simpl.
    destruct (key_eqb k0 k); split; try tauto; try discriminate.
Qed.

(** A key that the merged object does not hold keeps its value. *)
Lemma dict_find_merge_absent (s : string) (d m : dict) :
  dict_find (VStr s) m = None ->
  dict_find (VStr s) (dict_merge d m) = dict_find (VStr s) d.
Proof.
  intros H. rewrite dict_find_merge.
  apply dict_find_rev_none in H. now rewrite H.
Qed.

(** *** Running programs *)

Lemma run_bind {A B : Type} (p : prog A) (f : A -> prog B) :
  forall script a calls script',
    run p script = Some (Returned a, calls) ->
    run (bind p f) (script ++ script') = after_calls calls (run (f a) script').
Proof.
  induction p as [a0|e|q num k IH|prompt k IH]; intros script a calls script' H.
  - destruct script; simpl in H; [|discriminate].
    injection H as Ha Hc. subst. simpl.
    destruct (run (f a) script') as [[o c]|]; reflexivity.
  - destruct script; simpl in H; discriminate.
  - destruct script as [|[r|r] script]; simpl in H; try discriminate.
    destruct (run (k r) script) as [[o c]|] eqn:E; [|discriminate].
    injection H as Ha Hc. subst. simpl.
    rewrite (IH r script a c script' E).
    destruct (run (f a) script') as [[o' c']|]; reflexivity.
  - destruct script as [|[r|r] script]; simpl in H; try discriminate.
    destruct (run (k r) script) as [[o c]|] eqn:E; [|discriminate].
    injection H as Ha Hc. subst. simpl.
    rewrite (IH r script a c script' E).
    destruct (run (f a) script') as [[o' c']|]; reflexivity.
Qed.

Lemma run_bind_ret {A B : Type} (p : prog A) (f : A -> prog B)
  (script : list reply) (a : A) (b : B) (calls : list call) :
  run p script = Some (Returned a, calls) ->
  f a = Ret b ->
  run (bind p f) script = Some (Returned b, calls).
Proof.
  intros H Hf.
  rewrite <- (app_nil_r script), (run_bind p f script a calls [] H), Hf.
  simpl. now rewrite app_nil_r.
Qed.

Lemma run_bind_raise {A B : Type} (p : prog A) (f : A -> prog B)
  (script : list reply) (a : A) (e : exn) (calls : list call) :
  run p script = Some (Returned a, calls) ->
  f a = Raise e ->
  run (bind p f) script = Some (Raised e, calls).
Proof.
  intros H Hf.
  rewrite <- (app_nil_r script), (run_bind p f script a calls [] H), Hf.
  simpl. now rewrite app_nil_r.
Qed.

Lemma after_calls_app {A : Type} (c1 c2 : list call)
  (r : option (outcome A * list call)) :
  after_calls c1 (after_calls c2 r) = after_calls (c1 ++ c2) r.
Proof.
  destruct r as [[o c]|]; simpl; [|reflexivity]. now rewrite app_assoc.
Qed.

(** One call of [perform_GoogleSearch]. *)
Lemma run_search {B : Type} (query : string) (num_results : option nat)
  (f : list item -> prog B) (r : search_reply) (script : list reply) :
  run (results <- perform_GoogleSearch query num_results ;; f results)
    (SearchReply r :: script)
  = after_calls
      [SearchCall query (match num_results with Some n => n | None => 5 end)]
      (run (f (items_of r)) script).
Proof.
  destruct r as [e|[items|]]; simpl;
    destruct (run (f _) script) as [[o c]|]; reflexivity.
Qed.

Lemma run_bind_assoc {A B C : Type} (p : prog A) (g : A -> prog B)
  (f : B -> prog C) :
  forall script,
    run (bind (bind p g) f) script
    = run (bind p (fun x => bind (g x) f)) script.
Proof.
  induction p as [a|e|q num k IH|prompt k IH]; intros script.
  - reflexivity.
  - reflexivity.
  - destruct script as [|[r|r] script]; simpl; try reflexivity.
    now rewrite IH.
  - destruct script as [|[r|r] script]; simpl; try reflexivity.
    now rewrite IH.
Qed.

(** *** Strings *)

Lemma append_assoc (a b c : string) :
  ((a ++ b) ++ c)%string = (a ++ b ++ c)%string.
Proof.
  induction a as [|x a IH]; simpl; [reflexivity | now rewrite IH].
Qed.

Lemma append_nil_r (a : string) : (a ++ EmptyString)%string = a.
Proof.
  induction a as [|x a IH]; simpl; [reflexivity | now rewrite IH].
Qed.

Lemma length_append (a b : string) :
  String.length (a ++ b) = String.length a + String.length b.
Proof.
  induction a as [|x a IH]; simpl; [reflexivity | now rewrite IH].
Qed.

Lemma snippets_text_app (l1 l2 : list item) :
  snippets_text (l1 ++ l2) = (snippets_text l1 ++ snippets_text l2)%string.
Proof.
  induction l1 as [|it l1 IH]; cbn [snippets_text app]; [reflexivity|].
  now rewrite IH, append_assoc.
Qed.

(** The search text is empty exactly when there is no item. *)
Lemma snippets_text_empty (l : list item) :
  Str.is_empty (snippets_text l) = match l with [] => true | _ => false end.
Proof.
  destruct l as [|it l]; reflexivity.
Qed.

(** *** The search loops under [perform_GoogleSearch] *)

Lemma run_research_searches {B : Type} (f : dict * string -> prog B) :
  forall queries replies research_data all_search_text script,
    List.length replies = List.length queries ->
    run (found <- research_searches perform_GoogleSearch queries
                    research_data all_search_text ;;
         f found)
      (map SearchReply replies ++ script)
    = after_calls (search_calls 5 queries)
        (run (f (fold_left (fun d r => extend_search_results d (items_of r))
                   replies research_data,
                 (all_search_text ++ snippets_text (all_items replies))%string))
           script).
Proof.
  induction queries as [|q queries IH]; intros replies rd txt script Hlen.
  - destruct replies; [|discriminate]. simpl. rewrite append_nil_r.
    destruct (run _ script) as [[o c]|]; reflexivity.
  - destruct replies as [|r replies]; [discriminate|].
    injection Hlen as Hlen.
    cbn [research_searches map app].
    rewrite run_bind_assoc, run_search, (IH replies _ _ script Hlen).
    rewrite after_calls_app.
    cbn [fold_left all_items flat_map].
    fold (all_items replies).
    now rewrite snippets_text_app, append_assoc.
Qed.

Lemma run_trend_searches {B : Type} (f : string -> prog B) :
  forall queries replies trend_snippets script,
    List.length replies = List.length queries ->
    run (text <- trend_searches perform_GoogleSearch queries trend_snippets ;;
         f text)
      (map SearchReply replies ++ script)
    = after_calls (search_calls 3 queries)
        (run (f (trend_snippets ++ snippets_text (all_items replies))%string)
           script).
Proof.
  induction queries as [|q queries IH]; intros replies txt script Hlen.
  - destruct replies; [|discriminate]. simpl. rewrite append_nil_r.
    destruct (run _ script) as [[o c]|]; reflexivity.
  - destruct replies as [|r replies]; [discriminate|].
    injection Hlen as Hlen.
    cbn [trend_searches map app].
    rewrite run_bind_assoc, run_search, (IH replies _ script Hlen).
    rewrite after_calls_app.
    cbn [all_items flat_map].
    fold (all_items replies).
    now rewrite snippets_text_app, append_assoc.
Qed.

(** *** The research agent *)

Lemma run_research_agent (name : string) (replies : list search_reply)
  (script : list reply) :
  List.length replies = 4 ->
  run (research_agent name perform_GoogleSearch)
    (map SearchReply replies ++ script)
  = after_calls (search_calls 5 (research_queries name))
      (run (research_extraction name (researched name replies)
              (snippets_text (all_items replies)))
         script).
Proof.
  intros Hlen. unfold research_agent.
  now rewrite run_research_searches.
Qed.

Lemma all_items_nil (replies : list search_reply) :
  Forall (fun r => items_of r = []) replies -> all_items replies = [].
Proof.
  induction 1 as [|r replies Hr _ IH]; [reflexivity|].
  unfold all_items in *. simpl. now rewrite Hr, IH.
Qed.

(** The searches only touch the key ["search_results"]. *)
Lemma dict_find_extend (k : string) (d : dict) (results : list item) :
  (k =? "search_results")%string = false ->
  dict_find (VStr k) (extend_search_results d results) = dict_find (VStr k) d.
Proof.
  intros Hk. unfold extend_search_results.
  destruct (dict_find (VStr "search_results") d) as [[]|]; try reflexivity.
  unfold set_field. rewrite dict_find_set_str.
  change (key_eqb (VStr "search_results") (VStr k))
    with ("search_results" =? k)%string.
  now rewrite String.eqb_sym, Hk.
Qed.

Lemma dict_find_researched (k name : string) (replies : list search_reply) :
  (k =? "search_results")%string = false ->
  dict_find (VStr k) (researched name replies)
  = dict_find (VStr k) (initial_research_data name).
Proof.
  intros Hk. unfold researched.
  generalize (initial_research_data name) as d.
  induction replies as [|r replies IH]; intros d; simpl; [reflexivity|].
  now rewrite IH, dict_find_extend.
Qed.

Lemma extract_info_object (research_data : dict) (s : string) (m : dict) :
  parsed_object s m ->
  extract_info research_data s = dict_merge research_data m.
Proof.
  unfold extract_info.
  intros [H | (e & H & He & H2)]; rewrite H; [reflexivity|].
  now rewrite He, H2.
Qed.

(** *** The gate *)

Lemma dict_get_of_get_none (d : dict) (k s : string) (default : val) :
  dict_get_none d k = VStr s -> dict_get d k default = VStr s.
Proof.
  unfold dict_get_none, dict_get.
  destruct (dict_find (VStr k) d); [auto | discriminate].
Qed.

Lemma research_failed_insufficient (research_data : option dict) :
  research_failed research_data -> insufficient research_data = inr true.
Proof.
  destruct research_data as [d|]; [|reflexivity].
  destruct d as [|entry d]; [reflexivity|].
  generalize (entry :: d) as d'. clear entry d. intros d H.
  assert (G : (if is_none_or_na (dict_get_none d "industry") then inr true
               else py_in "Error" (dict_get d "industry" (VStr EmptyString)))
              = (inr true : exn + bool)).
  { destruct H as [H | (s & Hs & Hc)].
    - now rewrite H.
    - rewrite (dict_get_of_get_none d "industry" s _ Hs), Hs. simpl.
      rewrite Hc. now destruct (s =? "N/A")%string. }
  destruct d; [reflexivity | exact G].
Qed.

Lemma proposal_failed (research_output : option dict)
  (search_tool : search_tool_t) :
  research_failed research_output ->
  proposal research_output search_tool = Ret (failed_bundle research_output).
Proof.
  intros H. unfold proposal.
  now rewrite (research_failed_insufficient _ H).
Qed.

(** C2.  When the four research searches give no item, [research_agent]
    returns [None] and [orchestrator] returns the bundle of a failed
    research, after the four search calls and no other call.  Whenever the
    result of the research fails the gate, what [orchestrator] does next
    is to return the bundle with empty [use_cases], [resource_links] and
    [genai_suggestions] and the status ["Failed Research"], without a
    call: no other agent runs. *)
Theorem failed_research_short_circuit :
  (forall name replies,
      List.length replies = 4 ->
      Forall (fun r => items_of r = []) replies ->
      run (research_agent name perform_GoogleSearch) (map SearchReply replies)
      = Some (Returned None, search_calls 5 (research_queries name))
      /\ run (orchestrator name perform_GoogleSearch) (map SearchReply replies)
         = Some (Returned (failed_bundle None),
                 search_calls 5 (research_queries name)))
  /\ (forall research_output search_tool,
         research_failed research_output ->
         proposal research_output search_tool
         = Ret (failed_bundle research_output))
  /\ (forall name search_tool script research_output calls,
         run (research_agent name search_tool) script
         = Some (Returned research_output, calls) ->
         research_failed research_output ->
         run (orchestrator name search_tool) script
         = Some (Returned (failed_bundle research_output), calls)).
Proof.
  split; [|split].
  - intros name replies Hlen Hnone.
    assert (R : run (research_agent name perform_GoogleSearch)
                  (map SearchReply replies)
                = Some (Returned None, search_calls 5 (research_queries name))).
    { rewrite <- (app_nil_r (map SearchReply replies)).
      rewrite (run_research_agent name replies [] Hlen).
      rewrite (all_items_nil replies Hnone). reflexivity. }
    split; [exact R|].
    unfold orchestrator. apply (run_bind_ret _ _ _ _ _ _ R).
    now apply proposal_failed.
  - intros. now apply proposal_failed.
  - intros name search_tool script research_output calls R H.
    unfold orchestrator. apply (run_bind_ret _ _ _ _ _ _ R).
    now apply proposal_failed.
Qed.

(** C8.  On a research that fails the gate (no dictionary, or an
    [industry] that is ["N/A"], or an [industry] in which ["Error"]
    occurs), [use_case_generation_agent] and
    [optional_genai_proposer_agent] are the program that returns the
    empty list at once: they make no search call and no generation
    call, whatever the search tool is. *)
Theorem insufficient_research_skips_agents (research_data : option dict)
  (search_tool : search_tool_t) :
  research_failed research_data ->
  use_case_generation_agent research_data search_tool = Ret []
  /\ optional_genai_proposer_agent research_data = Ret []
  /\ run (use_case_generation_agent research_data search_tool) []
     = Some (Returned [], [])
  /\ run (optional_genai_proposer_agent research_data) []
     = Some (Returned [], []).
Proof.
  intros H.
  assert (U : use_case_generation_agent research_data search_tool = Ret []).
  { unfold use_case_generation_agent.
    now rewrite (research_failed_insufficient _ H). }
  assert (G : optional_genai_proposer_agent research_data = Ret []).
  { unfold optional_genai_proposer_agent.
    now rewrite (research_failed_insufficient _ H). }
  rewrite U, G. repeat split.
Qed.

(** C10.  When the research searches give at least one item and the
    response of the generator is decoded as an object without the key
    ["industry"], [research_agent] returns a dictionary whose
    [industry] is ["N/A"], and [orchestrator] returns the bundle of a
    failed research, with empty collections, after the four search calls
    and the generation call. *)
Theorem object_without_industry (name : string)
  (replies : list search_reply) (text : string) (m : dict) :
  List.length replies = 4 ->
  all_items replies <> [] ->
  parsed_object (Str.strip text) m ->
  dict_find (VStr "industry") m = None ->
  let script := map SearchReply replies ++ [GenReply (inr text)] in
  let calls :=
    search_calls 5 (research_queries name)
    ++ [GenCall (research_prompt name (snippets_text (all_items replies)))] in
  exists research_data,
    run (research_agent name perform_GoogleSearch) script
    = Some (Returned (Some research_data), calls)
    /\ dict_get_none research_data "industry" = VStr "N/A"
    /\ run (orchestrator name perform_GoogleSearch) script
       = Some (Returned (failed_bundle (Some research_data)), calls).
Proof.
  intros Hlen Hitems Hparsed Hm script calls.
  set (research_data :=
         ensure_industry (dict_merge (researched name replies) m)).
  exists research_data.
  assert (R : run (research_agent name perform_GoogleSearch) script
              = Some (Returned (Some research_data), calls)).
  { unfold script. rewrite (run_research_agent name replies _ Hlen).
    unfold research_extraction.
    rewrite snippets_text_empty.
    destruct (all_items replies) as [|it items] eqn:E; [congruence|].
    simpl run. rewrite (extract_info_object _ _ _ Hparsed).
    reflexivity. }
  assert (I : dict_get_none research_data "industry" = VStr "N/A").
  { unfold research_data, ensure_industry, dict_get_none, dict_get.
    rewrite (dict_find_merge_absent _ _ _ Hm).
    rewrite dict_find_researched by reflexivity. simpl.
    unfold set_field. now rewrite dict_find_set_str. }
  split; [exact R|]. split; [exact I|].
  unfold orchestrator. apply (run_bind_ret _ _ _ _ _ _ R).
  apply proposal_failed. simpl. left. now rewrite I.
Qed.

(** *** The generating agents *)

Lemma run_research_agent_object (name : string)
  (replies : list search_reply) (text : string) (m : dict) :
  List.length replies = 4 ->
  all_items replies <> [] ->
  parsed_object (Str.strip text) m ->
  run (research_agent name perform_GoogleSearch)
    (map SearchReply replies ++ [GenReply (inr text)])
  = Some (Returned
            (Some (ensure_industry (dict_merge (researched name replies) m))),
          research_calls name replies).
Proof.
  intros Hlen Hitems Hparsed.
  rewrite (run_research_agent name replies _ Hlen).
  unfold research_extraction. rewrite snippets_text_empty.
  destruct (all_items replies) as [|it items] eqn:E; [congruence|].
  simpl run. rewrite (extract_info_object _ _ _ Hparsed).
  unfold research_calls. now rewrite E.
Qed.

Lemma run_use_case_generation_agent (research_data : dict) (p : profile)
  (replies : list search_reply) (r : generation_reply) :
  insufficient (Some research_data) = inr false ->
  read_profile research_data = inr p ->
  List.length replies = 4 ->
  run (use_case_generation_agent (Some research_data) perform_GoogleSearch)
    (map SearchReply replies ++ [GenReply r])
  = Some (Returned (list_of_reply r), use_case_calls p replies).
Proof.
  intros Hgate Hp Hlen. unfold use_case_generation_agent.
  rewrite Hgate. cbn [lift bind]. rewrite Hp. cbn [lift bind].
  rewrite run_trend_searches by exact Hlen.
  unfold use_case_calls, trend_text, generate_list.
  destruct r as [e|text]; reflexivity.
Qed.

Lemma run_optional_genai_proposer_agent (research_data : dict) (p : profile)
  (r : generation_reply) :
  insufficient (Some research_data) = inr false ->
  read_profile research_data = inr p ->
  run (optional_genai_proposer_agent (Some research_data)) [GenReply r]
  = Some (Returned (match list_of_reply r with
                    | [] => [fallback_suggestion]
                    | l => l
                    end),
          [GenCall (genai_prompt p)]).
Proof.
  intros Hgate Hp. unfold optional_genai_proposer_agent.
  rewrite Hgate. cbn [lift bind]. rewrite Hp. cbn [lift bind].
  unfold generate_list. cbn [bind run].
  destruct r as [e|text]; cbn [list_of_reply bind].
  - reflexivity.
  - destruct (parse_list (Str.strip text)); reflexivity.
Qed.

Lemma parse_list_first_tier (s : string) (v : val) :
  json_loads s = inr v -> parse_list s = as_list v.
Proof.
  intros H. unfold parse_list. now rewrite H.
Qed.

(** C5, as amended.  When [research_agent] decodes the response as the
    object [m], it returns the research dictionary merged with [m]:
    every key of [m], whatever its name, has the value that the last
    entry of [m] for it gives, and a key that [m] does not hold keeps
    its value, ["input_name"] and ["search_results"] among them; the
    last step touches ["industry"] only. *)
Theorem merge_sets_the_keys_of_the_object (name : string)
  (replies : list search_reply) (text : string) (m : dict) :
  List.length replies = 4 ->
  all_items replies <> [] ->
  parsed_object (Str.strip text) m ->
  let before := researched name replies in
  let merged := dict_merge before m in
  run (research_agent name perform_GoogleSearch)
    (map SearchReply replies ++ [GenReply (inr text)])
  = Some (Returned (Some (ensure_industry merged)), research_calls name replies)
  /\ (forall k, dict_find (VStr k) m = None ->
                dict_find (VStr k) merged = dict_find (VStr k) before)
  /\ (forall k v, dict_find (VStr k) (rev m) = Some v ->
                  dict_find (VStr k) merged = Some v)
  /\ (forall k, (k =? "industry")%string = false ->
                dict_find (VStr k) (ensure_industry merged)
                = dict_find (VStr k) merged).
Proof.
  intros Hlen Hitems Hparsed before merged.
  split; [now apply run_research_agent_object|].
  split; [intros k Hk; now apply dict_find_merge_absent|].
  split.
  - intros k v Hk. unfold merged. now rewrite dict_find_merge, Hk.
  - intros k Hk. unfold ensure_industry.
    destruct (dict_get_none merged "industry"); try reflexivity.
    unfold set_field. rewrite dict_find_set_str.
    change (key_eqb (VStr "industry") (VStr k))
      with ("industry" =? k)%string.
    now rewrite String.eqb_sym, Hk.
Qed.

(** *** Searching a character and slicing *)

Lemma find_ge (c : ascii) (s : string) : (-1 <= Str.find c s)%Z.
Proof.
  induction s as [|a s IH]; simpl; [lia|].
  destruct (Ascii.eqb a c); [lia|].
  destruct (Z.eqb_spec (Str.find c s) (-1)); lia.
Qed.

Lemma rfind_ge (c : ascii) (s : string) : (-1 <= Str.rfind c s)%Z.
Proof.
  induction s as [|a s IH]; simpl; [lia|].
  destruct (Z.eqb_spec (Str.rfind c s) (-1)); [|lia].
  destruct (Ascii.eqb a c); lia.
Qed.

(** The first [c] of a text is past a prefix without [c]. *)
Lemma find_app (c : ascii) (pre rest : string) :
  Str.find c pre = (-1)%Z ->
  Str.find c (pre ++ String c rest) = Z.of_nat (String.length pre).
Proof.
  induction pre as [|a pre IH]; simpl.
  - intros _. now rewrite Ascii.eqb_refl.
  - destruct (Ascii.eqb a c); [discriminate|].
    destruct (Z.eqb_spec (Str.find c pre) (-1)) as [E|E].
    + intros _. rewrite (IH E).
      destruct (Z.eqb_spec (Z.of_nat (String.length pre)) (-1)); lia.
    + pose proof (find_ge c pre). lia.
Qed.

(** The last [c] of a text is before a suffix without [c]. *)
Lemma rfind_app (c : ascii) (pre post : string) :
  Str.rfind c post = (-1)%Z ->
  Str.rfind c (pre ++ String c post) = Z.of_nat (String.length pre).
Proof.
  intros H. induction pre as [|a pre IH]; simpl.
  - now rewrite H, Ascii.eqb_refl.
  - rewrite IH.
    destruct (Z.eqb_spec (Z.of_nat (String.length pre)) (-1)); lia.
Qed.

Lemma substring_skip (pre s : string) (n : nat) :
  substring (String.length pre) n (pre ++ s) = substring 0 n s.
Proof.
  induction pre as [|a pre IH]; simpl; [reflexivity | exact IH].
Qed.

Lemma substring_prefix (x post : string) :
  substring 0 (String.length x) (x ++ post) = x.
Proof.
  induction x as [|a x IH]; simpl.
  - now destruct post.
  - now rewrite IH.
Qed.

(** The part of a text that is short enough is the text. *)
Lemma substring_all (s : string) (n : nat) :
  String.length s <= n -> substring 0 n s = s.
Proof.
  revert n. induction s as [|a s IH]; intros n H; simpl.
  - now destruct n.
  - destruct n as [|n]; simpl in H; [lia|].
    rewrite IH; [reflexivity | lia].
Qed.

(** The slice from the first opening bracket to the last closing one. *)
Lemma bracket_slice (pre mid post : string) :
  Str.find "["%char pre = (-1)%Z ->
  Str.rfind "]"%char post = (-1)%Z ->
  let cleaned := (pre ++ "[" ++ mid ++ "]" ++ post)%string in
  let start_index := Str.find "["%char cleaned in
  let end_index := Str.rfind "]"%char cleaned in
  (negb (start_index =? -1) && negb (end_index =? -1)
   && (start_index <? end_index))%Z = true
  /\ Str.slice start_index (end_index + 1) cleaned
     = ("[" ++ mid ++ "]")%string.
Proof.
  intros Hpre Hpost cleaned start_index end_index.
  assert (Hs : start_index = Z.of_nat (String.length pre)).
  { unfold start_index, cleaned. now apply find_app. }
  assert (He : end_index
              = Z.of_nat (String.length pre + S (String.length mid))).
  { unfold end_index, cleaned.
    change (pre ++ "[" ++ mid ++ "]" ++ post)%string
      with (pre ++ String "["%char (mid ++ String "]"%char post))%string.
    replace (pre ++ String "["%char (mid ++ String "]"%char post))%string
      with ((pre ++ String "["%char mid) ++ String "]"%char post)%string
      by (now rewrite append_assoc).
    rewrite (rfind_app _ _ _ Hpost), length_append. reflexivity. }
  rewrite Hs, He. split.
  - destruct (Z.eqb_spec (Z.of_nat (String.length pre)) (-1)); [lia|].
    destruct (Z.eqb_spec
                (Z.of_nat (String.length pre + S (String.length mid))) (-1));
      [lia|].
    simpl. apply Z.ltb_lt. lia.
  - unfold Str.slice. rewrite Nat2Z.id.
    replace (Z.to_nat
               (Z.of_nat (String.length pre + S (String.length mid)) + 1
                - Z.of_nat (String.length pre)))
      with (String.length ("[" ++ mid ++ "]")%string)
      by (rewrite length_append, length_append; simpl; lia).
    unfold cleaned. rewrite substring_skip.
    replace ("[" ++ mid ++ "]" ++ post)%string
      with (("[" ++ mid ++ "]") ++ post)%string
      by (now rewrite !append_assoc).
    apply substring_prefix.
Qed.

(** C4, as amended.  In the agents that expect a list, a response that
    [json.loads] rejects is cleaned of its fences, and the text from the
    first opening square bracket to the last closing one is decoded: the
    agent returns the list it holds, or the empty list.
    [research_agent], which expects an object, has no such step: when
    the cleaned text is rejected too, the four fields get the parsing
    marker, whatever braces the text holds. *)
Theorem bracket_salvage :
  (forall s e pre mid post,
      json_loads s = inl e ->
      is_JSONDecodeError e = true ->
      clean_fences s = (pre ++ "[" ++ mid ++ "]" ++ post)%string ->
      Str.find "["%char pre = (-1)%Z ->
      Str.rfind "]"%char post = (-1)%Z ->
      parse_list s
      = match json_loads ("[" ++ mid ++ "]") with
        | inr v => as_list v
        | inl _ => []
        end)
  /\ (forall research_data p replies text,
         insufficient (Some research_data) = inr false ->
         read_profile research_data = inr p ->
         List.length replies = 4 ->
         run (use_case_generation_agent (Some research_data)
                perform_GoogleSearch)
           (map SearchReply replies ++ [GenReply (inr text)])
         = Some (Returned (parse_list (Str.strip text)),
                 use_case_calls p replies))
  /\ (forall research_data s e e2,
         json_loads s = inl e ->
         is_JSONDecodeError e = true ->
         json_loads (clean_fences s) = inl e2 ->
         is_JSONDecodeError e2 = true ->
         extract_info research_data s
         = failure_fields "Extraction Failed (Parsing Error)" research_data).
Proof.
  split; [|split].
  - intros s e pre mid post H He Hc Hpre Hpost.
    unfold parse_list. rewrite H, He, Hc.
    destruct (bracket_slice pre mid post Hpre Hpost) as [Hcond Hslice].
    cbv zeta in Hcond, Hslice. now rewrite Hcond, Hslice.
  - intros research_data p replies text Hgate Hp Hlen.
    now rewrite (run_use_case_generation_agent _ p _ _ Hgate Hp Hlen).
  - intros research_data s e e2 H He H2 He2.
    unfold extract_info. now rewrite H, He, H2, He2.
Qed.

(** *** The suggestions *)

Lemma join_values_strings (l : list val) :
  forallb (fun x => match x with VStr _ => true | _ => false end) l = true ->
  forall i, exists r, join_values i l = inr r.
Proof.
  induction l as [|x l IH]; intros H i; simpl.
  - now exists [].
  - simpl in H. apply andb_prop in H. destruct H as [Hx Hl].
    destruct x; try discriminate.
    destruct (IH Hl (S i)) as [r Hr]. rewrite Hr. now exists (s :: r).
Qed.

Lemma join_values_list_or (v : val) (s : string) :
  joinable v = true -> exists r, join_values 0 (list_or v [VStr s]) = inr r.
Proof.
  intros H.
  destruct v as [| | | | |l|]; try (now exists [s]).
  destruct l as [|x l]; [now exists [s]|].
  now apply join_values_strings.
Qed.

(** A research dictionary whose two list fields are well formed can be
    read. *)
Lemma read_profile_joinable (research_data : dict) :
  joinable (dict_get_none research_data "offerings") = true ->
  joinable (dict_get_none research_data "strategic_focus") = true ->
  exists p, read_profile research_data = inr p.
Proof.
  intros Ho Hf. unfold read_profile.
  destruct (join_values_list_or _ "various products/services" Ho) as [o ->].
  destruct (join_values_list_or _
              "improving operations and customer experience" Hf) as [f ->].
  eexists. reflexivity.
Qed.

(** X20.  Past its gate, on a research whose two list fields hold
    strings, [optional_genai_proposer_agent] makes one generation call
    and returns a list that is not empty, whatever the generator does:
    the list got from the reply when it is not empty, and the fallback
    suggestion alone when it is empty or when the generator raises.  On
    a research that fails the gate the agent returns the empty list,
    without the fallback. *)
Theorem suggestions_are_never_empty :
  (forall research_data r,
      insufficient (Some research_data) = inr false ->
      joinable (dict_get_none research_data "offerings") = true ->
      joinable (dict_get_none research_data "strategic_focus") = true ->
      exists p suggestions,
        read_profile research_data = inr p
        /\ run (optional_genai_proposer_agent (Some research_data))
             [GenReply r]
           = Some (Returned suggestions, [GenCall (genai_prompt p)])
        /\ 1 <= List.length suggestions
        /\ (list_of_reply r = [] -> suggestions = [fallback_suggestion])
        /\ (forall e, r = inl e -> suggestions = [fallback_suggestion])
        /\ (list_of_reply r <> [] -> suggestions = list_of_reply r))
  /\ (forall research_data,
         research_failed research_data ->
         optional_genai_proposer_agent research_data = Ret []).
Proof.
  split.
  - intros research_data r Hgate Ho Hf.
    destruct (read_profile_joinable research_data Ho Hf) as [p Hp].
    exists p. eexists. split; [exact Hp|].
    split; [now apply run_optional_genai_proposer_agent|].
    split; [|split; [|split]].
    + destruct (list_of_reply r); simpl; lia.
    + now intros ->.
    + now intros e ->.
    + destruct (list_of_reply r); [contradiction | reflexivity].
  - intros research_data H. unfold optional_genai_proposer_agent.
    now rewrite (research_failed_insufficient _ H).
Qed.

(** *** The trend text and its truncation *)

Lemma prefix_app (sub x y : string) :
  prefix sub x = true -> prefix sub (x ++ y) = true.
Proof.
  revert sub. induction x as [|a x IH]; intros sub; simpl.
  - destruct sub; [now destruct y | discriminate].
  - destruct sub as [|b sub]; [reflexivity|].
    destruct (ascii_dec b a); [apply IH | discriminate].
Qed.

Lemma prefix_refl_app (sub y : string) : prefix sub (sub ++ y) = true.
Proof.
  apply prefix_correct, substring_prefix.
Qed.

Lemma contains_unfold (sub s : string) :
  Str.contains sub s
  = prefix sub s
    || match s with
       | EmptyString => false
       | String _ s' => Str.contains sub s'
       end.
Proof.
  destruct s; reflexivity.
Qed.

Lemma contains_refl (sub : string) : Str.contains sub sub = true.
Proof.
  rewrite contains_unfold.
  rewrite <- (append_nil_r sub) at 2. now rewrite prefix_refl_app.
Qed.

Lemma contains_app_l (sub x y : string) :
  Str.contains sub x = true -> Str.contains sub (x ++ y) = true.
Proof.
  induction x as [|a x IH]; intros H;
    rewrite contains_unfold in H; apply orb_prop in H; destruct H as [H|H];
    try discriminate;
    try (rewrite contains_unfold, (prefix_app _ _ y H); reflexivity).
  rewrite contains_unfold. cbn [append]. rewrite (IH H). apply orb_true_r.
Qed.

Lemma contains_app_r (sub x y : string) :
  Str.contains sub y = true -> Str.contains sub (x ++ y) = true.
Proof.
  intros H. induction x as [|a x IH]; [exact H|].
  rewrite contains_unfold. cbn [append]. rewrite IH. apply orb_true_r.
Qed.

Lemma contains_here (sub x : string) (l : list string) :
  Str.contains sub x = true -> Str.contains sub (Str.cat (x :: l)) = true.
Proof.
  intros H. cbn [Str.cat]. now apply contains_app_l.
Qed.

Lemma contains_later (sub x : string) (l : list string) :
  Str.contains sub (Str.cat l) = true ->
  Str.contains sub (Str.cat (x :: l)) = true.
Proof.
  intros H. cbn [Str.cat]. now apply contains_app_r.
Qed.

Ltac find_piece :=
  first [ apply contains_here; assumption
        | apply contains_later; find_piece ].

(** The start of a text that is long enough does not depend on what
    follows the text. *)
Lemma substring_app_long (a b : string) (n : nat) :
  n <= String.length a -> substring 0 n (a ++ b) = substring 0 n a.
Proof.
  revert n. induction a as [|x a IH]; intros n H; simpl in *.
  - assert (n = 0) as -> by lia. now destruct b.
  - destruct n as [|n]; [reflexivity|]. rewrite IH; [reflexivity | lia].
Qed.

(** C6, as amended.  Past its gate, [use_case_generation_agent] puts
    the insights after the search text and sends the generator the
    prompt of that trend text, of which the prompt keeps the first 7000
    characters.  The insights are in the prompt when the trend text has
    at most 7000 characters; when the search text alone has 7000
    characters or more, the prompt is the one of the search text
    alone. *)
Theorem insights_before_truncation (research_data : dict) (p : profile)
  (replies : list search_reply) (r : generation_reply) :
  insufficient (Some research_data) = inr false ->
  read_profile research_data = inr p ->
  List.length replies = 4 ->
  let search_text := snippets_text (all_items replies) in
  let insights := hypothetical_insights (industry p) in
  run (use_case_generation_agent (Some research_data) perform_GoogleSearch)
    (map SearchReply replies ++ [GenReply r])
  = Some (Returned (list_of_reply r),
          search_calls 3 (trend_queries (industry p) (segment p))
          ++ [GenCall (use_case_prompt p (search_text ++ insights))])
  /\ (String.length (search_text ++ insights) <= 7000 ->
      Str.contains insights (use_case_prompt p (search_text ++ insights))
      = true)
  /\ (7000 <= String.length search_text ->
      use_case_prompt p (search_text ++ insights)
      = use_case_prompt p search_text).
Proof.
  intros Hgate Hp Hlen search_text insights.
  split; [|split].
  - now rewrite (run_use_case_generation_agent _ p _ _ Hgate Hp Hlen).
  - intros Hfit.
    assert (H : Str.contains insights
                  (Str.take 7000 (search_text ++ insights)) = true).
    { unfold Str.take. rewrite (substring_all _ _ Hfit).
      apply contains_app_r, contains_refl. }
    unfold use_case_prompt. cbv zeta. find_piece.
  - intros Hlong. unfold use_case_prompt, Str.take.
    now rewrite (substring_app_long _ _ _ Hlong).
Qed.

(** *** The resource lists *)

Lemma existsb_eqb_In (link : string) (l : list string) :
  existsb (String.eqb link) l = true <-> In link l.
Proof.
  rewrite existsb_exists. split.
  - intros (x & Hx & E). apply String.eqb_eq in E. now subst.
  - intros H. exists link. split; [exact H | apply String.eqb_refl].
Qed.

Lemma is_empty_false (s : string) :
  Str.is_empty s = false <-> s <> EmptyString.
Proof.
  destruct s; simpl; split; congruence.
Qed.

Lemma collect_app (links : list resource) (a b : list item) :
  collect links (a ++ b) = collect (collect links a) b.
Proof.
  revert links. induction a as [|it a IH]; intros links; simpl.
  - reflexivity.
  - destruct (item_link it) as [link|]; [|apply IH].
    destruct (negb (Str.is_empty link)
              && negb (existsb (String.eqb link) (map res_link links)));
      apply IH.
Qed.

(** The links of a list stay pairwise distinct. *)
Lemma collect_NoDup (results : list item) :
  forall links,
    NoDup (map res_link links) ->
    NoDup (map res_link (collect links results)).
Proof.
  induction results as [|it results IH]; intros links H; simpl.
  - exact H.
  - destruct (item_link it) as [link|]; [|now apply IH].
    destruct (Str.is_empty link); simpl; [now apply IH|].
    destruct (existsb (String.eqb link) (map res_link links)) eqn:E; simpl;
      [now apply IH|].
    apply IH. rewrite map_app. simpl.
    apply NoDup_app; [exact H | repeat constructor; intros [] | ].
    intros x Hx [<-|[]].
    apply existsb_eqb_In in Hx. congruence.
Qed.

(** An entry of the list was there before, or it is made of the first
    item that has its link, which is not empty. *)
Lemma collect_first (results : list item) :
  forall links r,
    In r (collect links results) ->
    In r links
    \/ (~ In (res_link r) (map res_link links)
        /\ res_link r <> EmptyString
        /\ exists it, find (has_link (res_link r)) results = Some it
                      /\ r = resource_of it (res_link r)).
Proof.
  induction results as [|it results IH]; intros links r H; simpl in H.
  - now left.
  - assert (Skip :
      In r (collect links results) ->
      (forall link, item_link it = Some link ->
                    link = EmptyString \/ In link (map res_link links)) ->
      In r links
      \/ (~ In (res_link r) (map res_link links)
          /\ res_link r <> EmptyString
          /\ exists it0,
               find (has_link (res_link r)) (it :: results) = Some it0
               /\ r = resource_of it0 (res_link r))).
    { intros Hr Hlink. destruct (IH _ _ Hr) as [|(Hn & He & it0 & Hf & Hr0)];
        [now left|]. right. split; [exact Hn|]. split; [exact He|].
      exists it0. split; [|exact Hr0]. simpl.
      unfold has_link at 1. destruct (item_link it) as [link|]; [|exact Hf].
      destruct (String.eqb_spec link (res_link r)) as [->|]; [|exact Hf].
      destruct (Hlink _ eq_refl); contradiction. }
    destruct (item_link it) as [link|] eqn:L; [|apply Skip; [exact H|]].
    2: { intros link Hl. discriminate. }
    destruct (Str.is_empty link) eqn:Em; simpl in H.
    { apply Skip; [exact H|]. intros l Hl. injection Hl as <-.
      left. now destruct link. }
    destruct (existsb (String.eqb link) (map res_link links)) eqn:E;
      simpl in H.
    { apply Skip; [exact H|]. intros l Hl. injection Hl as <-.
      right. now apply existsb_eqb_In. }
    destruct (IH _ _ H) as [Hin|(Hn & He & it0 & Hf & Hr0)].
    + apply in_app_or in Hin. destruct Hin as [Hin|[<-|[]]]; [now left|].
      right. simpl. split.
      { intros Hin. apply existsb_eqb_In in Hin. congruence. }
      split; [now apply is_empty_false|].
      exists it. split; [|reflexivity].
      unfold has_link. now rewrite L, String.eqb_refl.
    + right. rewrite map_app in Hn. simpl in Hn.
      split; [intros Hin; apply Hn, in_or_app; now left|].
      split; [exact He|].
      exists it0. split; [|exact Hr0]. simpl.
      unfold has_link at 1. rewrite L.
      destruct (String.eqb_spec link (res_link r)) as [->|]; [|exact Hf].
      exfalso. apply Hn, in_or_app. right. now left.
Qed.

Lemma collect_keeps (results : list item) :
  forall links r, In r links -> In r (collect links results).
Proof.
  induction results as [|it results IH]; intros links r H; simpl.
  - exact H.
  - destruct (item_link it) as [link|]; [|now apply IH].
    destruct (negb (Str.is_empty link)
              && negb (existsb (String.eqb link) (map res_link links)));
      apply IH; [apply in_or_app; now left | exact H].
Qed.

(** Every link that is not empty has an entry. *)
Lemma collect_complete (results : list item) :
  forall links it link,
    In it results ->
    item_link it = Some link ->
    link <> EmptyString ->
    exists r, In r (collect links results) /\ res_link r = link.
Proof.
  induction results as [|it0 results IH]; intros links it link Hin L He;
    [destruct Hin|].
  destruct Hin as [->|Hin]; simpl.
  - rewrite L. apply is_empty_false in He. rewrite He. simpl.
    destruct (existsb (String.eqb link) (map res_link links)) eqn:E; simpl.
    + apply existsb_eqb_In, in_map_iff in E. destruct E as (r & Hr & Hin).
      exists r. split; [now apply collect_keeps | exact Hr].
    + eexists. split; [apply collect_keeps, in_or_app; right; now left|].
      reflexivity.
  - destruct (item_link it0) as [link0|]; [|now apply (IH _ it)].
    destruct (negb (Str.is_empty link0)
              && negb (existsb (String.eqb link0) (map res_link links)));
      now apply (IH _ it).
Qed.

Lemma in_dict_set {V : Type} (k k' : val) (v v' : V) (d : list (val * V)) :
  In (k', v') (dict_set k v d) -> v' = v \/ exists k0, In (k0, v') d.
Proof.
  induction d as [|[k0 v0] d IH]; simpl.
  - intros [H|[]]. injection H as _ <-. now left.
  - destruct (key_eqb k0 k); simpl.
    + intros [H|H]; [injection H as _ <-; now left|].
      right. exists k'. now right.
    + intros [H|H]; [injection H as _ <-; right; exists k0; now left|].
      destruct (IH H) as [|[k1 H1]]; [now left|].
      right. exists k1. now right.
Qed.

Lemma after_calls_returned {A : Type} (calls0 : list call)
  (r : option (outcome A * list call)) (a : A) (calls : list call) :
  after_calls calls0 r = Some (Returned a, calls) ->
  exists calls', r = Some (Returned a, calls').
Proof.
  destruct r as [[o c]|]; simpl; [|discriminate].
  intros H. injection H as -> _. now exists c.
Qed.

Lemma run_search_inv {B : Type} (query : string) (num_results : option nat)
  (f : list item -> prog B) (script : list reply)
  (x : outcome B * list call) :
  run (results <- perform_GoogleSearch query num_results ;; f results) script
  = Some x ->
  exists r script', script = SearchReply r :: script'.
Proof.
  destruct script as [|[r|r] script]; simpl; try discriminate.
  intros _. now exists r, script.
Qed.

Ltac bind_assoc_in H :=
  match type of H with
  | run (bind (bind ?p ?g) ?f) ?s = _ =>
      rewrite (run_bind_assoc p g f s) in H; cbv beta in H
  end.

Lemma collect_all_lists (use_cases : list val) :
  forall collected_links script m calls,
    run (collect_all perform_GoogleSearch use_cases collected_links) script
    = Some (Returned m, calls) ->
    forall title links,
      In (title, links) m ->
      (exists title', In (title', links) collected_links)
      \/ collected_from script links.
Proof.
  induction use_cases as [|uc use_cases IH];
    intros collected script m calls H title links Hin.
  - destruct script; simpl in H; [|discriminate].
    injection H as <- _. left. now exists title.
  - cbn [collect_all] in H.
    destruct uc as [| | | | | |d];
      try (destruct script; simpl in H; discriminate).
    destruct (hashable (dict_get d "title" (VStr "Untitled Use Case")));
      [|destruct script; simpl in H; discriminate].
    cbn [resource_queries resource_searches] in H.
    bind_assoc_in H.
    destruct (run_search_inv _ _ _ _ _ H) as (r1 & script1 & ->).
    rewrite run_search in H.
    apply after_calls_returned in H. destruct H as [calls1 H].
    bind_assoc_in H.
    destruct (run_search_inv _ _ _ _ _ H) as (r2 & script2 & ->).
    rewrite run_search in H.
    apply after_calls_returned in H. destruct H as [calls2 H].
    cbn [bind] in H.
    destruct (IH _ _ _ _ H title links Hin) as [[title' Hc]|Hc].
    + apply in_dict_set in Hc. destruct Hc as [->|Hc]; [|now left].
      right. exists r1, r2. rewrite collect_app.
      repeat split; simpl; auto.
    + right. destruct Hc as (ra & rb & Ha & Hb & Hl).
      exists ra, rb. repeat split; simpl; auto.
Qed.

Ltac bind_assoc :=
  match goal with
  | |- context [run (bind (bind ?p ?g) ?f) ?s] =>
      rewrite (run_bind_assoc p g f s); cbv beta
  end.

Lemma collect_all_returns (use_cases : list val) :
  forallb is_use_case use_cases = true ->
  forall replies collected_links,
    List.length replies = 2 * List.length use_cases ->
    exists m calls,
      run (collect_all perform_GoogleSearch use_cases collected_links)
        (map SearchReply replies)
      = Some (Returned m, calls).
Proof.
  induction use_cases as [|uc use_cases IH];
    intros Huc replies collected Hlen.
  - destruct replies; [|discriminate]. now exists collected, [].
  - simpl in Huc. apply andb_prop in Huc. destruct Huc as [Huc Hrest].
    destruct replies as [|r1 [|r2 replies]]; simpl in Hlen; try lia.
    destruct uc as [| | | | | |d]; try discriminate.
    cbn [collect_all]. simpl in Huc. rewrite Huc.
    cbn [resource_queries resource_searches map].
    bind_assoc. rewrite run_search.
    bind_assoc. rewrite run_search.
    cbn [bind].
    destruct (IH Hrest replies
                (dict_set (dict_get d "title" (VStr "Untitled Use Case"))
                   (collect (collect [] (items_of r1)) (items_of r2))
                   collected))
      as (m & calls & R); [lia|].
    rewrite R. simpl. eauto.
Qed.

(** On use cases that are dictionaries with a hashable title, and with
    two replies of the search for each of them, the agent returns. *)
Lemma resource_collection_agent_returns (use_cases : list val)
  (replies : list search_reply) :
  forallb is_use_case use_cases = true ->
  List.length replies = 2 * List.length use_cases ->
  exists m calls,
    run (resource_collection_agent use_cases perform_GoogleSearch)
      (map SearchReply replies)
    = Some (Returned m, calls).
Proof.
  intros Huc Hlen. unfold resource_collection_agent.
  destruct use_cases as [|uc use_cases].
  - destruct replies; [|discriminate]. now exists [], [].
  - now apply collect_all_returns.
Qed.

(** C9.  In the map that [resource_collection_agent] returns, the list
    of a use case is made of the items of two replies of the search:
    its links are pairwise distinct and not empty, the entry of a link
    is made of the first item that has the link, with the title and
    the snippet of that item, and every link that is not empty has an
    entry, so exactly one. *)
Theorem resource_links_are_deduplicated (use_cases : list val)
  (script : list reply) (m : list (val * list resource))
  (calls : list call) :
  run (resource_collection_agent use_cases perform_GoogleSearch) script
  = Some (Returned m, calls) ->
  forall title links,
    In (title, links) m ->
    NoDup (map res_link links)
    /\ exists r1 r2,
         In (SearchReply r1) script /\ In (SearchReply r2) script
         /\ let results := items_of r1 ++ items_of r2 in
            links = collect [] results
            /\ (forall r,
                   In r links ->
                   res_link r <> EmptyString
                   /\ exists it,
                        find (has_link (res_link r)) results = Some it
                        /\ r = resource_of it (res_link r))
            /\ (forall it link,
                   In it results ->
                   item_link it = Some link ->
                   link <> EmptyString ->
                   exists r, In r links /\ res_link r = link).
Proof.
  intros H title links Hin.
  assert (C : collected_from script links).
  { unfold resource_collection_agent in H.
    destruct use_cases as [|uc use_cases].
    - destruct script; simpl in H; [|discriminate].
      injection H as <- _. destruct Hin.
    - destruct (collect_all_lists _ _ _ _ _ H title links Hin)
        as [[title' []]|C]; exact C. }
  destruct C as (r1 & r2 & H1 & H2 & ->).
  split; [apply collect_NoDup; constructor|].
  exists r1, r2. split; [exact H1|]. split; [exact H2|].
  cbv zeta. split; [reflexivity|]. split.
  - intros r Hr.
    destruct (collect_first _ _ _ Hr) as [[]|(_ & He & it & Hf & Hr0)].
    split; [exact He|]. now exists it.
  - intros it link Hi Hl He. now apply (collect_complete _ [] it).
Qed.

(** *** The gate on an [industry] that is not a string *)

(** When the [industry] of the research is an integer, the test of the
    gate raises, and so do [orchestrator] after the research and the two
    generating agents. *)
Lemma number_industry_raises (research_data : dict) (z : Z)
  (search_tool : search_tool_t) :
  dict_find (VStr "industry") research_data = Some (VInt z) ->
  let e := Exn TypeError "argument of type 'int' is not iterable" in
  proposal (Some research_data) search_tool = Raise e
  /\ use_case_generation_agent (Some research_data) search_tool = Raise e
  /\ optional_genai_proposer_agent (Some research_data) = Raise e.
Proof.
  intros H e.
  assert (G : insufficient (Some research_data) = inl e).
  { destruct research_data as [|entry d]; [discriminate|].
    unfold insufficient, dict_get_none, dict_get. now rewrite H. }
  unfold proposal, use_case_generation_agent, optional_genai_proposer_agent.
  rewrite G. repeat split.
Qed.

End Properties.

(** ** The pipeline on the inputs of the examples *)

Section Examples.

Import Ref.

Local Open Scope list_scope.

(** C1.  [orchestrator] raises: the searches give an item, the
    generator answers [{"industry": 5}], [research_agent] returns a
    dictionary whose [industry] is the number 5, and the test
    ["Error" in 5] of the gate raises a [TypeError] that nothing
    catches. *)
Theorem orchestrator_raises_on_number_industry :
  json_loads (Str.strip Sample.text_number_industry)
  = inr (VDict [(VStr "industry", VInt 5)])
  /\ run (orchestrator "Acme" perform_GoogleSearch)
       (map SearchReply Sample.research_replies
        ++ [GenReply (inr Sample.text_number_industry)])
     = Some (Raised (Exn TypeError "argument of type 'int' is not iterable"),
             research_calls "Acme" Sample.research_replies).
Proof.
  split; vm_compute; reflexivity.
Qed.


(** Against C3.  The generator answers [{"title": "Chatbot"}], which
    [json.loads] decodes at the first attempt;
    [use_case_generation_agent], which expects a list, returns the
    empty list and not the decoded value. *)
Lemma object_in_list_context_is_dropped :
  exists v calls,
    json_loads (Str.strip Sample.text_object) = inr v
    /\ run (use_case_generation_agent (Some Sample.retail)
              perform_GoogleSearch)
         (map SearchReply Sample.no_results
          ++ [GenReply (inr Sample.text_object)])
       = Some (Returned [], calls)
    /\ v <> VList [].
Proof.
  exists (VDict [(VStr "title", VStr "Chatbot")]).
  exists (use_case_calls Sample.retail_profile Sample.no_results).
  split; [vm_compute; reflexivity|].
  split; [vm_compute; reflexivity | discriminate].
Qed.

(** Against C4.  The generator answers an object within prose.  The text
    between the first opening brace and the last closing brace is the
    object, yet [research_agent] does not decode it: it marks the
    [industry] as a parsing failure. *)
Lemma object_in_prose_is_not_salvaged :
  let cleaned := clean_fences (Str.strip Sample.text_prose_object) in
  json_loads
    (Str.slice (Str.find "{"%char cleaned) (Str.rfind "}"%char cleaned + 1)
       cleaned)
  = inr (VDict [(VStr "industry", VStr "Retail")])
  /\ exists research_data,
       run (research_agent "Acme" perform_GoogleSearch)
         (map SearchReply Sample.research_replies
          ++ [GenReply (inr Sample.text_prose_object)])
       = Some (Returned (Some research_data),
               research_calls "Acme" Sample.research_replies)
       /\ dict_get_none research_data "industry"
          = VStr "Extraction Failed (Parsing Error)".
Proof.
  split; [vm_compute; reflexivity|].
  eexists. split; [vm_compute; reflexivity|].
  vm_compute. reflexivity.
Qed.

(** Against C5.  The generator answers
    [{"industry": "Retail", "input_name": "Globex"}]: the merge changes
    the [input_name] of the research dictionary. *)
Lemma merge_overrides_input_name :
  dict_get_none (researched "Acme" Sample.research_replies) "input_name"
  = VStr "Acme"
  /\ exists research_data,
       run (research_agent "Acme" perform_GoogleSearch)
         (map SearchReply Sample.research_replies
          ++ [GenReply (inr Sample.text_input_name)])
       = Some (Returned (Some research_data),
               research_calls "Acme" Sample.research_replies)
       /\ dict_get_none research_data "input_name" = VStr "Globex".
Proof.
  split; [vm_compute; reflexivity|].
  eexists. split; [vm_compute; reflexivity|].
  vm_compute. reflexivity.
Qed.

(** Against C6.  The first trend search gives an item with a snippet of
    7000 characters: the insights are not in the prompt that
    [use_case_generation_agent] sends to the generator. *)
Lemma long_search_text_cuts_the_insights :
  run (use_case_generation_agent (Some Sample.retail) perform_GoogleSearch)
    (map SearchReply Sample.long_replies ++ [GenReply (inr "[]")])
  = Some (Returned [],
          search_calls 3 (trend_queries (VStr "Retail") (VStr "Retail"))
          ++ [GenCall (use_case_prompt Sample.retail_profile
                         (trend_text Sample.retail_profile
                            Sample.long_replies))])
  /\ Str.contains (hypothetical_insights (VStr "Retail"))
       (use_case_prompt Sample.retail_profile
          (trend_text Sample.retail_profile Sample.long_replies))
     = false.
Proof.
  split; vm_compute; reflexivity.
Qed.

(** The theorems on the inputs of the examples. *)

Lemma failed_research_short_circuit_witness :
  Forall (fun r => items_of r = []) Sample.no_results
  /\ run (orchestrator "Acme" perform_GoogleSearch)
       (map SearchReply Sample.no_results)
     = Some (Returned (failed_bundle None),
             search_calls 5 (research_queries "Acme")).
Proof.
  assert (H : Forall (fun r => items_of r = []) Sample.no_results)
    by (repeat constructor).
  split; [exact H|].
  exact (proj2 (proj1 failed_research_short_circuit "Acme" Sample.no_results
                  eq_refl H)).
Defined.

Lemma insufficient_research_skips_agents_witness :
  research_failed (Some Sample.timed_out)
  /\ use_case_generation_agent (Some Sample.timed_out) perform_GoogleSearch
     = Ret []
  /\ optional_genai_proposer_agent (Some Sample.timed_out) = Ret [].
Proof.
  assert (H : research_failed (Some Sample.timed_out)).
  { right. exists "Error: timeout". split; reflexivity. }
  split; [exact H|].
  destruct (insufficient_research_skips_agents (Some Sample.timed_out)
              perform_GoogleSearch H) as (U & G & _).
  split; [exact U | exact G].
Defined.

Lemma object_without_industry_witness :
  exists research_data,
    dict_get_none research_data "industry" = VStr "N/A"
    /\ run (orchestrator "Acme" perform_GoogleSearch)
         (map SearchReply Sample.research_replies
          ++ [GenReply (inr Sample.text_segment)])
       = Some (Returned (failed_bundle (Some research_data)),
               research_calls "Acme" Sample.research_replies).
Proof.
  destruct (object_without_industry "Acme" Sample.research_replies
              Sample.text_segment [(VStr "segment", VStr "Banking")])
    as (research_data & _ & I & O).
  - reflexivity.
  - discriminate.
  - left. vm_compute. reflexivity.
  - reflexivity.
  - exists research_data. split; [exact I | exact O].
Defined.

Lemma merge_sets_the_keys_of_the_object_witness :
  let before := researched "Acme" Sample.research_replies in
  let merged := dict_merge before [(VStr "industry", VStr "Retail")] in
  dict_find (VStr "input_name") merged = dict_find (VStr "input_name") before
  /\ dict_find (VStr "industry") merged = Some (VStr "Retail").
Proof.
  destruct (merge_sets_the_keys_of_the_object "Acme" Sample.research_replies
              Sample.text_retail [(VStr "industry", VStr "Retail")])
    as (_ & A & P & _).
  - reflexivity.
  - discriminate.
  - left. vm_compute. reflexivity.
  - split; [apply A | apply P]; reflexivity.
Defined.

Lemma bracket_salvage_witness :
  parse_list Sample.text_prose_list = [VInt 1; VInt 2; VInt 3]
  /\ run (use_case_generation_agent (Some Sample.retail) perform_GoogleSearch)
       (map SearchReply Sample.no_results
        ++ [GenReply (inr Sample.text_prose_list)])
     = Some (Returned [VInt 1; VInt 2; VInt 3],
             use_case_calls Sample.retail_profile Sample.no_results).
Proof.
  destruct bracket_salvage as (S & U & _).
  assert (P : parse_list Sample.text_prose_list = [VInt 1; VInt 2; VInt 3]).
  { rewrite (S Sample.text_prose_list Ref.decode_error "Sure! Here you go: "
               "1, 2, 3" " Hope that helps."); reflexivity. }
  split; [exact P|].
  rewrite (U Sample.retail Sample.retail_profile Sample.no_results
             Sample.text_prose_list); reflexivity.
Defined.

Lemma insights_before_truncation_witness :
  Str.contains (hypothetical_insights (VStr "Retail"))
    (use_case_prompt Sample.retail_profile
       (snippets_text (all_items Sample.research_replies)
        ++ hypothetical_insights (VStr "Retail")))
  = true.
Proof.
  destruct (insights_before_truncation Sample.retail Sample.retail_profile
              Sample.research_replies (inr "[]")) as (_ & C & _).
  - reflexivity.
  - reflexivity.
  - reflexivity.
  - apply C. apply Nat.leb_le. vm_compute. reflexivity.
Defined.

Lemma suggestions_are_never_empty_witness :
  run (optional_genai_proposer_agent (Some Sample.retail))
    [GenReply (inr "Sorry, no ideas.")]
  = Some (Returned [fallback_suggestion],
          [GenCall (genai_prompt Sample.retail_profile)]).
Proof.
  destruct (proj1 suggestions_are_never_empty Sample.retail
              (inr "Sorry, no ideas."))
    as (p & suggestions & Hp & R & _ & F & _).
  - reflexivity.
  - reflexivity.
  - reflexivity.
  - vm_compute in Hp. injection Hp as <-.
    rewrite R, F; reflexivity.
Defined.

Lemma resource_links_are_deduplicated_witness :
  run (resource_collection_agent Sample.chatbot_use_cases
         perform_GoogleSearch)
    Sample.resource_script
  = Some (Returned [(VStr "Chatbot", Sample.chatbot_links)],
          search_calls 2 (resource_queries (VStr "Chatbot")))
  /\ NoDup (map res_link Sample.chatbot_links).
Proof.
  assert (R : run (resource_collection_agent Sample.chatbot_use_cases
                     perform_GoogleSearch)
                Sample.resource_script
              = Some (Returned [(VStr "Chatbot", Sample.chatbot_links)],
                      search_calls 2 (resource_queries (VStr "Chatbot"))))
    by (vm_compute; reflexivity).
  split; [exact R|].
  exact (proj1 (resource_links_are_deduplicated _ _ _ _ R (VStr "Chatbot")
                  Sample.chatbot_links (or_introl eq_refl))).
Defined.

End Examples.

(** ** Further properties of the pipeline *)

Section Behaviour.

Context {FL : Floats} {JS : Json}.

Local Open Scope list_scope.
Local Open Scope prog_scope.

(** *** Every behaviour *)

Lemma always_run {A : Type} (Q : outcome A -> Prop) (p : prog A) :
  always Q p ->
  forall script o calls, run p script = Some (o, calls) -> Q o.
Proof.
  induction 1 as [a H|e H|q num k _ IH|prompt k _ IH];
    intros script o calls R.
  - destruct script; simpl in R; [|discriminate]. now injection R as <- _.
  - destruct script; simpl in R; [|discriminate]. now injection R as <- _.
  - destruct script as [|[r|r] script]; simpl in R; try discriminate.
    destruct (run (k r) script) as [[o' c]|] eqn:E; [|discriminate].
    injection R as <- _. exact (IH r script o' c E).
  - destruct script as [|[r|r] script]; simpl in R; try discriminate.
    destruct (run (k r) script) as [[o' c]|] eqn:E; [|discriminate].
    injection R as <- _. exact (IH r script o' c E).
Qed.

(** A program ends on the script of any collaborators. *)
Lemma run_play {A : Type} (sr : string -> nat -> search_reply)
  (gr : string -> generation_reply) (p : prog A) :
  exists o calls, run p (play sr gr p) = Some (o, calls).
Proof.
  induction p as [a|e|q num k IH|prompt k IH]; simpl.
  - now exists (Returned a), [].
  - now exists (Raised e), [].
  - destruct (IH (sr q num)) as (o & calls & R). rewrite R. eauto.
  - destruct (IH (gr prompt)) as (o & calls & R). rewrite R. eauto.
Qed.

Lemma always_bind {A B : Type} (Q1 : outcome A -> Prop)
  (Q2 : outcome B -> Prop) (p : prog A) (f : A -> prog B) :
  always Q1 p ->
  (forall a, Q1 (Returned a) -> always Q2 (f a)) ->
  (forall e, Q1 (Raised e) -> Q2 (Raised e)) ->
  always Q2 (bind p f).
Proof.
  intros Hp Hf He.
  induction Hp as [a H|e H|q num k _ IH|prompt k _ IH]; simpl.
  - now apply Hf.
  - constructor. now apply He.
  - constructor. exact IH.
  - constructor. exact IH.
Qed.

Lemma always_weaken {A : Type} (Q1 Q2 : outcome A -> Prop) (p : prog A) :
  (forall o, Q1 o -> Q2 o) -> always Q1 p -> always Q2 p.
Proof.
  intros H. induction 1; constructor; auto.
Qed.

Lemma always_any {A : Type} (p : prog A) : always (fun _ => True) p.
Proof.
  induction p; constructor; auto.
Qed.

Lemma always_search (query : string) (num_results : option nat) :
  always (returns (fun _ => True)) (perform_GoogleSearch query num_results).
Proof.
  constructor. intros [e|[items|]]; now constructor.
Qed.

(** *** The research agent *)

Lemma ensure_industry_not_none (research_data : dict) :
  dict_get_none (ensure_industry research_data) "industry" <> VNone.
Proof.
  unfold ensure_industry.
  destruct (dict_get_none research_data "industry") eqn:E;
    try (rewrite E; discriminate).
  unfold dict_get_none, dict_get, set_field.
  rewrite dict_find_set_str. simpl. discriminate.
Qed.

Lemma always_research_searches (queries : list string) :
  forall research_data all_search_text,
    always (returns (fun _ => True))
      (research_searches perform_GoogleSearch queries research_data
         all_search_text).
Proof.
  induction queries as [|q queries IH]; intros research_data text;
    cbn [research_searches].
  - now constructor.
  - apply (always_bind (returns (fun _ : list item => True))).
    + apply always_search.
    + intros results _. apply IH.
    + intros e [].
Qed.

Lemma always_research_extraction (name : string) (research_data : dict)
  (all_search_text : string) :
  always (returns researched_or_none)
    (research_extraction name research_data all_search_text).
Proof.
  unfold research_extraction.
  destruct (Str.is_empty all_search_text).
  - now constructor.
  - constructor. intros r. constructor. apply ensure_industry_not_none.
Qed.

(** X1.  [research_agent] never raises, whatever the search service and
    the generator do: it returns [None], or a dictionary whose
    [industry] is not [None]. *)
Theorem research_agent_never_raises (name : string) :
  always (returns researched_or_none)
    (research_agent name perform_GoogleSearch)
  /\ (forall script o calls,
         run (research_agent name perform_GoogleSearch) script
         = Some (o, calls) ->
         exists research_output,
           o = Returned research_output
           /\ researched_or_none research_output)
  /\ (forall sr gr,
         exists research_output calls,
           run (research_agent name perform_GoogleSearch)
             (play sr gr (research_agent name perform_GoogleSearch))
           = Some (Returned research_output, calls)
           /\ researched_or_none research_output).
Proof.
  assert (A : always (returns researched_or_none)
                (research_agent name perform_GoogleSearch)).
  { unfold research_agent.
    apply (always_bind (returns (fun _ : dict * string => True))).
    - apply always_research_searches.
    - intros found _. apply always_research_extraction.
    - intros e []. }
  assert (R : forall script o calls,
             run (research_agent name perform_GoogleSearch) script
             = Some (o, calls) ->
             exists research_output,
               o = Returned research_output
               /\ researched_or_none research_output).
  { intros script o calls H.
    pose proof (always_run _ _ A _ _ _ H) as Q.
    destruct o as [research_output|e]; [|destruct Q].
    now exists research_output. }
  split; [exact A|]. split; [exact R|].
  intros sr gr.
  destruct (run_play sr gr (research_agent name perform_GoogleSearch))
    as (o & calls & H).
  destruct (R _ _ _ H) as (research_output & -> & Q).
  now exists research_output, calls.
Qed.

(** What [research_agent] returns once the searches gave an item,
    for any reply of the generator. *)
Lemma run_research_agent_reply (name : string)
  (replies : list search_reply) (r : generation_reply) :
  List.length replies = 4 ->
  all_items replies <> [] ->
  run (research_agent name perform_GoogleSearch)
    (map SearchReply replies ++ [GenReply r])
  = Some (Returned
            (Some (ensure_industry
                     match r with
                     | inr text =>
                         extract_info (researched name replies)
                           (Str.strip text)
                     | inl e => error_fields e (researched name replies)
                     end)),
          research_calls name replies).
Proof.
  intros Hlen Hitems.
  rewrite (run_research_agent name replies _ Hlen).
  unfold research_extraction. rewrite snippets_text_empty.
  destruct (all_items replies) as [|it items] eqn:E; [congruence|].
  unfold research_calls. rewrite E. reflexivity.
Qed.

Lemma marked_failure_fields (marker : string) (research_data : dict) :
  marked marker (failure_fields marker research_data).
Proof.
  unfold marked, failure_fields, set_field, dict_get_none, dict_get.
  repeat split; rewrite !dict_find_set_str; reflexivity.
Qed.

Lemma ensure_industry_marked (marker : string) (research_data : dict) :
  marked marker research_data ->
  ensure_industry research_data = research_data.
Proof.
  intros [H _]. unfold ensure_industry. now rewrite H.
Qed.

(** A marked research fails the gate when ["Error"] occurs in the
    marker. *)
Lemma marked_research_failed (marker : string) (research_data : dict) :
  Str.contains "Error" marker = true ->
  marked marker research_data ->
  research_failed (Some research_data).
Proof.
  intros Hc [H _]. right. now exists marker.
Qed.

Lemma orchestrator_failed (name : string) (script : list reply)
  (research_output : option dict) (calls : list call) :
  run (research_agent name perform_GoogleSearch) script
  = Some (Returned research_output, calls) ->
  research_failed research_output ->
  run (orchestrator name perform_GoogleSearch) script
  = Some (Returned (failed_bundle research_output), calls).
Proof.
  intros R H. unfold orchestrator.
  apply (run_bind_ret _ _ _ _ _ _ R). now apply proposal_failed.
Qed.

(** X2.  When the searches gave an item and the generator raises [e],
    [research_agent] returns the research dictionary with the four
    fields marked ["Error: "] followed by the message of [e], and
    [orchestrator] returns the bundle of a failed research: no other
    agent runs. *)
Theorem generation_error_fails_research (name : string)
  (replies : list search_reply) (e : exn) :
  List.length replies = 4 ->
  all_items replies <> [] ->
  let research_data := error_fields e (researched name replies) in
  let script := map SearchReply replies ++ [GenReply (inl e)] in
  run (research_agent name perform_GoogleSearch) script
  = Some (Returned (Some research_data), research_calls name replies)
  /\ marked ("Error: " ++ exn_msg e) research_data
  /\ run (orchestrator name perform_GoogleSearch) script
     = Some (Returned (failed_bundle (Some research_data)),
             research_calls name replies).
Proof.
  intros Hlen Hitems research_data script.
  assert (M : marked ("Error: " ++ exn_msg e) research_data)
    by apply marked_failure_fields.
  assert (R : run (research_agent name perform_GoogleSearch) script
              = Some (Returned (Some research_data),
                      research_calls name replies)).
  { unfold script. rewrite (run_research_agent_reply _ _ _ Hlen Hitems).
    fold research_data. now rewrite (ensure_industry_marked _ _ M). }
  split; [exact R|]. split; [exact M|].
  apply (orchestrator_failed _ _ _ _ R).
  now apply (marked_research_failed ("Error: " ++ exn_msg e)).
Qed.

(** X3.  When the searches gave an item and [json.loads] rejects both
    the response and the response cleaned of its fences,
    [research_agent] returns the research dictionary with the four
    fields marked as a parsing failure; ["Error"] occurs in the marker,
    so [orchestrator] returns the bundle of a failed research. *)
Theorem parsing_failure_fails_research (name : string)
  (replies : list search_reply) (text : string) (e e2 : exn) :
  List.length replies = 4 ->
  all_items replies <> [] ->
  json_loads (Str.strip text) = inl e ->
  is_JSONDecodeError e = true ->
  json_loads (clean_fences (Str.strip text)) = inl e2 ->
  is_JSONDecodeError e2 = true ->
  let research_data :=
    failure_fields "Extraction Failed (Parsing Error)"
      (researched name replies) in
  let script := map SearchReply replies ++ [GenReply (inr text)] in
  run (research_agent name perform_GoogleSearch) script
  = Some (Returned (Some research_data), research_calls name replies)
  /\ marked "Extraction Failed (Parsing Error)" research_data
  /\ run (orchestrator name perform_GoogleSearch) script
     = Some (Returned (failed_bundle (Some research_data)),
             research_calls name replies).
Proof.
  intros Hlen Hitems H He H2 He2 research_data script.
  assert (M : marked "Extraction Failed (Parsing Error)" research_data)
    by apply marked_failure_fields.
  assert (R : run (research_agent name perform_GoogleSearch) script
              = Some (Returned (Some research_data),
                      research_calls name replies)).
  { unfold script. rewrite (run_research_agent_reply _ _ _ Hlen Hitems).
    unfold extract_info. rewrite H, He, H2, He2.
    fold research_data. now rewrite (ensure_industry_marked _ _ M). }
  split; [exact R|]. split; [exact M|].
  apply (orchestrator_failed _ _ _ _ R).
  now apply (marked_research_failed "Extraction Failed (Parsing Error)").
Qed.

(** *** Code fences *)

Lemma rstrip_app (s t : string) :
  Str.rstrip t <> EmptyString ->
  Str.rstrip (s ++ t) = (s ++ Str.rstrip t)%string.
Proof.
  intros H. induction s as [|c s IH]; [reflexivity|].
  cbn [append Str.rstrip]. rewrite IH.
  destruct (s ++ Str.rstrip t)%string eqn:E; [|reflexivity].
  destruct s; simpl in E; [contradiction | discriminate].
Qed.

Lemma strip_fenced (s : string) : Str.strip (fenced s) = fenced s.
Proof.
  unfold Str.strip, fenced.
  change (Str.lstrip ("```json" ++ s ++ "```"))
    with ("```json" ++ s ++ "```")%string.
  rewrite rstrip_app; [rewrite rstrip_app; [reflexivity|]|].
  - discriminate.
  - rewrite rstrip_app; [|discriminate]. destruct s; discriminate.
Qed.

Lemma drop_app (p s : string) :
  Str.drop (String.length p) (p ++ s) = s.
Proof.
  unfold Str.drop. rewrite length_append, substring_skip.
  apply substring_all. lia.
Qed.

Lemma endswith_app (s p : string) : Str.endswith p (s ++ p) = true.
Proof.
  unfold Str.endswith. rewrite length_append.
  replace (String.length s + String.length p - String.length p)
    with (String.length s) by lia.
  rewrite substring_skip, substring_all by lia.
  rewrite String.eqb_refl.
  replace (Nat.leb (String.length p) (String.length s + String.length p))
    with true; [reflexivity|].
  symmetry. apply Nat.leb_le. lia.
Qed.

Lemma drop_last_app (s p : string) :
  Str.drop_last (String.length p) (s ++ p) = s.
Proof.
  unfold Str.drop_last. rewrite length_append.
  replace (String.length s + String.length p - String.length p)
    with (String.length s) by lia.
  apply substring_prefix.
Qed.

(** A response within [```json] and [```] is cleaned to what the fences
    hold, stripped. *)
Lemma clean_fences_fenced (s : string) :
  clean_fences (fenced s) = Str.strip s.
Proof.
  unfold clean_fences. cbv zeta. rewrite !strip_fenced.
  replace (Str.startswith "```json" (fenced s)) with true
    by (symmetry; apply (prefix_refl_app "```json")).
  change (Str.drop 7 (fenced s))
    with (Str.drop (String.length "```json") ("```json" ++ (s ++ "```"))).
  rewrite drop_app, endswith_app.
  change 3 with (String.length "```"). now rewrite drop_last_app.
Qed.

(** X4.  A response within code fences, which [json.loads] rejects as
    it is, is decoded once the fences are removed: [research_agent]
    merges the object that the fences hold, and the agents that expect
    a list take the list that the fences hold. *)
Theorem fenced_response_is_decoded (s : string) (e : exn) :
  json_loads (fenced s) = inl e ->
  is_JSONDecodeError e = true ->
  clean_fences (fenced s) = Str.strip s
  /\ (forall name replies m,
         List.length replies = 4 ->
         all_items replies <> [] ->
         json_loads (Str.strip s) = inr (VDict m) ->
         run (research_agent name perform_GoogleSearch)
           (map SearchReply replies ++ [GenReply (inr (fenced s))])
         = Some (Returned
                   (Some (ensure_industry
                            (dict_merge (researched name replies) m))),
                 research_calls name replies))
  /\ (forall mid l,
         Str.strip s = ("[" ++ mid ++ "]")%string ->
         json_loads (Str.strip s) = inr (VList l) ->
         list_of_reply (inr (fenced s)) = l).
Proof.
  intros H He. split; [apply clean_fences_fenced|]. split.
  - intros name replies m Hlen Hitems Hm.
    apply run_research_agent_object; auto.
    right. exists e. rewrite strip_fenced, clean_fences_fenced. auto.
  - intros mid l Hs Hl. unfold list_of_reply, parse_list.
    rewrite strip_fenced, H, He, clean_fences_fenced.
    assert (B := bracket_slice EmptyString mid EmptyString eq_refl eq_refl).
    cbv zeta in B. cbn [append] in B.
    change (String "[" (mid ++ "]"))%string
      with ("[" ++ mid ++ "]")%string in B.
    rewrite <- Hs in B. destruct B as [Hcond Hslice].
    now rewrite Hcond, Hslice, Hl.
Qed.

(** *** The dictionary of the research *)

Lemma dict_find_extend_results (d : dict) (l : list val)
  (results : list item) :
  dict_find (VStr "search_results") d = Some (VList l) ->
  dict_find (VStr "search_results") (extend_search_results d results)
  = Some (VList (l ++ map value_of_item results)).
Proof.
  intros H. unfold extend_search_results. rewrite H.
  unfold set_field. now rewrite dict_find_set_str.
Qed.

Lemma dict_find_accumulated (name : string) (replies : list search_reply) :
  dict_find (VStr "search_results") (researched name replies)
  = Some (VList (map value_of_item (all_items replies))).
Proof.
  unfold researched.
  assert (G : forall d l,
             dict_find (VStr "search_results") d = Some (VList l) ->
             dict_find (VStr "search_results")
               (fold_left
                  (fun d r => extend_search_results d (items_of r))
                  replies d)
             = Some (VList (l ++ map value_of_item (all_items replies)))).
  { induction replies as [|r replies IH]; intros d l H; simpl.
    - now rewrite app_nil_r.
    - rewrite (IH _ _ (dict_find_extend_results d l (items_of r) H)).
      unfold all_items. simpl. now rewrite map_app, app_assoc. }
  exact (G (initial_research_data name) [] eq_refl).
Qed.

Lemma run_bind_id {A : Type} (p : prog A) :
  forall script, run (bind p (fun a => Ret a)) script = run p script.
Proof.
  induction p as [a|e|q num k IH|prompt k IH]; intros script;
    try reflexivity;
    destruct script as [|[r|r] script]; try reflexivity;
    cbn [bind run]; now rewrite IH.
Qed.

Lemma dict_find_ensure_industry (k : string) (d : dict) :
  (k =? "industry")%string = false ->
  dict_find (VStr k) (ensure_industry d) = dict_find (VStr k) d.
Proof.
  intros Hk. unfold ensure_industry.
  destruct (dict_get_none d "industry"); try reflexivity.
  unfold set_field. rewrite dict_find_set_str.
  change (key_eqb (VStr "industry") (VStr k)) with ("industry" =? k)%string.
  now rewrite String.eqb_sym, Hk.
Qed.

(** X5.  The loop of [research_agent] over its four queries returns the
    research dictionary and the search text: the dictionary holds the
    name, [None] for the four fields and, under ["search_results"], the
    items of all the searches in the order in which they came.  The
    dictionary that [research_agent] returns still holds the name and
    these items when the generator raises, or when it answers with an
    object that has neither key. *)
Theorem search_results_accumulate (name : string)
  (replies : list search_reply) :
  List.length replies = 4 ->
  let results := VList (map value_of_item (all_items replies)) in
  (exists research_data,
      run (research_searches perform_GoogleSearch (research_queries name)
             (initial_research_data name) EmptyString)
        (map SearchReply replies)
      = Some (Returned (research_data, snippets_text (all_items replies)),
              search_calls 5 (research_queries name))
      /\ dict_find (VStr "search_results") research_data = Some results
      /\ dict_find (VStr "input_name") research_data = Some (VStr name)
      /\ dict_find (VStr "industry") research_data = Some VNone
      /\ dict_find (VStr "segment") research_data = Some VNone
      /\ dict_find (VStr "offerings") research_data = Some VNone
      /\ dict_find (VStr "strategic_focus") research_data = Some VNone)
  /\ (all_items replies <> [] ->
      forall r,
        match r with
        | inl _ => True
        | inr text =>
            exists m,
              parsed_object (Str.strip text) m
              /\ dict_find (VStr "search_results") m = None
              /\ dict_find (VStr "input_name") m = None
        end ->
        exists research_data,
          run (research_agent name perform_GoogleSearch)
            (map SearchReply replies ++ [GenReply r])
          = Some (Returned (Some research_data), research_calls name replies)
          /\ dict_find (VStr "search_results") research_data = Some results
          /\ dict_find (VStr "input_name") research_data
             = Some (VStr name)).
Proof.
  intros Hlen results. split.
  - exists (researched name replies). split.
    + pose proof (run_research_searches (fun found => Ret found)
                    (research_queries name) replies
                    (initial_research_data name) EmptyString [] Hlen) as R.
      rewrite run_bind_id, app_nil_r in R. rewrite R.
      cbn [run after_calls]. now rewrite app_nil_r.
    + split; [apply dict_find_accumulated|].
      repeat split; now rewrite dict_find_researched.
  - intros Hitems r Hr.
    rewrite (run_research_agent_reply _ _ _ Hlen Hitems).
    eexists. split; [reflexivity|].
    rewrite !dict_find_ensure_industry by reflexivity.
    destruct r as [e|text].
    + unfold error_fields, failure_fields, set_field.
      rewrite !dict_find_set_str.
      split; [apply dict_find_accumulated|].
      now rewrite dict_find_researched.
    + destruct Hr as (m & Hm & Hs & Hn).
      rewrite (extract_info_object _ _ _ Hm).
      rewrite !dict_find_merge_absent by assumption.
      split; [apply dict_find_accumulated|].
      now rewrite dict_find_researched.
Qed.

(** *** The size of the prompts *)

Lemma length_cat (l : list string) :
  String.length (Str.cat l) = list_sum (map String.length l).
Proof.
  induction l as [|x l IH]; simpl; [reflexivity|].
  now rewrite length_append, IH.
Qed.

Lemma length_take (n : nat) (s : string) :
  String.length (Str.take n s) = Nat.min n (String.length s).
Proof.
  unfold Str.take. revert n.
  induction s as [|c s IH]; intros [|n]; simpl; try reflexivity.
  now rewrite IH.
Qed.

Ltac prompt_length :=
  rewrite length_cat; cbn [map list_sum]; rewrite ?length_take;
  repeat match goal with
         | |- context [String.length ?x] =>
             first [ is_var x | is_evar x; fail 1
                   | match x with
                     | py_str _ => idtac
                     | offerings _ => idtac
                     | focus_areas _ => idtac
                     end ];
             generalize (String.length x); intro
         end;
  repeat match goal with
         | |- context [Nat.min ?a ?b] => generalize (Nat.min a b); intro
         end;
  cbn; lia.

(** X6.  The size of the prompts: the fixed text, the texts put in it,
    and at most 7000 characters of search text. *)
Theorem prompt_sizes :
  (forall name all_search_text,
      String.length (research_prompt name all_search_text)
      = 959 + String.length name
        + Nat.min 7000 (String.length all_search_text))
  /\ (forall p trend_snippets,
         String.length (use_case_prompt p trend_snippets)
         = 1199 + 2 * String.length (py_str (company_name p))
           + String.length (py_str (industry p))
           + String.length (py_str (segment p))
           + String.length (offerings p)
           + String.length (focus_areas p)
           + Nat.min 7000 (String.length trend_snippets))
  /\ (forall p,
         String.length (genai_prompt p)
         = 895 + String.length (py_str (company_name p))
           + String.length (py_str (industry p))
           + String.length (py_str (segment p))
           + String.length (offerings p)
           + String.length (focus_areas p)).
Proof.
  split; [|split].
  - intros name all_search_text. unfold research_prompt. prompt_length.
  - intros p trend_snippets. unfold use_case_prompt. cbv zeta.
    prompt_length.
  - intros p. unfold genai_prompt. cbv zeta. prompt_length.
Qed.

(** *** The generating agents *)

Lemma always_trend_searches (queries : list string) :
  forall trend_snippets,
    always (returns (fun _ => True))
      (trend_searches perform_GoogleSearch queries trend_snippets).
Proof.
  induction queries as [|q queries IH]; intros text;
    cbn [trend_searches].
  - now constructor.
  - apply (always_bind (returns (fun _ : list item => True))).
    + apply always_search.
    + intros results _. apply IH.
    + intros e [].
Qed.

Lemma always_generate_list (prompt : string) :
  always (returns (fun _ => True)) (generate_list prompt).
Proof.
  constructor. intros [e|text]; now constructor.
Qed.

(** X7.  Past its gate, on a research whose two list fields hold
    strings, [use_case_generation_agent] never raises, whatever the
    search service and the generator do: it makes the four trend
    searches, three results each, then one generation call, and returns
    the list got from the reply, which is empty when the generator
    raises. *)
Theorem use_case_agent_never_raises (research_data : dict) :
  insufficient (Some research_data) = inr false ->
  joinable (dict_get_none research_data "offerings") = true ->
  joinable (dict_get_none research_data "strategic_focus") = true ->
  always (returns (fun _ => True))
    (use_case_generation_agent (Some research_data) perform_GoogleSearch)
  /\ exists p,
       read_profile research_data = inr p
       /\ forall replies r,
            List.length replies = 4 ->
            run (use_case_generation_agent (Some research_data)
                   perform_GoogleSearch)
              (map SearchReply replies ++ [GenReply r])
            = Some (Returned (match r with
                              | inr text => parse_list (Str.strip text)
                              | inl _ => []
                              end),
                    search_calls 3 (trend_queries (industry p) (segment p))
                    ++ [GenCall
                          (use_case_prompt p
                             (snippets_text (all_items replies)
                              ++ hypothetical_insights (industry p)))]).
Proof.
  intros Hgate Ho Hf.
  destruct (read_profile_joinable research_data Ho Hf) as [p Hp].
  split.
  - unfold use_case_generation_agent.
    rewrite Hgate. cbn [lift bind]. rewrite Hp. cbn [lift bind].
    apply (always_bind (returns (fun _ : string => True))).
    + apply always_trend_searches.
    + intros text _. apply always_generate_list.
    + intros e [].
  - exists p. split; [exact Hp|]. intros replies r Hlen.
    now rewrite (run_use_case_generation_agent _ p _ _ Hgate Hp Hlen).
Qed.

(** *** The resource agent *)

Ltac reassociate :=
  match goal with
  | |- context [run (bind (bind ?p ?g) ?f) ?s] =>
      rewrite (run_bind_assoc p g f s); cbv beta
  end.

Lemma run_collect_all (use_cases : list val) :
  forallb is_use_case use_cases = true ->
  forall replies collected_links,
    List.length replies = 2 * List.length use_cases ->
    run (collect_all perform_GoogleSearch use_cases collected_links)
      (map SearchReply replies)
    = Some (Returned (resource_map use_cases replies collected_links),
            resource_calls use_cases).
Proof.
  induction use_cases as [|uc use_cases IH];
    intros Huc replies collected Hlen.
  - destruct replies; [reflexivity | discriminate].
  - simpl in Huc. apply andb_prop in Huc. destruct Huc as [Huc Hrest].
    destruct replies as [|r1 [|r2 replies]]; simpl in Hlen; try lia.
    destruct uc as [| | | | | |d]; try discriminate.
    cbn [collect_all]. simpl in Huc. rewrite Huc.
    cbn [resource_queries resource_searches map].
    reassociate. rewrite run_search.
    reassociate. rewrite run_search.
    cbn [bind]. rewrite IH by (auto; lia).
    cbn [resource_map title_of after_calls].
    now rewrite collect_app.
Qed.

Lemma resource_map_keys (use_cases : list val) :
  forall replies collected_links k,
    In k (map fst (resource_map use_cases replies collected_links)) ->
    In k (map fst collected_links) \/ In k (map title_of use_cases).
Proof.
  induction use_cases as [|uc use_cases IH]; intros replies collected k H.
  - now left.
  - destruct replies as [|r1 [|r2 replies]]; try (now left).
    cbn [resource_map] in H.
    destruct (IH _ _ _ H) as [Hk|Hk]; [|right; now right].
    apply in_map_iff in Hk. destruct Hk as ([k' l] & <- & Hin).
    clear H IH. simpl.
    induction collected as [|[k0 l0] collected IHc]; simpl in Hin.
    + destruct Hin as [Hin|[]]. injection Hin as <- _. right. now left.
    + destruct (key_eqb k0 (title_of uc)); simpl in Hin.
      * destruct Hin as [Hin|Hin].
        -- injection Hin as <- _. left. now left.
        -- left. right. apply in_map_iff. now exists (k', l).
      * destruct Hin as [Hin|Hin].
        -- injection Hin as <- _. left. now left.
        -- destruct (IHc Hin) as [Hc|Hc]; [left; now right | now right].
Qed.

Lemma resource_map_keeps (use_cases : list val) (t : string) :
  forall replies collected_links,
    dict_find (VStr t) collected_links <> None ->
    dict_find (VStr t) (resource_map use_cases replies collected_links)
    <> None.
Proof.
  induction use_cases as [|uc use_cases IH]; intros replies collected H.
  - exact H.
  - destruct replies as [|r1 [|r2 replies]]; try exact H.
    cbn [resource_map]. apply IH. rewrite dict_find_set_str.
    destruct (key_eqb (title_of uc) (VStr t)); [discriminate | exact H].
Qed.

Lemma resource_map_has_title (use_cases : list val) (t : string) :
  forall replies collected_links uc,
    List.length replies = 2 * List.length use_cases ->
    In uc use_cases ->
    title_of uc = VStr t ->
    dict_find (VStr t) (resource_map use_cases replies collected_links)
    <> None.
Proof.
  induction use_cases as [|uc0 use_cases IH];
    intros replies collected uc Hlen Hin Ht; [destruct Hin|].
  destruct replies as [|r1 [|r2 replies]]; simpl in Hlen; try lia.
  cbn [resource_map]. destruct Hin as [->|Hin].
  - apply resource_map_keeps. rewrite dict_find_set_str, Ht.
    simpl. rewrite String.eqb_refl. discriminate.
  - apply (IH _ _ uc); auto. lia.
Qed.

(** X8.  On use cases that are dictionaries with a hashable title, and
    with two replies of the search for each of them,
    [resource_collection_agent] makes two searches of two results for
    each use case, in order, and returns the map built from the replies:
    every key of the map is the title of a use case, and every title
    that is a string is a key of the map. *)
Theorem resource_agent_builds_the_map (use_cases : list val)
  (replies : list search_reply) :
  forallb is_use_case use_cases = true ->
  List.length replies = 2 * List.length use_cases ->
  let m := resource_map use_cases replies [] in
  run (resource_collection_agent use_cases perform_GoogleSearch)
    (map SearchReply replies)
  = Some (Returned m, resource_calls use_cases)
  /\ List.length (resource_calls use_cases) = 2 * List.length use_cases
  /\ (forall k, In k (map fst m) -> In k (map title_of use_cases))
  /\ (forall uc t,
         In uc use_cases -> title_of uc = VStr t ->
         dict_find (VStr t) m <> None).
Proof.
  intros Huc Hlen m. split; [|split; [|split]].
  - unfold resource_collection_agent, m.
    destruct use_cases as [|uc use_cases].
    + destruct replies; [reflexivity | discriminate].
    + now apply run_collect_all.
  - unfold resource_calls. clear.
    induction use_cases as [|uc use_cases IH]; [reflexivity|].
    cbn [flat_map]. rewrite length_app, IH. simpl. lia.
  - intros k Hk.
    destruct (resource_map_keys _ _ _ _ Hk) as [[]|H]. exact H.
  - intros uc t Hin Ht. now apply (resource_map_has_title _ _ _ _ uc).
Qed.

Lemma run_collect_all_raises (pre : list val) (uc : val)
  (post : list val) :
  forallb is_use_case pre = true ->
  is_use_case uc = false ->
  forall replies collected_links,
    List.length replies = 2 * List.length pre ->
    exists e,
      run (collect_all perform_GoogleSearch (pre ++ uc :: post)
             collected_links)
        (map SearchReply replies)
      = Some (Raised e, resource_calls pre)
      /\ exn_cls e = match uc with
                     | VDict _ => TypeError
                     | _ => AttributeError
                     end.
Proof.
  intros Hpre Huc.
  induction pre as [|uc0 pre IH]; intros replies collected Hlen.
  - destruct replies; [|discriminate]. cbn [app collect_all].
    destruct uc as [| | | | | |d];
      try (eexists; split; reflexivity).
    simpl in Huc. rewrite Huc. eexists; split; reflexivity.
  - simpl in Hpre. apply andb_prop in Hpre. destruct Hpre as [H0 Hrest].
    destruct replies as [|r1 [|r2 replies]]; simpl in Hlen; try lia.
    destruct uc0 as [| | | | | |d]; try discriminate.
    cbn [app collect_all]. simpl in H0. rewrite H0.
    cbn [resource_queries resource_searches map].
    reassociate. rewrite run_search.
    reassociate. rewrite run_search.
    cbn [bind].
    destruct (IH Hrest replies
                (dict_set (dict_get d "title" (VStr "Untitled Use Case"))
                   (collect (collect [] (items_of r1)) (items_of r2))
                   collected)) as (e & R & He); [lia|].
    exists e. split; [|exact He]. now rewrite R.
Qed.

(** X9.  A use case that is not a dictionary makes
    [resource_collection_agent] raise an [AttributeError], and a use
    case whose title is a list or a dictionary a [TypeError], once the
    searches for the use cases before it are made. *)
Theorem resource_agent_raises_on_bad_use_case (pre : list val) (uc : val)
  (post : list val) (replies : list search_reply) :
  forallb is_use_case pre = true ->
  is_use_case uc = false ->
  List.length replies = 2 * List.length pre ->
  exists e,
    run (resource_collection_agent (pre ++ uc :: post) perform_GoogleSearch)
      (map SearchReply replies)
    = Some (Raised e, resource_calls pre)
    /\ exn_cls e = match uc with
                   | VDict _ => TypeError
                   | _ => AttributeError
                   end.
Proof.
  intros Hpre Huc Hlen. unfold resource_collection_agent.
  destruct (pre ++ uc :: post) as [|x l] eqn:E.
  - destruct pre; discriminate.
  - rewrite <- E. now apply run_collect_all_raises.
Qed.

(** *** The orchestrator *)

Lemma always_suggestions (research_output : option dict) :
  insufficient research_output = inr false ->
  always (if_returns (fun suggestions : list val => suggestions <> []))
    (optional_genai_proposer_agent research_output).
Proof.
  intros G. unfold optional_genai_proposer_agent.
  rewrite G. cbn [lift bind].
  destruct (read_profile _) as [e|p]; cbn [lift bind].
  - now constructor.
  - constructor. intros [e|text]; cbn [bind].
    + constructor. discriminate.
    + destruct (parse_list (Str.strip text)); constructor; discriminate.
Qed.

Lemma always_proposal (research_output : option dict)
  (search_tool : search_tool_t) :
  always (if_returns well_formed_bundle)
    (proposal research_output search_tool).
Proof.
  unfold proposal.
  destruct (insufficient research_output) as [e|[|]] eqn:G;
    cbn [lift bind].
  - now constructor.
  - constructor. left. now repeat split.
  - apply (always_bind (fun _ => True)); [apply always_any | | auto].
    intros use_cases _.
    apply (always_bind (fun _ => True)); [apply always_any | | auto].
    intros resource_links _.
    apply (always_bind
             (if_returns (fun suggestions : list val => suggestions <> [])));
      [now apply always_suggestions | | auto].
    intros suggestions H. constructor. right. now repeat split.
Qed.

(** X10.  Whatever the search tool and the generator do, a bundle that
    [orchestrator] returns is well formed: either its status is
    ["Failed Research"], its three collections are empty and its
    research fails the gate; or its status is ["Success"], its research
    passes the gate and its suggestions are not empty. *)
Theorem orchestrator_bundle_is_well_formed (name : string)
  (search_tool : search_tool_t) :
  always (if_returns well_formed_bundle) (orchestrator name search_tool)
  /\ forall script b calls,
       run (orchestrator name search_tool) script
       = Some (Returned b, calls) ->
       well_formed_bundle b.
Proof.
  assert (A : always (if_returns well_formed_bundle)
                (orchestrator name search_tool)).
  { unfold orchestrator.
    apply (always_bind (fun _ => True)); [apply always_any | | auto].
    intros research_output _. apply always_proposal. }
  split; [exact A|].
  intros script b calls R. exact (always_run _ _ A _ _ _ R).
Qed.

Lemma run_bind_raised {A B : Type} (p : prog A) (f : A -> prog B) :
  forall script e calls,
    run p script = Some (Raised e, calls) ->
    run (bind p f) script = Some (Raised e, calls).
Proof.
  induction p as [a|e0|q num k IH|prompt k IH]; intros script e calls H.
  - destruct script; simpl in H; discriminate.
  - destruct script; simpl in H; [|discriminate].
    injection H as He Hc. subst. reflexivity.
  - destruct script as [|[r|r] script]; simpl in H; try discriminate.
    destruct (run (k r) script) as [[o c]|] eqn:E; [|discriminate].
    injection H as Ho Hc. subst. simpl. now rewrite (IH r _ _ _ E).
  - destruct script as [|[r|r] script]; simpl in H; try discriminate.
    destruct (run (k r) script) as [[o c]|] eqn:E; [|discriminate].
    injection H as Ho Hc. subst. simpl. now rewrite (IH r _ _ _ E).
Qed.

Lemma run_bind_pure {A B : Type} (p : prog A) (g : A -> B)
  (script : list reply) (o : outcome A) (calls : list call) :
  run p script = Some (o, calls) ->
  run (bind p (fun a => Ret (g a))) script
  = Some (match o with
          | Returned a => Returned (g a)
          | Raised e => Raised e
          end, calls).
Proof.
  intros H. destruct o as [a|e].
  - now apply (run_bind_ret p _ script a (g a) calls H).
  - now apply run_bind_raised.
Qed.

(** X11.  Once the research passes the gate, [orchestrator] runs the
    three other agents one after the other, each on the part of the
    script that follows, and makes the bundle of their results with the
    status ["Success"]; an exception of one of them is the outcome of
    [orchestrator], which has no handler. *)
Theorem orchestrator_composes (name : string) (search_tool : search_tool_t)
  (s1 : list reply) (research_output : option dict) (c1 : list call) :
  run (research_agent name search_tool) s1
  = Some (Returned research_output, c1) ->
  insufficient research_output = inr false ->
  forall s2 c2 o2,
    run (use_case_generation_agent research_output search_tool) s2
    = Some (o2, c2) ->
    match o2 with
    | Raised e =>
        run (orchestrator name search_tool) (s1 ++ s2)
        = Some (Raised e, c1 ++ c2)
    | Returned use_cases =>
        forall s3 c3 o3,
          run (resource_collection_agent use_cases search_tool) s3
          = Some (o3, c3) ->
          match o3 with
          | Raised e =>
              run (orchestrator name search_tool) (s1 ++ s2 ++ s3)
              = Some (Raised e, c1 ++ c2 ++ c3)
          | Returned resource_links =>
              forall s4 c4 o4,
                run (optional_genai_proposer_agent research_output) s4
                = Some (o4, c4) ->
                run (orchestrator name search_tool) (s1 ++ s2 ++ s3 ++ s4)
                = Some (match o4 with
                        | Raised e => Raised e
                        | Returned genai_suggestions =>
                            Returned
                              (Bundle use_cases resource_links
                                 genai_suggestions research_output
                                 "Success")
                        end,
                        c1 ++ c2 ++ c3 ++ c4)
          end
    end.
Proof.
  intros R1 G s2 c2 o2 R2.
  unfold orchestrator.
  assert (P : forall script,
             run (research_output <- research_agent name search_tool ;;
                  proposal research_output search_tool)
               (s1 ++ script)
             = after_calls c1
                 (run (proposal research_output search_tool) script)).
  { intros script. exact (run_bind _ _ _ _ _ script R1). }
  unfold proposal in P. rewrite G in P. cbn [lift bind] in P.
  destruct o2 as [use_cases|e].
  - intros s3 c3 o3 R3. destruct o3 as [resource_links|e].
    + intros s4 c4 o4 R4. rewrite P.
      rewrite (run_bind _ _ _ _ _ (s3 ++ s4) R2).
      rewrite (run_bind _ _ _ _ _ s4 R3).
      pose proof
        (run_bind_pure _
           (fun genai_suggestions =>
              Bundle use_cases resource_links genai_suggestions
                research_output "Success") _ _ _ R4) as R5.
      cbv beta in R5. rewrite R5. reflexivity.
    + rewrite P. rewrite (run_bind _ _ _ _ _ s3 R2).
      rewrite (run_bind_raised _ _ _ _ _ R3). reflexivity.
  - rewrite P. rewrite (run_bind_raised _ _ _ _ _ R2). reflexivity.
Qed.

End Behaviour.

(** ** The page *)

Section PageBehaviour.

Context {FL : Floats} {JS : Json}.

Local Open Scope list_scope.

Lemma drawn_bind {A B : Type} (m : ui A) (k : ui B) :
  drawn (ui_bind m (fun _ => k)) = drawn m && drawn k.
Proof.
  destruct m as [ws [e|a]]; reflexivity.
Qed.

Lemma buttons_bind {A B : Type} (m : ui A) (k : ui B) :
  buttons (ui_bind m (fun _ => k))
  = buttons m ++ (if drawn m then buttons k else []).
Proof.
  destruct m as [ws [e|a]]; unfold buttons, drawn; simpl.
  - now rewrite app_nil_r.
  - apply filter_app.
Qed.

Lemma drawn_inr {A : Type} (m : ui A) :
  drawn m = true <-> exists a, snd m = inr a.
Proof.
  unfold drawn. destruct (snd m) as [e|a]; split.
  - discriminate.
  - intros [a H]. discriminate.
  - intros _. now exists a.
  - reflexivity.
Qed.

(** *** The research summary *)

Lemma research_summary_some (d : dict) :
  research_summary (Some d)
  = let industry :=
      StWrite ("**Industry:** " ++ py_str (dict_get d "industry" (VStr "N/A"))) in
    let segment :=
      StWrite ("**Segment:** " ++ py_str (dict_get d "segment" (VStr "N/A"))) in
    match iterate (dict_get d "offerings" (VList [VStr "N/A"])) with
    | inl e => ([industry; segment], inl e)
    | inr offerings =>
        let offerings :=
          StWrite ("**Key Offerings:** "
                   ++ Str.join ", " (strings_of offerings)) in
        match iterate (dict_get d "strategic_focus" (VList [VStr "N/A"])) with
        | inl e => ([industry; segment; offerings], inl e)
        | inr focus =>
            ([industry; segment; offerings;
              StWrite ("**Strategic Focus:** "
                       ++ Str.join ", " (strings_of focus))], inr tt)
        end
    end.
Proof.
  unfold research_summary.
  cbn [research_get ui_lift ui_bind draw fst snd app].
  destruct (iterate (dict_get d "offerings" (VList [VStr "N/A"])))
    as [e|offerings]; cbn [ui_lift ui_bind draw fst snd app];
    [reflexivity|].
  destruct (iterate (dict_get d "strategic_focus" (VList [VStr "N/A"])))
    as [e|focus]; reflexivity.
Qed.

Lemma iterable_iterate (v : val) :
  iterable v = match iterate v with inr _ => true | inl _ => false end.
Proof.
  now destruct v.
Qed.

Lemma drawn_research_summary (research_data : option dict) :
  drawn (research_summary research_data) = summarisable research_data.
Proof.
  destruct research_data as [d|]; [|reflexivity].
  rewrite research_summary_some. unfold summarisable.
  rewrite !iterable_iterate. cbv zeta.
  destruct (iterate (dict_get d "offerings" (VList [VStr "N/A"])));
    [reflexivity|].
  destruct (iterate (dict_get d "strategic_focus" (VList [VStr "N/A"])));
    reflexivity.
Qed.

Lemma buttons_research_summary (research_data : option dict) :
  buttons (research_summary research_data) = [].
Proof.
  destruct research_data as [d|]; [|reflexivity].
  rewrite research_summary_some. cbv zeta.
  destruct (iterate (dict_get d "offerings" (VList [VStr "N/A"])));
    [reflexivity|].
  destruct (iterate (dict_get d "strategic_focus" (VList [VStr "N/A"])));
    reflexivity.
Qed.

(** *** The loops over the use cases and the suggestions *)

Lemma show_use_cases_cons (i : nat) (d : dict) (use_cases : list val) :
  show_use_cases i (VDict d :: use_cases)
  = ([ StMarkdown ("**" ++ number i ++ ". "
                   ++ py_str (dict_get d "title" (VStr "Untitled Use Case"))
                   ++ "**");
       StWrite ("**Description:** "
                ++ py_str (dict_get d "description" (VStr "N/A")));
       StWrite ("**AI Application:** "
                ++ py_str (dict_get d "ai_application" (VStr "N/A")));
       StWrite ("**Potential Benefit:** "
                ++ py_str (dict_get d "potential_benefit" (VStr "N/A")));
       StWrite ("**Relevance:** "
                ++ py_str (dict_get d "relevance" (VStr "N/A")));
       StWrite "---" ]
     ++ fst (show_use_cases (S i) use_cases),
     snd (show_use_cases (S i) use_cases)).
Proof.
  reflexivity.
Qed.

Lemma show_use_cases_raises (i : nat) (uc : val) (use_cases : list val) :
  is_object uc = false ->
  show_use_cases i (uc :: use_cases)
  = ([], inl (attribute_error (type_name uc) "get")).
Proof.
  destruct uc; try reflexivity. discriminate.
Qed.

Lemma drawn_show_use_cases (use_cases : list val) :
  forall i, drawn (show_use_cases i use_cases) = forallb is_object use_cases.
Proof.
  induction use_cases as [|uc use_cases IH]; intros i; [reflexivity|].
  destruct (is_object uc) eqn:O.
  - destruct uc; try discriminate. rewrite show_use_cases_cons.
    cbn [forallb is_object andb]. rewrite <- (IH (S i)). reflexivity.
  - rewrite (show_use_cases_raises _ _ _ O). cbn [forallb]. now rewrite O.
Qed.

Lemma buttons_show_use_cases (use_cases : list val) :
  forall i, buttons (show_use_cases i use_cases) = [].
Proof.
  induction use_cases as [|uc use_cases IH]; intros i; [reflexivity|].
  destruct (is_object uc) eqn:O.
  - destruct uc; try discriminate. rewrite show_use_cases_cons.
    unfold buttons. cbn [fst]. rewrite filter_app. cbn [filter is_button app].
    apply IH.
  - now rewrite (show_use_cases_raises _ _ _ O).
Qed.

Lemma show_suggestions_cons (i : nat) (d : dict)
  (genai_suggestions : list val) :
  show_suggestions i (VDict d :: genai_suggestions)
  = ([ StMarkdown ("**" ++ number i ++ ". "
                   ++ py_str (dict_get d "title" (VStr "Untitled Suggestion"))
                   ++ "**");
       StWrite ("**Application:** "
                ++ py_str (dict_get d "application" (VStr "N/A")));
       StWrite ("**Potential Benefit:** "
                ++ py_str (dict_get d "potential_benefit" (VStr "N/A")));
       StWrite ("**Fit Area:** "
                ++ py_str (dict_get d "fit_area" (VStr "N/A")));
       StText EmptyString ]
     ++ fst (show_suggestions (S i) genai_suggestions),
     snd (show_suggestions (S i) genai_suggestions)).
Proof.
  reflexivity.
Qed.

Lemma show_suggestions_raises (i : nat) (suggestion : val)
  (genai_suggestions : list val) :
  is_object suggestion = false ->
  show_suggestions i (suggestion :: genai_suggestions)
  = ([], inl (attribute_error (type_name suggestion) "get")).
Proof.
  destruct suggestion; try reflexivity. discriminate.
Qed.

Lemma drawn_show_suggestions (genai_suggestions : list val) :
  forall i,
    drawn (show_suggestions i genai_suggestions)
    = forallb is_object genai_suggestions.
Proof.
  induction genai_suggestions as [|s l IH]; intros i; [reflexivity|].
  destruct (is_object s) eqn:O.
  - destruct s; try discriminate. rewrite show_suggestions_cons.
    cbn [forallb is_object andb]. rewrite <- (IH (S i)). reflexivity.
  - rewrite (show_suggestions_raises _ _ _ O). cbn [forallb]. now rewrite O.
Qed.

Lemma buttons_show_suggestions (genai_suggestions : list val) :
  forall i, buttons (show_suggestions i genai_suggestions) = [].
Proof.
  induction genai_suggestions as [|s l IH]; intros i; [reflexivity|].
  destruct (is_object s) eqn:O.
  - destruct s; try discriminate. rewrite show_suggestions_cons.
    unfold buttons. cbn [fst]. rewrite filter_app. cbn [filter is_button app].
    apply IH.
  - now rewrite (show_suggestions_raises _ _ _ O).
Qed.

(** *** The links *)

Lemma show_links_eq (links : list resource) :
  forall resource_file_content,
    show_links links resource_file_content
    = (map (fun res => StMarkdown (link_line res)) links,
       inr (resource_file_content
            ++ Str.cat (map (fun res => link_line res ++ Str.nl) links))
           %string).
Proof.
  induction links as [|res links IH]; intros content.
  - cbn [show_links map Str.cat]. now rewrite append_nil_r.
  - cbn [show_links ui_bind draw]. rewrite IH.
    cbn [fst snd app map Str.cat]. now rewrite !append_assoc.
Qed.

Lemma show_resources_eq (resource_links : list (val * list resource)) :
  forall resource_file_content all_links_found,
    show_resources resource_links resource_file_content all_links_found
    = (flat_map section_widgets (linked resource_links),
       inr ((resource_file_content
             ++ Str.cat (map section_text (linked resource_links)))%string,
            all_links_found
            || match linked resource_links with
               | [] => false
               | _ => true
               end)).
Proof.
  induction resource_links as [|[title links] resource_links IH];
    intros content found.
  - cbn [show_resources linked filter flat_map map Str.cat].
    now rewrite append_nil_r, orb_false_r.
  - destruct links as [|res links].
    + cbn [show_resources linked filter snd]. apply IH.
    + cbn [show_resources ui_bind draw]. rewrite show_links_eq.
      cbn [ui_bind draw fst snd app]. rewrite IH.
      cbn [fst snd linked filter flat_map map Str.cat section_widgets].
      fold (linked resource_links).
      rewrite orb_true_r. f_equal.
      * unfold section_widgets. cbn [fst snd app].
        now rewrite <- app_assoc.
      * unfold section_text. cbn [fst snd map Str.cat orb].
        now rewrite !append_assoc.
Qed.

Lemma buttons_sections (l : list (val * list resource)) :
  filter is_button (flat_map section_widgets l) = [].
Proof.
  induction l as [|[title links] l IH]; [reflexivity|].
  cbn [flat_map]. rewrite filter_app, IH, app_nil_r.
  unfold section_widgets. cbn [filter is_button fst snd].
  rewrite filter_app. cbn [filter is_button]. rewrite app_nil_r.
  induction links as [|res links IHl]; [reflexivity|exact IHl].
Qed.

Lemma named_file_name (research_data : option dict) :
  named research_data
  = match resource_file_name research_data with
    | inr _ => true
    | inl _ => false
    end.
Proof.
  destruct research_data as [d|]; [|reflexivity].
  unfold named, resource_file_name, research_get.
  now destruct (dict_get d "input_name" (VStr "resources")).
Qed.

Lemma show_resource_assets_eq (results : bundle) :
  show_resource_assets results
  = match resource_file_name (research_data results) with
    | inl e => ([StSubheader "Relevant Resource Assets"], inl e)
    | inr file_name =>
        (StSubheader "Relevant Resource Assets"
         :: flat_map section_widgets (linked (resource_links results))
         ++ [ match linked (resource_links results) with
              | [] =>
                  StWrite
                    "No specific resource links found for the generated use cases."
              | _ =>
                  StDownloadButton "Download Resource Links (.md)"
                    (encode_utf8 (resource_markdown (resource_links results)))
                    file_name "text/markdown"
              end ],
         inr tt)
    end.
Proof.
  unfold show_resource_assets.
  destruct (resource_file_name (research_data results)) as [e|file_name];
    [reflexivity|].
  cbn [ui_lift ui_bind draw fst snd app].
  assert (S : match resource_links results with
              | [] =>
                  ui_ret
                    (("# Relevant Resource Links" ++ Str.nl ++ Str.nl)%string,
                     false)
              | _ =>
                  show_resources (resource_links results)
                    ("# Relevant Resource Links" ++ Str.nl ++ Str.nl) false
              end
              = (flat_map section_widgets (linked (resource_links results)),
                 inr (resource_markdown (resource_links results),
                      match linked (resource_links results) with
                      | [] => false
                      | _ => true
                      end))).
  { destruct (resource_links results) as [|kv l] eqn:E.
    - reflexivity.
    - rewrite show_resources_eq. unfold resource_markdown.
      now rewrite !append_assoc. }
  rewrite S. cbn [fst snd].
  destruct (linked (resource_links results)); reflexivity.
Qed.

Lemma drawn_show_resource_assets (results : bundle) :
  drawn (show_resource_assets results) = named (research_data results).
Proof.
  rewrite show_resource_assets_eq, named_file_name.
  now destruct (resource_file_name (research_data results)).
Qed.

Lemma buttons_show_resource_assets (results : bundle) :
  buttons (show_resource_assets results)
  = if named (research_data results)
       && match linked (resource_links results) with
          | [] => false
          | _ => true
          end
    then [download_button results] else [].
Proof.
  rewrite show_resource_assets_eq, named_file_name. unfold download_button.
  destruct (resource_file_name (research_data results)) as [e|file_name];
    [reflexivity|].
  unfold buttons. cbn [fst filter is_button andb].
  rewrite filter_app, buttons_sections.
  destruct (linked (resource_links results)); reflexivity.
Qed.

(** *** The whole page *)

Lemma drawn_draw (w : widget) : drawn (draw w) = true.
Proof.
  reflexivity.
Qed.

Lemma buttons_draw (w : widget) :
  buttons (draw w) = if is_button w then [w] else [].
Proof.
  unfold buttons. cbn [draw fst filter]. now destruct (is_button w).
Qed.

Lemma drawn_show_proposal (results : bundle) :
  drawn (show_proposal results)
  = summarisable (research_data results)
    && (match use_cases results with
        | [] => true
        | _ =>
            forallb is_object (use_cases results)
            && named (research_data results)
        end
        && forallb is_object (genai_suggestions results)).
Proof.
  unfold show_proposal.
  rewrite !drawn_bind, !drawn_draw, drawn_research_summary.
  cbn [andb]. f_equal. f_equal.
  - destruct (use_cases results) as [|uc l] eqn:E; [reflexivity|].
    now rewrite drawn_bind, drawn_show_use_cases, drawn_show_resource_assets.
  - destruct (genai_suggestions results) as [|s l] eqn:E; [reflexivity|].
    apply drawn_show_suggestions.
Qed.

Lemma buttons_show_proposal (results : bundle) :
  buttons (show_proposal results)
  = if summarisable (research_data results)
       && match use_cases results with [] => false | _ => true end
       && forallb is_object (use_cases results)
       && named (research_data results)
       && match linked (resource_links results) with
          | [] => false
          | _ => true
          end
    then [download_button results] else [].
Proof.
  unfold show_proposal.
  rewrite !buttons_bind, !drawn_draw, drawn_research_summary,
    buttons_research_summary.
  rewrite !buttons_draw. cbn [is_button andb app].
  destruct (summarisable (research_data results)); [|reflexivity].
  cbn [andb].
  assert (G : buttons
                match genai_suggestions results with
                | [] =>
                    draw
                      (StWrite
                         "No general GenAI solution suggestions found (this is unexpected).")
                | _ => show_suggestions 0 (genai_suggestions results)
                end = []).
  { destruct (genai_suggestions results) as [|s l] eqn:E; [reflexivity|].
    apply buttons_show_suggestions. }
  rewrite G.
  destruct (use_cases results) as [|uc l] eqn:E; [reflexivity|].
  rewrite buttons_bind, drawn_bind, buttons_show_use_cases,
    drawn_show_use_cases, drawn_show_resource_assets,
    buttons_show_resource_assets.
  cbn [app andb].
  destruct (forallb is_object (uc :: l)); [|reflexivity]. cbn [andb].
  destruct (named (research_data results)); [|reflexivity]. cbn [andb].
  destruct (linked (resource_links results)); reflexivity.
Qed.

(** X12.  The page is drawn to its end exactly when the bundle is
    displayable: the research data is a dictionary whose [offerings] and
    [strategic_focus] are iterable and, unless the status is
    ["Failed Research"], the use cases and the suggestions are
    dictionaries and, when there is a use case, [input_name] is a
    string. *)
Theorem page_is_drawn_iff_displayable (results : bundle) :
  snd (display_results results) = inr tt <-> displayable results = true.
Proof.
  assert (D : drawn (display_results results) = displayable results).
  { unfold display_results, displayable.
    rewrite !drawn_bind, !drawn_draw. cbn [andb]. rewrite andb_true_r.
    destruct (status results =? "Failed Research")%string.
    - rewrite !drawn_bind, !drawn_draw, drawn_research_summary.
      cbn [andb orb]. now rewrite andb_true_r.
    - rewrite drawn_show_proposal. reflexivity. }
  rewrite <- D. unfold drawn.
  destruct (snd (display_results results)) as [e|[]]; split;
    (reflexivity || discriminate).
Qed.

(** X13.  The page has at most one download button.  It has one exactly
    when the status is not ["Failed Research"], the summary and the use
    cases are drawn, there is a use case, [input_name] is a string and a
    use case has a link; its data is then the file of the links, a
    section for each use case that has a link, in the order of the
    resource map. *)
Theorem page_download_button (results : bundle) :
  buttons (display_results results)
  = (if offers_download results then [download_button results] else [])
  /\ forall label data file_name mime,
       In (StDownloadButton label data file_name mime)
         (fst (display_results results)) ->
       linked (resource_links results) <> []
       /\ data = encode_utf8 (resource_markdown (resource_links results))
       /\ resource_file_name (research_data results) = inr file_name.
Proof.
  assert (B : buttons (display_results results)
              = if offers_download results then [download_button results]
                else []); [|split; [exact B|]].
  2: { intros label data file_name mime H.
       assert (I : In (StDownloadButton label data file_name mime)
                     (buttons (display_results results)))
         by (apply filter_In; now split).
       rewrite B in I. unfold offers_download in I.
       destruct (linked (resource_links results)) eqn:L;
         [now rewrite !andb_false_r in I|].
       rewrite named_file_name in I. unfold download_button in I.
       destruct (resource_file_name (research_data results)) as [e|f];
         [now rewrite !andb_false_r in I|].
       destruct (_ && _) in I; [|contradiction].
       destruct I as [I|[]]. injection I as _ Hd Hf. subst.
       repeat split. discriminate. }
  unfold display_results, offers_download.
  rewrite !buttons_bind, !drawn_draw, !buttons_draw.
  cbn [is_button andb app].
  destruct (status results =? "Failed Research")%string.
  - rewrite !buttons_bind, buttons_research_summary, !buttons_draw.
    cbn [is_button negb andb app].
    rewrite !drawn_draw. cbn [app]. now destruct (drawn _).
  - rewrite buttons_show_proposal. cbn [negb andb].
    destruct (drawn (show_proposal results)); now rewrite app_nil_r.
Qed.

(** *** The name of the file *)

Lemma length_replace_char (old new : ascii) (s : string) :
  String.length (replace_char old new s) = String.length s.
Proof.
  induction s as [|c s IH]; [reflexivity|]. cbn. now rewrite IH.
Qed.

Lemma replace_char_absent (old new : ascii) (s : string) :
  ~ In old (list_ascii_of_string s) -> replace_char old new s = s.
Proof.
  induction s as [|c s IH]; intros H; [reflexivity|].
  cbn [replace_char]. destruct (Ascii.eqb c old) eqn:E.
  - apply Ascii.eqb_eq in E. subst. exfalso. apply H. now left.
  - rewrite IH; [reflexivity|]. intros I. apply H. now right.
Qed.

Lemma in_replace_char (old new c : ascii) (s : string) :
  In c (list_ascii_of_string (replace_char old new s)) ->
  c = new \/ (c <> old /\ In c (list_ascii_of_string s)).
Proof.
  induction s as [|c0 s IH]; cbn [replace_char list_ascii_of_string In];
    [contradiction|].
  intros [H|H].
  - destruct (Ascii.eqb c0 old) eqn:E; [now left|].
    right. apply Ascii.eqb_neq in E. subst. split; [exact E | now left].
  - destruct (IH H) as [N|[N I]]; [now left|]. right. split; [exact N|].
    now right.
Qed.

Lemma list_ascii_of_append (a b : string) :
  list_ascii_of_string (a ++ b)
  = list_ascii_of_string a ++ list_ascii_of_string b.
Proof.
  induction a as [|c a IH]; [reflexivity|]. cbn. now rewrite IH.
Qed.

(** X14.  The name of the file of the links is made of [input_name],
    which has to be a string: every blank and every slash of it is
    replaced by an underscore, and ["_ai_resources.md"] is put after it.
    The name holds no blank and no slash; a name without them is
    kept. *)
Theorem file_name_is_sanitised (research_data : option dict)
  (file_name : string) :
  resource_file_name research_data = inr file_name ->
  exists d s base,
    research_data = Some d
    /\ dict_get d "input_name" (VStr "resources") = VStr s
    /\ file_name = (base ++ "_ai_resources.md")%string
    /\ String.length base = String.length s
    /\ (forall c, In c (list_ascii_of_string file_name) ->
                  c <> " "%char /\ c <> "/"%char)
    /\ (~ In " "%char (list_ascii_of_string s) ->
        ~ In "/"%char (list_ascii_of_string s) -> base = s).
Proof.
  intros H. destruct research_data as [d|]; [|discriminate].
  unfold resource_file_name, research_get in H.
  destruct (dict_get d "input_name" (VStr "resources")) as [| | | |s| |] eqn:E;
    try discriminate.
  injection H as H. subst file_name.
  exists d, s, (replace_char "/" "_" (replace_char " " "_" s)).
  repeat split.
  - exact E.
  - now rewrite !length_replace_char.
  - rewrite list_ascii_of_append in H. apply in_app_or in H.
    destruct H as [H|H].
    + apply in_replace_char in H. destruct H as [H|[_ H]]; [now subst|].
      apply in_replace_char in H. destruct H as [H|[H _]]; [now subst|].
      exact H.
    + cbn in H. intuition (subst; discriminate).
  - rewrite list_ascii_of_append in H. apply in_app_or in H.
    destruct H as [H|H].
    + apply in_replace_char in H. destruct H as [H|[H _]]; [now subst|].
      exact H.
    + cbn in H. intuition (subst; discriminate).
  - intros Hb Hs. rewrite (replace_char_absent " " "_" s Hb).
    now apply replace_char_absent.
Qed.

(** *** The use cases of a bundle *)

Lemma is_use_case_object (uc : val) :
  is_use_case uc = true -> is_object uc = true.
Proof.
  now destruct uc.
Qed.

Lemma forallb_use_case_object (l : list val) :
  forallb is_use_case l = true -> forallb is_object l = true.
Proof.
  induction l as [|uc l IH]; [reflexivity|]. cbn [forallb].
  intros H. apply andb_prop in H. destruct H as [H1 H2].
  now rewrite (is_use_case_object _ H1), IH.
Qed.

Lemma always_collect_all (search_tool : search_tool_t)
  (use_cases : list val) :
  forall collected_links,
    always (if_returns (fun _ => forallb is_use_case use_cases = true))
      (collect_all search_tool use_cases collected_links).
Proof.
  induction use_cases as [|uc use_cases IH]; intros collected;
    cbn [collect_all].
  - now constructor.
  - destruct uc as [| | | | | |d]; try (constructor; exact I).
    destruct (hashable (dict_get d "title" (VStr "Untitled Use Case")))
      eqn:H; [|constructor; exact I].
    apply (always_bind (fun _ => True)); [apply always_any | | auto].
    intros links _.
    apply (always_weaken
             (if_returns (fun _ => forallb is_use_case use_cases = true)));
      [|apply IH].
    intros [a|e] Q; [|exact I]. cbn [if_returns forallb is_use_case] in *.
    now rewrite H, Q.
Qed.

Lemma always_use_cases (research_output : option dict)
  (search_tool : search_tool_t) :
  always
    (if_returns (fun b => forallb is_use_case (use_cases b) = true))
    (proposal research_output search_tool).
Proof.
  unfold proposal.
  destruct (insufficient research_output) as [e|[|]]; cbn [lift bind].
  - now constructor.
  - now constructor.
  - apply (always_bind (fun _ => True)); [apply always_any | | auto].
    intros use_cases _.
    apply (always_bind
             (if_returns (fun _ : list (val * list resource) =>
                            forallb is_use_case use_cases = true)));
      [ | | auto].
    + unfold resource_collection_agent.
      destruct use_cases as [|uc l]; [now constructor|].
      apply always_collect_all.
    + intros resource_links H.
      apply (always_bind (fun _ => True)); [apply always_any | | auto].
      intros genai_suggestions _. constructor. exact H.
Qed.

(** X15.  Whatever the search tool and the generator do, the use cases
    of a bundle that [orchestrator] returns are dictionaries with a
    hashable title, since [resource_collection_agent] has gone through
    them: the page draws all of them. *)
Theorem use_cases_of_a_bundle_are_drawn (name : string)
  (search_tool : search_tool_t) :
  let drawable (b : bundle) :=
    forallb is_use_case (use_cases b) = true
    /\ snd (show_use_cases 0 (use_cases b)) = inr tt in
  always (if_returns drawable) (orchestrator name search_tool)
  /\ forall script b calls,
       run (orchestrator name search_tool) script
       = Some (Returned b, calls) ->
       drawable b.
Proof.
  intros drawable.
  assert (A : always (if_returns drawable) (orchestrator name search_tool)).
  { unfold orchestrator.
    apply (always_bind (fun _ => True)); [apply always_any | | auto].
    intros research_output _.
    apply (always_weaken
             (if_returns
                (fun b => forallb is_use_case (use_cases b) = true)));
      [|apply always_use_cases].
    intros [b|e] Q; [|exact I]. split; [exact Q|].
    cbn [if_returns] in Q. apply forallb_use_case_object in Q.
    rewrite <- (drawn_show_use_cases _ 0) in Q. unfold drawn in Q.
    now destruct (snd (show_use_cases 0 (use_cases b))) as [e|[]]. }
  split; [exact A|].
  intros script b calls R. exact (always_run _ _ A _ _ _ R).
Qed.

(** *** The page of a run *)

Lemma run_page (name : string) (script : list reply) (results : bundle)
  (calls : list call) :
  Str.is_empty name = false ->
  run (orchestrator name perform_GoogleSearch) script
  = Some (Returned results, calls) ->
  run (page name true) script
  = Some (Returned (display_results results), calls).
Proof.
  intros N R. unfold page. rewrite N.
  exact (run_bind_ret _ _ _ _ _ _ R eq_refl).
Qed.

Lemma run_research_agent_none (name : string)
  (replies : list search_reply) :
  List.length replies = 4 ->
  all_items replies = [] ->
  run (research_agent name perform_GoogleSearch) (map SearchReply replies)
  = Some (Returned None, search_calls 5 (research_queries name)).
Proof.
  intros Hlen Hitems.
  rewrite <- (app_nil_r (map SearchReply replies)).
  rewrite (run_research_agent _ _ _ Hlen), Hitems.
  cbn [snippets_text research_extraction Str.is_empty run after_calls].
  now rewrite app_nil_r.
Qed.

(** X16.  When the four searches give no item, the research is [None]
    and the page, which reads the fields of the research with [get],
    ends on an [AttributeError] under the heading of the summary: the
    generator is not called, and the closing message is not drawn. *)
Theorem page_without_search_results (name : string)
  (replies : list search_reply) :
  Str.is_empty name = false ->
  List.length replies = 4 ->
  all_items replies = [] ->
  run (page name true) (map SearchReply replies)
  = Some (Returned
            ([ StMarkdown "---";
               StError
                 "Could not generate a proposal due to initial research failure.";
               StSubheader "Research Attempt Summary:" ],
             inl (Exn AttributeError
                    "'NoneType' object has no attribute 'get'")),
          search_calls 5 (research_queries name)).
Proof.
  intros N Hlen Hitems.
  rewrite (run_page name _ (failed_bundle None)
             (search_calls 5 (research_queries name)) N); [reflexivity|].
  apply orchestrator_failed; [|exact I].
  now apply run_research_agent_none.
Qed.

Lemma display_failed_marked (marker : string) (d : dict) :
  marked marker d ->
  display_results (failed_bundle (Some d)) = (failure_page marker, inr tt).
Proof.
  intros (Hi & Hs & Ho & Hf).
  unfold display_results, failed_bundle. cbn [status research_data].
  change ("Failed Research" =? "Failed Research")%string with true.
  cbv iota. rewrite research_summary_some.
  rewrite (dict_get_of_get_none _ _ _ _ Hi),
    (dict_get_of_get_none _ _ _ _ Hs).
  unfold dict_get_none in Ho, Hf. unfold dict_get in *.
  destruct (dict_find (VStr "offerings") d) as [o|]; [|discriminate].
  destruct (dict_find (VStr "strategic_focus") d) as [f|]; [|discriminate].
  subst o f. reflexivity.
Qed.

(** X17.  When the searches gave an item and the generator raises [e],
    or [json.loads] rejects its response twice, the page shows the
    failure and the marker in the four lines of the summary, and then
    the closing message ["Proposal Generation Complete."]. *)
Theorem failed_generation_is_reported (name : string)
  (replies : list search_reply) :
  Str.is_empty name = false ->
  List.length replies = 4 ->
  all_items replies <> [] ->
  (forall e,
     run (page name true) (map SearchReply replies ++ [GenReply (inl e)])
     = Some (Returned (failure_page ("Error: " ++ exn_msg e), inr tt),
             research_calls name replies))
  /\ (forall text e e2,
        json_loads (Str.strip text) = inl e ->
        is_JSONDecodeError e = true ->
        json_loads (clean_fences (Str.strip text)) = inl e2 ->
        is_JSONDecodeError e2 = true ->
        run (page name true)
          (map SearchReply replies ++ [GenReply (inr text)])
        = Some (Returned
                  (failure_page "Extraction Failed (Parsing Error)", inr tt),
                research_calls name replies)).
Proof.
  intros N Hlen Hitems.
  assert (P : forall marker r,
             Str.contains "Error" marker = true ->
             match r with
             | inr text =>
                 extract_info (researched name replies) (Str.strip text)
             | inl e => error_fields e (researched name replies)
             end = failure_fields marker (researched name replies) ->
             run (page name true) (map SearchReply replies ++ [GenReply r])
             = Some (Returned (failure_page marker, inr tt),
                     research_calls name replies)).
  { intros marker r C E.
    pose proof (marked_failure_fields marker (researched name replies)) as M.
    rewrite <- (display_failed_marked _ _ M).
    apply (run_page _ _ _ _ N).
    apply orchestrator_failed.
    - rewrite (run_research_agent_reply _ _ _ Hlen Hitems), E.
      now rewrite (ensure_industry_marked _ _ M).
    - now apply (marked_research_failed marker). }
  split.
  - intros e. apply P; reflexivity.
  - intros text e e2 H He H2 He2. apply P; [reflexivity|].
    unfold extract_info. now rewrite H, He, H2, He2.
Qed.

Lemma offerings_of_object (name : string) (replies : list search_reply)
  (m : dict) :
  dict_find (VStr "offerings") m = None ->
  dict_get (ensure_industry (dict_merge (researched name replies) m))
    "offerings" (VList [VStr "N/A"]) = VNone.
Proof.
  intros H.
  assert (D : dict_find (VStr "offerings")
                (dict_merge (researched name replies) m) = Some VNone).
  { rewrite (dict_find_merge_absent _ _ _ H).
    now rewrite dict_find_researched. }
  unfold dict_get, ensure_industry.
  destruct (dict_get_none _ "industry"); try now rewrite D.
  unfold set_field. rewrite dict_find_set_str.
  change (key_eqb (VStr "industry") (VStr "offerings")) with false.
  now rewrite D.
Qed.

(** X18.  When the generator answers the research with an object that
    has no ["offerings"], the research keeps the [None] it started
    with, and the page of any bundle of this research ends on a
    [TypeError] after the line of the segment, whatever the status. *)
Theorem object_without_offerings_is_not_drawn (name : string)
  (replies : list search_reply) (text : string) (m : dict) :
  List.length replies = 4 ->
  all_items replies <> [] ->
  parsed_object (Str.strip text) m ->
  dict_find (VStr "offerings") m = None ->
  exists d,
    run (research_agent name perform_GoogleSearch)
      (map SearchReply replies ++ [GenReply (inr text)])
    = Some (Returned (Some d), research_calls name replies)
    /\ dict_get_none d "offerings" = VNone
    /\ forall b,
         research_data b = Some d ->
         snd (display_results b)
         = inl (Exn TypeError "'NoneType' object is not iterable")
         /\ last (fst (display_results b)) (StText EmptyString)
            = StWrite ("**Segment:** "
                       ++ py_str (dict_get d "segment" (VStr "N/A"))).
Proof.
  intros Hlen Hitems Hm Ho.
  exists (ensure_industry (dict_merge (researched name replies) m)).
  pose proof (offerings_of_object name replies m Ho) as O.
  split; [now apply run_research_agent_object|].
  split.
  { unfold dict_get_none. unfold dict_get in *.
    destruct (dict_find (VStr "offerings")
                (ensure_industry (dict_merge (researched name replies) m)));
      [exact O | reflexivity]. }
  intros b Hb. unfold display_results, show_proposal. rewrite Hb.
  rewrite research_summary_some, O. cbv zeta. cbn [iterate type_name].
  destruct (status b =? "Failed Research")%string; split; reflexivity.
Qed.

End PageBehaviour.

(** ** A whole run *)

Section WholeRun.

Context {FL : Floats} {JS : Json}.

Local Open Scope list_scope.

Lemma length_resource_calls (use_cases : list val) :
  List.length (resource_calls use_cases) = 2 * List.length use_cases.
Proof.
  unfold resource_calls.
  induction use_cases as [|uc use_cases IH]; [reflexivity|].
  cbn [flat_map]. rewrite length_app, IH. cbn [List.length]. 
  change (List.length (search_calls 2 (resource_queries (title_of uc))))
    with 2.
  lia.
Qed.

Lemma run_resource_collection_agent (use_cases : list val)
  (replies : list search_reply) :
  forallb is_use_case use_cases = true ->
  List.length replies = 2 * List.length use_cases ->
  run (resource_collection_agent use_cases perform_GoogleSearch)
    (map SearchReply replies)
  = Some (Returned (resource_map use_cases replies []),
          resource_calls use_cases).
Proof.
  intros Huc Hlen. unfold resource_collection_agent.
  destruct use_cases as [|uc use_cases].
  - destruct replies; [reflexivity | discriminate].
  - now apply run_collect_all.
Qed.

(** X19.  A whole successful run.  The research searches give an item,
    the generator answers a text from which the research passes the
    gate, then a reply whose use cases are dictionaries with a hashable
    title, then any reply: [orchestrator] returns the bundle of the
    parsed use cases, of the map of their links and of the parsed
    suggestions (the fallback when there is none), after eight searches
    and three generations, and two searches for each use case. *)
Theorem successful_run (name : string)
  (replies1 replies2 replies3 : list search_reply) (text1 : string)
  (r2 r4 : generation_reply) (p : profile) :
  List.length replies1 = 4 ->
  all_items replies1 <> [] ->
  let d :=
    ensure_industry
      (extract_info (researched name replies1) (Str.strip text1)) in
  insufficient (Some d) = inr false ->
  read_profile d = inr p ->
  List.length replies2 = 4 ->
  let use_cases := list_of_reply r2 in
  forallb is_use_case use_cases = true ->
  List.length replies3 = 2 * List.length use_cases ->
  let calls :=
    research_calls name replies1 ++ use_case_calls p replies2
    ++ resource_calls use_cases ++ [GenCall (genai_prompt p)] in
  run (orchestrator name perform_GoogleSearch)
    ((map SearchReply replies1 ++ [GenReply (inr text1)])
     ++ (map SearchReply replies2 ++ [GenReply r2])
     ++ map SearchReply replies3 ++ [GenReply r4])
  = Some (Returned
            (Bundle use_cases (resource_map use_cases replies3 [])
               match list_of_reply r4 with
               | [] => [fallback_suggestion]
               | l => l
               end
               (Some d) "Success"),
          calls)
  /\ List.length calls = 11 + 2 * List.length use_cases.
Proof.
  intros Hlen1 Hitems d.
  pose proof (run_research_agent_reply name replies1 (inr text1)
                Hlen1 Hitems) as R1.
  change (run (research_agent name perform_GoogleSearch)
            (map SearchReply replies1 ++ [GenReply (inr text1)])
          = Some (Returned (Some d), research_calls name replies1)) in R1.
  clearbody d.
  intros G Hp Hlen2 use_cases Huc Hlen3 calls. split.
  - pose proof (run_use_case_generation_agent d p replies2 r2 G Hp Hlen2)
      as R2.
    fold use_cases in R2.
    pose proof (run_resource_collection_agent use_cases replies3 Huc Hlen3)
      as R3.
    pose proof (run_optional_genai_proposer_agent d p r4 G Hp) as R4.
    unfold orchestrator. rewrite (run_bind _ _ _ _ _ _ R1).
    unfold proposal. rewrite G. cbn [lift bind].
    rewrite (run_bind _ _ _ _ _ _ R2), (run_bind _ _ _ _ _ _ R3).
    pose proof
      (run_bind_pure _
         (fun genai_suggestions =>
            Bundle use_cases (resource_map use_cases replies3 [])
              genai_suggestions (Some d) "Success") _ _ _ R4) as R5.
    cbv beta in R5. rewrite R5. reflexivity.
  - unfold calls. rewrite !length_app, length_resource_calls.
    unfold research_calls, use_case_calls. rewrite !length_app.
    cbn [List.length search_calls research_queries trend_queries map].
    lia.
Qed.

End WholeRun.

(** ** Distinct keys *)

Section DistinctKeys.

Context {FL : Floats}.

Local Open Scope list_scope.

Lemma dict_set_fresh (k v : val) (acc : dict) :
  forallb (fun x => negb (key_eqb x k)) (map fst acc) = true ->
  dict_set k v acc = acc ++ [(k, v)].
Proof.
  induction acc as [|[k' v'] acc IH]; [reflexivity|].
  cbn [map fst forallb dict_set]. intros H.
  apply andb_prop in H. destruct H as [H1 H2].
  destruct (key_eqb k' k); [discriminate|]. now rewrite (IH H2).
Qed.

Lemma distinct_app (a b : list val) (k : val) :
  distinct (a ++ k :: b) = true ->
  forallb (fun x => negb (key_eqb x k)) a = true.
Proof.
  induction a as [|x a IH]; [reflexivity|].
  cbn [app distinct forallb]. intros H.
  apply andb_prop in H. destruct H as [H1 H2].
  rewrite (IH H2), andb_true_r.
  rewrite existsb_app in H1. cbn [existsb] in H1.
  destruct (key_eqb x k); [|reflexivity].
  now rewrite orb_true_r in H1.
Qed.

Lemma dict_merge_distinct (d acc : dict) :
  distinct (map fst acc ++ map fst d) = true ->
  dict_merge acc d = acc ++ d.
Proof.
  revert acc. induction d as [|[k v] d IH]; intros acc H.
  - cbn. now rewrite List.app_nil_r.
  - change (dict_merge acc ((k, v) :: d))
      with (dict_merge (dict_set k v acc) d).
    cbn [map fst] in H.
    rewrite (dict_set_fresh k v acc (distinct_app _ _ _ H)).
    rewrite IH.
    + now rewrite <- List.app_assoc.
    + now rewrite map_app, <- List.app_assoc.
Qed.

End DistinctKeys.

(** ** The reference decoder reads what [json.dumps] writes *)

Section RoundTrip.

Import Ref.

Local Open Scope list_scope.

Lemma scan_dumps_char (c : ascii) (t : string) :
  scan_string (dumps_char c ++ t) = cons_char c (scan_string t).
Proof.
  destruct c as [[] [] [] [] [] [] [] []]; reflexivity.
Qed.

Lemma scan_dumps_chars (s rest : string) :
  scan_string (dumps_chars s ++ Str.dq ++ rest) = Some (s, rest).
Proof.
  induction s as [|c s IH]; [reflexivity|].
  cbn [dumps_chars]. rewrite append_assoc, scan_dumps_char, IH. reflexivity.
Qed.

(** *** Integers *)

Lemma nzhead_head (d : Decimal.uint) :
  match Decimal.nzhead d with
  | Decimal.D0 _ => False
  | _ => True
  end.
Proof.
  induction d; simpl; auto.
Qed.

Lemma to_uint_head (p : positive) :
  match Pos.to_uint p with
  | Decimal.Nil | Decimal.D0 _ => False
  | _ => True
  end.
Proof.
  pose proof (DecimalPos.Unsigned.to_of (Pos.to_uint p)) as H.
  rewrite DecimalPos.Unsigned.of_to in H. cbn [N.to_uint] in H.
  pose proof (DecimalPos.Unsigned.to_uint_nonzero p) as Z.
  pose proof (nzhead_head (Pos.to_uint p)) as N.
  rewrite H in Z |- *. unfold Decimal.unorm in *.
  destruct (Decimal.nzhead (Pos.to_uint p)); auto.
Qed.

Lemma scan_digits_end (acc : Z) (rest : string) :
  delimited rest = true -> scan_digits acc rest = (acc, rest).
Proof.
  destruct rest as [|c rest]; [reflexivity|]. cbn [delimited].
  intros H. apply orb_prop in H. destruct H as [H|H];
    [apply orb_prop in H; destruct H as [H|H]|];
    apply Ascii.eqb_eq in H; subst; reflexivity.
Qed.

Lemma starts_fraction_end (rest : string) :
  delimited rest = true -> starts_fraction rest = false.
Proof.
  destruct rest as [|c rest]; [reflexivity|]. cbn [delimited].
  intros H. apply orb_prop in H. destruct H as [H|H];
    [apply orb_prop in H; destruct H as [H|H]|];
    apply Ascii.eqb_eq in H; subst; reflexivity.
Qed.

Lemma scan_digits_uint (l : Decimal.uint) :
  forall acc rest,
    delimited rest = true ->
    scan_digits (Z.pos acc) (NilEmpty.string_of_uint l ++ rest)
    = (Z.pos (Pos.of_uint_acc l acc), rest).
Proof.
  induction l as [|l IH|l IH|l IH|l IH|l IH|l IH|l IH|l IH|l IH|l IH];
    intros acc rest H;
    cbn [NilEmpty.string_of_uint append Pos.of_uint_acc];
    [now apply scan_digits_end|..];
    cbn [scan_digits];
    match goal with
    | |- context [digit ?c] =>
        let d := eval vm_compute in (digit c) in
        change (digit c) with d
    end;
    cbv iota; rewrite <- (IH _ rest H); f_equal; lia.
Qed.

Lemma scan_nat_pos (p : positive) (rest : string) :
  delimited rest = true ->
  scan_nat (NilZero.string_of_uint (Pos.to_uint p) ++ rest)
  = Some (Z.pos p, rest).
Proof.
  intros H.
  pose proof (to_uint_head p) as Hd.
  pose proof (DecimalPos.Unsigned.of_to p) as O.
  destruct (Pos.to_uint p) as [|l|l|l|l|l|l|l|l|l|l] eqn:E;
    try contradiction;
    cbn [Pos.of_uint] in O; injection O as O;
    cbn [NilZero.string_of_uint NilEmpty.string_of_uint append];
    match goal with
    | |- scan_nat (String ?c ?t) = _ =>
        change (scan_nat (String c t))
          with (match digit c with
                | Some 0%Z =>
                    if starts_fraction t then None else Some (0%Z, t)
                | Some d =>
                    let r := scan_digits d t in
                    if starts_fraction (snd r) then None else Some r
                | None => None
                end);
        let d := eval vm_compute in (digit c) in
        change (digit c) with d
    end;
    cbv iota zeta; rewrite (scan_digits_uint l _ rest H); cbn [snd];
    rewrite (starts_fraction_end _ H), O; reflexivity.
Qed.

(** *** Scalars *)

Lemma skip_ws_opens (s : string) : opens_value s = true -> skip_ws s = s.
Proof.
  destruct s as [|c s]; [discriminate|]. cbn [opens_value skip_ws].
  now destruct (is_ws c).
Qed.

Lemma opens_app (a b : string) :
  opens_value a = true -> opens_value (a ++ b) = true.
Proof.
  now destruct a.
Qed.

Lemma after_app (p s : string) : after p (p ++ s) = s.
Proof.
  apply drop_app.
Qed.

Lemma scan_int (fuel : nat) (z : Z) (rest : string) :
  delimited rest = true ->
  scan_value (S fuel) (Str.of_Z z ++ rest) = Some (VInt z, rest).
Proof.
  intros H. unfold Str.of_Z. destruct z as [|p|p]; cbn [Z.to_int].
  - cbn [NilZero.string_of_int NilZero.string_of_uint
           NilEmpty.string_of_uint append].
    change (scan_value (S fuel) (String "0" rest))
      with (match scan_nat (String "0" rest) with
            | Some (z, rest) => Some (VInt z : jval, rest)
            | None => None
            end).
    cbn [scan_nat]. change (digit "0") with (Some 0%Z). cbv iota.
    now rewrite (starts_fraction_end _ H).
  - pose proof (scan_nat_pos p rest H) as K.
    pose proof (to_uint_head p) as Hd.
    cbn [NilZero.string_of_int].
    destruct (Pos.to_uint p) as [|l|l|l|l|l|l|l|l|l|l]; try contradiction;
      cbn [NilZero.string_of_uint NilEmpty.string_of_uint append] in K |- *;
      match goal with
      | |- scan_value _ ?s = _ =>
          change (scan_value (S fuel) s)
            with (match scan_nat s with
                  | Some (z, rest) => Some (VInt z : jval, rest)
                  | None => None
                  end)
      end;
      now rewrite K.
  - pose proof (scan_nat_pos p rest H) as K.
    cbn [NilZero.string_of_int append].
    change (scan_value (S fuel)
              (String "-" (NilZero.string_of_uint (Pos.to_uint p) ++ rest)))
      with (match
               scan_nat (NilZero.string_of_uint (Pos.to_uint p) ++ rest)
             with
             | Some (z, rest) => Some (VInt (- z) : jval, rest)
             | None => None
             end).
    now rewrite K.
Qed.

Lemma opens_of_Z (z : Z) : opens_value (Str.of_Z z) = true.
Proof.
  unfold Str.of_Z. destruct z as [|p|p]; cbn [Z.to_int]; try reflexivity.
  pose proof (to_uint_head p) as Hd. cbn [NilZero.string_of_int].
  destruct (Pos.to_uint p); try contradiction; reflexivity.
Qed.

Lemma opens_dumps (v : jval) : opens_value (json_dumps v) = true.
Proof.
  destruct v as [|[]|z|[]|s|l|d]; try reflexivity. apply opens_of_Z.
Qed.

Lemma scan_str (fuel : nat) (s rest : string) :
  scan_value (S fuel) (dumps_str s ++ rest) = Some (VStr s, rest).
Proof.
  unfold dumps_str.
  change (scan_value (S fuel) ((Str.dq ++ dumps_chars s ++ Str.dq) ++ rest))
    with (match scan_string ((dumps_chars s ++ Str.dq) ++ rest) with
          | Some (t, rest) => Some (VStr t : jval, rest)
          | None => None
          end).
  now rewrite append_assoc, scan_dumps_chars.
Qed.

Lemma scan_word (fuel : nat) (v : jval) (rest : string) :
  match v with VNone | VBool _ => True | _ => False end ->
  scan_value (S fuel) (json_dumps v ++ rest) = Some (v, rest).
Proof.
  destruct v as [|[]|z|[]|s|l|d]; try contradiction; intros _;
    cbn [json_dumps].
  - change (scan_value (S fuel) ("null" ++ rest))
      with (if prefix "null" ("null" ++ rest)
            then Some (VNone, after "null" ("null" ++ rest))
            else None : option (jval * string)).
    now rewrite prefix_refl_app, after_app.
  - change (scan_value (S fuel) ("true" ++ rest))
      with (if prefix "true" ("true" ++ rest)
            then Some (VBool true, after "true" ("true" ++ rest))
            else None : option (jval * string)).
    now rewrite prefix_refl_app, after_app.
  - change (scan_value (S fuel) ("false" ++ rest))
      with (if prefix "false" ("false" ++ rest)
            then Some (VBool false, after "false" ("false" ++ rest))
            else None : option (jval * string)).
    now rewrite prefix_refl_app, after_app.
Qed.

(** *** Arrays and objects *)

Lemma scan_list (fuel : nat) (s rest : string) (l : list jval) :
  opens_value s = true ->
  scan_elements fuel s = Some (l, rest) ->
  scan_value (S fuel) (String "[" s) = Some (VList l, rest).
Proof.
  intros O K.
  change (scan_value (S fuel) (String "[" s))
    with (match skip_ws s with
          | String "]"%char rest => Some (VList [] : jval, rest)
          | s1 =>
              match scan_elements fuel s1 with
              | Some (l, rest) => Some (VList l, rest)
              | None => None
              end
          end).
  rewrite (skip_ws_opens _ O).
  destruct s as [|c s]; [discriminate|].
  destruct c as [[] [] [] [] [] [] [] []]; try discriminate O;
    cbv iota; now rewrite K.
Qed.

Lemma scan_elements_last (fuel : nat) (s rest : string) (v : jval) :
  scan_value fuel s = Some (v, String "]" rest) ->
  scan_elements (S fuel) s = Some ([v], rest).
Proof.
  intros K.
  change (scan_elements (S fuel) s)
    with (match scan_value fuel s with
          | Some (v, rest) =>
              match skip_ws rest with
              | String "]"%char rest' => Some ([v], rest')
              | String ","%char rest' =>
                  match scan_elements fuel (skip_ws rest') with
                  | Some (l, rest'') => Some (v :: l, rest'')
                  | None => None
                  end
              | _ => None
              end
          | None => None
          end).
  now rewrite K.
Qed.

Lemma scan_elements_more (fuel : nat) (s t rest : string) (v : jval)
  (l : list jval) :
  scan_value fuel s = Some (v, String "," (String " " t)) ->
  opens_value t = true ->
  scan_elements fuel t = Some (l, rest) ->
  scan_elements (S fuel) s = Some (v :: l, rest).
Proof.
  intros K O E.
  change (scan_elements (S fuel) s)
    with (match scan_value fuel s with
          | Some (v, rest) =>
              match skip_ws rest with
              | String "]"%char rest' => Some ([v], rest')
              | String ","%char rest' =>
                  match scan_elements fuel (skip_ws rest') with
                  | Some (l, rest'') => Some (v :: l, rest'')
                  | None => None
                  end
              | _ => None
              end
          | None => None
          end).
  rewrite K.
  change (skip_ws (String "," (String " " t)))
    with (String "," (String " " t)).
  cbv iota.
  change (skip_ws (String " " t)) with (skip_ws t).
  now rewrite (skip_ws_opens _ O), E.
Qed.

Lemma scan_dict (fuel : nat) (s rest : string) (d : list (jval * jval)) :
  scan_members fuel [] (String "034" s) = Some (d, rest) ->
  scan_value (S fuel) (String "{" (String "034" s)) = Some (VDict d, rest).
Proof.
  intros K.
  change (scan_value (S fuel) (String "{" (String "034" s)))
    with (match scan_members fuel [] (String "034" s) with
          | Some (d, rest) => Some (VDict d : jval, rest)
          | None => None
          end).
  now rewrite K.
Qed.

Lemma scan_members_step (fuel : nat) (acc : list (jval * jval))
  (k t rest : string) (v : jval) :
  opens_value t = true ->
  scan_value fuel t = Some (v, rest) ->
  scan_members (S fuel) acc
    (String "034" (dumps_chars k ++ Str.dq ++ String ":" (String " " t)))
  = match skip_ws rest with
    | String "}"%char rest3 => Some (dict_set (VStr k) v acc, rest3)
    | String ","%char rest3 =>
        scan_members fuel (dict_set (VStr k) v acc) (skip_ws rest3)
    | _ => None
    end.
Proof.
  intros O K.
  change (scan_members (S fuel) acc
            (String "034"
               (dumps_chars k ++ Str.dq ++ String ":" (String " " t))))
    with (match
             scan_string
               (dumps_chars k ++ Str.dq ++ String ":" (String " " t))
           with
           | Some (key, rest) =>
               match skip_ws rest with
               | String ":"%char rest' =>
                   match scan_value fuel (skip_ws rest') with
                   | Some (v, rest'') =>
                       let d := dict_set (VStr key) v acc in
                       match skip_ws rest'' with
                       | String "}"%char rest3 => Some (d, rest3)
                       | String ","%char rest3 =>
                           scan_members fuel d (skip_ws rest3)
                       | _ => None
                       end
                   | None => None
                   end
               | _ => None
               end
           | None => None
           end).
  rewrite scan_dumps_chars.
  change (skip_ws (String ":" (String " " t)))
    with (String ":" (String " " t)).
  cbv iota.
  change (skip_ws (String " " t)) with (skip_ws t).
  now rewrite (skip_ws_opens _ O), K.
Qed.

(** *** Values *)

Lemma value_induction (P : jval -> Prop) :
  P VNone ->
  (forall b, P (VBool b)) ->
  (forall z, P (VInt z)) ->
  (forall s, P (VStr s)) ->
  (forall l, Forall P l -> P (VList l)) ->
  (forall d, Forall (fun kv => P (snd kv)) d -> P (VDict d)) ->
  forall v, P v.
Proof.
  intros HN HB HI HS HL HD.
  exact (fix go (v : jval) : P v :=
           match v with
           | VNone => HN
           | VBool b => HB b
           | VInt z => HI z
           | VFloat f => match f with end
           | VStr s => HS s
           | VList l =>
               HL l ((fix all (l : list jval) : Forall P l :=
                        match l with
                        | [] => Forall_nil P
                        | x :: l' => Forall_cons x (go x) (all l')
                        end) l)
           | VDict d =>
               HD d ((fix all (d : list (jval * jval))
                        : Forall (fun kv => P (snd kv)) d :=
                        match d with
                        | [] => Forall_nil _
                        | kv :: d' =>
                            Forall_cons kv (go (snd kv)) (all d')
                        end) d)
           end).
Qed.

Lemma join_cons (sep x : string) (y : string) (l : list string) :
  Str.join sep (x :: y :: l) = (x ++ sep ++ Str.join sep (y :: l))%string.
Proof.
  reflexivity.
Qed.

Lemma scan_elements_dumps (x : jval) (l : list jval) :
  Forall decodes (x :: l) ->
  forallb json_value (x :: l) = true ->
  forall fuel rest,
    list_sum (map (fun x => S (vsize x)) (x :: l)) <= fuel ->
    scan_elements fuel
      (Str.join ", " (map json_dumps (x :: l)) ++ String "]" rest)
    = Some (x :: l, rest).
Proof.
  revert x. induction l as [|y l IH]; intros x HP HJ fuel rest Hf.
  - apply Forall_inv in HP. cbn [forallb] in HJ.
    apply andb_prop in HJ. destruct HJ as [Jx _].
    cbn [map list_sum fold_right] in Hf. destruct fuel as [|fuel]; [lia|].
    cbn [map Str.join String.concat].
    apply scan_elements_last. apply (HP Jx); [lia | reflexivity].
  - pose proof (Forall_inv HP) as Px. apply Forall_inv_tail in HP.
    cbn [forallb] in HJ. apply andb_prop in HJ. destruct HJ as [Jx HJ].
    cbn [map list_sum fold_right] in Hf. destruct fuel as [|fuel]; [lia|].
    cbn [map]. rewrite join_cons, !append_assoc.
    eapply scan_elements_more.
    + apply (Px Jx); [lia | reflexivity].
    + destruct l; cbn [map Str.join String.concat];
        rewrite ?append_assoc; apply opens_app, opens_dumps.
    + apply (IH y HP HJ). cbn [map list_sum fold_right]. lia.
Qed.

Lemma entry_text (k a b : string) :
  ((dumps_str k ++ ": " ++ a) ++ b)%string
  = String "034" (dumps_chars k ++ Str.dq ++ String ":" (String " " (a ++ b))).
Proof.
  unfold dumps_str. now rewrite !append_assoc.
Qed.

Lemma scan_members_dumps (kv : jval * jval) (d : list (jval * jval)) :
  Forall (fun kv => decodes (snd kv)) (kv :: d) ->
  forallb (fun kv =>
             match fst kv with VStr _ => true | _ => false end
             && json_value (snd kv)) (kv :: d) = true ->
  forall fuel acc rest,
    list_sum (map (fun kv => S (vsize (snd kv))) (kv :: d)) <= fuel ->
    scan_members fuel acc
      (Str.join ", "
         (map (fun kv =>
                 (dumps_key (fst kv) ++ ": " ++ json_dumps (snd kv))%string)
            (kv :: d))
       ++ String "}" rest)
    = Some (dict_merge acc (kv :: d), rest).
Proof.
  revert kv. induction d as [|kv2 d IH]; intros [k v] HP HJ fuel acc rest Hf.
  - apply Forall_inv in HP. cbn [snd] in HP. cbn [forallb fst snd] in HJ.
    apply andb_prop in HJ. destruct HJ as [HJ _].
    apply andb_prop in HJ. destruct HJ as [Hk Jv].
    destruct k as [| | | |k| |]; try discriminate.
    cbn [map list_sum fold_right snd] in Hf.
    destruct fuel as [|fuel]; [lia|].
    cbn [map Str.join String.concat fst snd dumps_key].
    rewrite entry_text.
    rewrite (scan_members_step fuel acc k _ (String "}" rest) v).
    + reflexivity.
    + apply opens_app, opens_dumps.
    + apply (HP Jv); [lia | reflexivity].
  - pose proof (Forall_inv HP) as Pv. cbn [snd] in Pv.
    apply Forall_inv_tail in HP.
    cbn [forallb fst snd] in HJ.
    apply andb_prop in HJ. destruct HJ as [HJ HJ2].
    apply andb_prop in HJ. destruct HJ as [Hk Jv].
    destruct k as [| | | |k| |]; try discriminate.
    cbn [map list_sum fold_right snd] in Hf.
    destruct fuel as [|fuel]; [lia|].
    pose proof HJ2 as HJ3. cbn [forallb] in HJ3.
    apply andb_prop in HJ3. destruct HJ3 as [HJ3 _].
    apply andb_prop in HJ3. destruct HJ3 as [Hk2 _].
    destruct kv2 as [k2 v2]. cbn [fst] in Hk2.
    destruct k2 as [| | | |k2| |]; try discriminate.
    specialize (IH (VStr k2, v2) HP HJ2 fuel (dict_set (VStr k) v acc) rest).
    cbn [map] in IH |- *. rewrite join_cons.
    cbn [fst snd dumps_key] in IH |- *.
    rewrite append_assoc, entry_text.
    rewrite (scan_members_step fuel acc k _
               ((", "
                 ++ Str.join ", "
                      ((dumps_str k2 ++ ": "
                        ++ json_dumps (FL := floats) v2)%string
                       :: map
                            (fun kv : jval * jval =>
                               (dumps_key (FL := floats) (fst kv) ++ ": "
                                ++ json_dumps (FL := floats) (snd kv))%string)
                            d))
                ++ String "}" rest) v).
    + match type of IH with
      | ?A -> _ =>
          assert (F : A) by (cbn [list_sum fold_right snd] in Hf |- *; lia)
      end.
      specialize (IH F). clear - IH.
      destruct d; exact IH.
    + apply opens_app, opens_dumps.
    + apply (Pv Jv); [lia | reflexivity].
Qed.

Lemma scan_value_dumps (v : jval) : decodes v.
Proof.
  induction v as [|b|z|s|l IH|d IH] using value_induction;
    intros J fuel rest Hf Hr.
  - destruct fuel; [cbn in Hf; lia|]. now apply scan_word.
  - destruct fuel; [cbn in Hf; lia|]. now apply scan_word.
  - destruct fuel; [cbn in Hf; lia|]. now apply scan_int.
  - destruct fuel; [cbn in Hf; lia|]. now apply scan_str.
  - cbn [vsize] in Hf. destruct fuel as [|fuel]; [lia|].
    destruct l as [|x l]; [reflexivity|].
    cbn [json_dumps]. rewrite !append_assoc.
    change ("[" ++ ?x)%string with (String "[" x).
    apply scan_list.
    + destruct l; cbn [map Str.join String.concat];
        rewrite ?append_assoc; apply opens_app, opens_dumps.
    + apply (scan_elements_dumps x l IH J). lia.
  - cbn [vsize] in Hf. destruct fuel as [|fuel]; [lia|].
    destruct d as [|kv d]; [reflexivity|].
    cbn [json_value] in J. apply andb_prop in J. destruct J as [J D].
    pose proof (scan_members_dumps kv d IH J fuel [] rest) as M.
    rewrite dict_merge_distinct in M by exact D.
    cbn [json_dumps]. rewrite !append_assoc.
    change ("{" ++ ?x)%string with (String "{" x).
    destruct kv as [k v]. pose proof J as Jk. cbn [forallb fst] in Jk.
    apply andb_prop in Jk. destruct Jk as [Jk _].
    apply andb_prop in Jk. destruct Jk as [Jk _].
    destruct k as [| | | |k| |]; try discriminate.
    assert (M' : scan_members fuel []
                   (Str.join ", "
                      (map (fun kv =>
                              (dumps_key (fst kv) ++ ": "
                               ++ json_dumps (snd kv))%string)
                         ((VStr k, v) :: d))
                    ++ String "}" rest)
                 = Some ((VStr k, v) :: d, rest))
      by (apply M; apply le_S_n; exact Hf).
    clear M. revert M'.
    destruct d; cbn [map Str.join String.concat fst snd dumps_key];
      unfold dumps_str; rewrite ?append_assoc; intros M';
      apply scan_dict; exact M'.
Qed.

(** *** The fuel *)

Lemma opens_length (s : string) :
  opens_value s = true -> 1 <= String.length s.
Proof.
  destruct s; [discriminate|]. cbn [String.length]. lia.
Qed.

Lemma sum_le_join (f : jval -> nat) (l : list jval) :
  Forall (fun x => f x <= String.length (json_dumps x)) l ->
  list_sum (map (fun x => S (f x)) l)
  <= String.length (Str.join ", " (map json_dumps l)) + 1.
Proof.
  induction l as [|x l IH]; intros H; [cbn; lia|].
  pose proof (Forall_inv H) as Hx. cbv beta in Hx.
  apply Forall_inv_tail in H.
  specialize (IH H). destruct l as [|y l].
  - cbn [map list_sum fold_right Str.join String.concat]. lia.
  - cbn [map] in IH |- *. rewrite join_cons, !length_append.
    cbn [list_sum fold_right] in IH |- *.
    change (String.length ", ") with 2. lia.
Qed.

Lemma sum_le_join_entries (f : jval -> nat) (d : list (jval * jval)) :
  Forall (fun kv => f (snd kv) <= String.length (json_dumps (snd kv))) d ->
  list_sum (map (fun kv => S (f (snd kv))) d)
  <= String.length
       (Str.join ", "
          (map (fun kv =>
                  (dumps_key (fst kv) ++ ": " ++ json_dumps (snd kv))%string)
             d)) + 1.
Proof.
  induction d as [|[k v] d IH]; intros H; [cbn; lia|].
  pose proof (Forall_inv H) as Hx. cbn [snd] in Hx.
  apply Forall_inv_tail in H.
  specialize (IH H). destruct d as [|y d].
  - cbn [map list_sum fold_right Str.join String.concat fst snd].
    rewrite !length_append. lia.
  - cbn [map] in IH |- *. rewrite join_cons, !length_append.
    cbn [list_sum fold_right fst snd] in IH |- *.
    change (String.length ", ") with 2. lia.
Qed.

Lemma vsize_le_length (v : jval) : vsize v <= String.length (json_dumps v).
Proof.
  induction v as [|b|z|s|l IH|d IH] using value_induction.
  - cbn. lia.
  - destruct b; cbn; lia.
  - apply (opens_length _ (opens_of_Z z)).
  - cbn. lia.
  - cbn [vsize json_dumps]. rewrite !length_append.
    pose proof (sum_le_join vsize l IH) as H.
    change (String.length "[") with 1. change (String.length "]") with 1.
    apply (Nat.le_trans _ _ _ (le_n_S _ _ H)). lia.
  - cbn [vsize json_dumps]. rewrite !length_append.
    pose proof (sum_le_join_entries vsize d IH) as H.
    change (String.length "{") with 1. change (String.length "}") with 1.
    apply (Nat.le_trans _ _ _ (le_n_S _ _ H)). lia.
Qed.

Lemma loads_dumps (v : jval) :
  json_value v = true -> loads (json_dumps v) = inr v.
Proof.
  intros J. unfold loads.
  rewrite (skip_ws_opens _ (opens_dumps v)).
  pose proof (scan_value_dumps v J (2 * String.length (json_dumps v) + 2)
                EmptyString) as K.
  rewrite append_nil_r in K. rewrite K; [reflexivity | | reflexivity].
  pose proof (vsize_le_length v). lia.
Qed.

End RoundTrip.

(** ** The serialization of a value as a response *)

Section Serialized.

Context {FL : Floats} {JS : Json}.

Local Open Scope list_scope.

Lemma rstrip_no_space (s : string) :
  forallb (fun c => negb (Str.is_space c)) (list_ascii_of_string s) = true ->
  Str.rstrip s = s.
Proof.
  induction s as [|c s IH]; [reflexivity|].
  cbn [list_ascii_of_string forallb Str.rstrip]. intros H.
  apply andb_prop in H. destruct H as [Hc Hs]. rewrite (IH Hs).
  destruct s; [|reflexivity]. now destruct (Str.is_space c).
Qed.

Lemma strip_no_space (s : string) :
  forallb (fun c => negb (Str.is_space c)) (list_ascii_of_string s) = true ->
  Str.strip s = s.
Proof.
  intros H. unfold Str.strip.
  assert (L : Str.lstrip s = s).
  { destruct s as [|c s]; [reflexivity|].
    cbn [list_ascii_of_string forallb] in H. cbn [Str.lstrip].
    now destruct (Str.is_space c). }
  rewrite L. now apply rstrip_no_space.
Qed.

Lemma uint_no_space (d : Decimal.uint) :
  forallb (fun c => negb (Str.is_space c))
    (list_ascii_of_string (NilEmpty.string_of_uint d)) = true.
Proof.
  induction d; cbn [NilEmpty.string_of_uint list_ascii_of_string forallb];
    [reflexivity|..]; rewrite IHd; reflexivity.
Qed.

Lemma strip_of_Z (z : Z) : Str.strip (Str.of_Z z) = Str.of_Z z.
Proof.
  apply strip_no_space. unfold Str.of_Z.
  destruct z as [|p|p]; cbn [Z.to_int NilZero.string_of_int];
    [reflexivity| |].
  - generalize (uint_no_space (Pos.to_uint p)).
    now destruct (Pos.to_uint p).
  - cbn [list_ascii_of_string forallb].
    generalize (uint_no_space (Pos.to_uint p)).
    now destruct (Pos.to_uint p).
Qed.

Lemma strip_wrapped (c c' : ascii) (s : string) :
  Str.is_space c = false ->
  Str.is_space c' = false ->
  Str.strip (String c (s ++ String c' EmptyString))
  = String c (s ++ String c' EmptyString).
Proof.
  intros H H'. unfold Str.strip. cbn [Str.lstrip]. rewrite H.
  change (String c (s ++ String c' EmptyString))
    with (String c s ++ String c' EmptyString)%string.
  assert (R : Str.rstrip (String c' EmptyString) = String c' EmptyString)
    by (cbn [Str.rstrip]; now rewrite H').
  rewrite rstrip_app; rewrite R; [reflexivity | discriminate].
Qed.

Lemma strip_json_dumps (v : val) :
  (forall f, Str.strip (float_repr f) = float_repr f) ->
  Str.strip (json_dumps v) = json_dumps v.
Proof.
  intros F. destruct v as [|[]|z|f|s|l|d]; try reflexivity.
  - apply strip_of_Z.
  - apply F.
  - apply (strip_wrapped "034" "034"); reflexivity.
  - apply (strip_wrapped "[" "]"); reflexivity.
  - apply (strip_wrapped "{" "}"); reflexivity.
Qed.

(** The two contexts on the serialization of [v], in a runtime whose
    [json.loads] reads it back. *)
Lemma serialized_response (v : val) :
  (forall f, Str.strip (float_repr f) = float_repr f) ->
  json_loads (json_dumps v) = inr v ->
  (forall research_data p replies,
      insufficient (Some research_data) = inr false ->
      read_profile research_data = inr p ->
      List.length replies = 4 ->
      run (use_case_generation_agent (Some research_data)
             perform_GoogleSearch)
        (map SearchReply replies ++ [GenReply (inr (json_dumps v))])
      = Some (Returned (as_list v), use_case_calls p replies))
  /\ (forall name replies,
         List.length replies = 4 ->
         all_items replies <> [] ->
         run (research_agent name perform_GoogleSearch)
           (map SearchReply replies ++ [GenReply (inr (json_dumps v))])
         = Some (Returned
                   (Some (ensure_industry
                            (update_research_data (researched name replies)
                               v))),
                 research_calls name replies)).
Proof.
  intros F H. split.
  - intros research_data p replies Hgate Hp Hlen.
    rewrite (run_use_case_generation_agent _ p _ _ Hgate Hp Hlen).
    cbn [list_of_reply].
    now rewrite (strip_json_dumps v F), (parse_list_first_tier _ _ H).
  - intros name replies Hlen Hitems.
    rewrite (run_research_agent_reply _ _ _ Hlen Hitems).
    rewrite (strip_json_dumps v F). unfold extract_info. now rewrite H.
Qed.

End Serialized.

(** C3, as amended.  The serialization of a JSON value [V], as
    [json.dumps] writes it, is decoded at the first attempt wherever
    [json.loads] reads it back as [V]:
    [use_case_generation_agent], which expects an array, returns [V]
    when [V] is an array and the empty list when it is not, and
    [research_agent], which expects an object, passes [V] to
    [dict.update], which merges it when [V] is an object.  The
    reference decoder reads back every JSON value that holds no float,
    so both hold there for every such value. *)
Theorem serialization_is_decoded_at_first_tier :
  (forall (FL : Floats) (JS : Json) (V : val),
      (forall f, Str.strip (float_repr f) = float_repr f) ->
      json_loads (json_dumps V) = inr V ->
      (forall research_data p replies,
          insufficient (Some research_data) = inr false ->
          read_profile research_data = inr p ->
          List.length replies = 4 ->
          run (use_case_generation_agent (Some research_data)
                 perform_GoogleSearch)
            (map SearchReply replies ++ [GenReply (inr (json_dumps V))])
          = Some (Returned match V with VList l => l | _ => [] end,
                  use_case_calls p replies))
      /\ (forall name replies,
             List.length replies = 4 ->
             all_items replies <> [] ->
             run (research_agent name perform_GoogleSearch)
               (map SearchReply replies ++ [GenReply (inr (json_dumps V))])
             = Some (Returned
                       (Some (ensure_industry
                                match V with
                                | VDict m =>
                                    dict_merge (researched name replies) m
                                | _ =>
                                    update_research_data
                                      (researched name replies) V
                                end)),
                     research_calls name replies)))
  /\ (forall V : Ref.jval,
         json_value (FL := Ref.floats) V = true ->
         Ref.loads (json_dumps (FL := Ref.floats) V) = inr V
         /\ (forall research_data p replies,
                insufficient (FL := Ref.floats) (Some research_data)
                = inr false ->
                read_profile research_data = inr p ->
                List.length replies = 4 ->
                run (use_case_generation_agent (JS := Ref.json)
                       (Some research_data) perform_GoogleSearch)
                  (map SearchReply replies
                   ++ [GenReply (inr (json_dumps (FL := Ref.floats) V))])
                = Some (Returned match V with VList l => l | _ => [] end,
                        use_case_calls p replies))
         /\ (forall name replies (m : @dict Ref.floats),
                List.length replies = 4 ->
                all_items replies <> [] ->
                V = VDict m ->
                run (research_agent (JS := Ref.json) name
                       perform_GoogleSearch)
                  (map SearchReply replies
                   ++ [GenReply (inr (json_dumps (FL := Ref.floats) V))])
                = Some (Returned
                          (Some (ensure_industry
                                   (dict_merge (researched name replies)
                                      m))),
                        research_calls name replies))).
Proof.
  assert (G : forall (FL : Floats) (JS : Json) (V : val),
             (forall f, Str.strip (float_repr f) = float_repr f) ->
             json_loads (json_dumps V) = inr V ->
             (forall research_data p replies,
                 insufficient (Some research_data) = inr false ->
                 read_profile research_data = inr p ->
                 List.length replies = 4 ->
                 run (use_case_generation_agent (Some research_data)
                        perform_GoogleSearch)
                   (map SearchReply replies
                    ++ [GenReply (inr (json_dumps V))])
                 = Some (Returned match V with VList l => l | _ => [] end,
                         use_case_calls p replies))
             /\ (forall name replies,
                    List.length replies = 4 ->
                    all_items replies <> [] ->
                    run (research_agent name perform_GoogleSearch)
                      (map SearchReply replies
                       ++ [GenReply (inr (json_dumps V))])
                    = Some (Returned
                              (Some (ensure_industry
                                       match V with
                                       | VDict m =>
                                           dict_merge
                                             (researched name replies) m
                                       | _ =>
                                           update_research_data
                                             (researched name replies) V
                                       end)),
                            research_calls name replies))).
  { intros FL JS V F H.
    destruct (serialized_response V F H) as [A O]. split.
    - exact A.
    - intros name replies Hlen Hitems. rewrite (O name replies Hlen Hitems).
      now destruct V. }
  split; [exact G|].
  intros V J. pose proof (loads_dumps V J) as L.
  destruct (G Ref.floats Ref.json V (fun f => match f with end) L) as [A O].
  split; [exact L|]. split; [exact A|].
  intros name replies m Hlen Hitems ->. exact (O name replies Hlen Hitems).
Qed.

(** ** Closed instances of the further properties *)

Section BehaviourExamples.

Import Ref.

Local Open Scope list_scope.

Lemma generation_error_fails_research_witness :
  run (orchestrator "Acme" perform_GoogleSearch)
    (map SearchReply Sample.research_replies
     ++ [GenReply (inl (Exn (OtherError "DeadlineExceeded") "timeout"))])
  = Some (Returned
            (failed_bundle
               (Some (error_fields
                        (Exn (OtherError "DeadlineExceeded") "timeout")
                        (researched "Acme" Sample.research_replies)))),
          research_calls "Acme" Sample.research_replies).
Proof.
  destruct (generation_error_fails_research "Acme" Sample.research_replies
              (Exn (OtherError "DeadlineExceeded") "timeout"))
    as (_ & _ & R).
  - reflexivity.
  - discriminate.
  - exact R.
Defined.

Lemma parsing_failure_fails_research_witness :
  run (orchestrator "Acme" perform_GoogleSearch)
    (map SearchReply Sample.research_replies
     ++ [GenReply (inr "I could not find anything.")])
  = Some (Returned
            (failed_bundle
               (Some (failure_fields "Extraction Failed (Parsing Error)"
                        (researched "Acme" Sample.research_replies)))),
          research_calls "Acme" Sample.research_replies).
Proof.
  destruct (parsing_failure_fails_research "Acme" Sample.research_replies
              "I could not find anything." decode_error decode_error)
    as (_ & _ & R).
  - reflexivity.
  - discriminate.
  - vm_compute. reflexivity.
  - reflexivity.
  - vm_compute. reflexivity.
  - reflexivity.
  - exact R.
Defined.

Lemma fenced_response_is_decoded_witness :
  clean_fences (fenced Sample.text_retail) = Str.strip Sample.text_retail.
Proof.
  apply (fenced_response_is_decoded Sample.text_retail decode_error).
  - vm_compute. reflexivity.
  - reflexivity.
Defined.

Lemma use_case_agent_never_raises_witness :
  always (returns (fun _ => True))
    (use_case_generation_agent (Some Sample.retail) perform_GoogleSearch).
Proof.
  apply (use_case_agent_never_raises Sample.retail); reflexivity.
Defined.

Lemma resource_agent_builds_the_map_witness :
  run (resource_collection_agent Sample.chatbot_use_cases
         perform_GoogleSearch)
    (map SearchReply [inr (Some [Sample.acme_item]); inr None])
  = Some (Returned
            (resource_map Sample.chatbot_use_cases
               [inr (Some [Sample.acme_item]); inr None] []),
          resource_calls Sample.chatbot_use_cases).
Proof.
  apply (resource_agent_builds_the_map Sample.chatbot_use_cases
           [inr (Some [Sample.acme_item]); inr None]); reflexivity.
Defined.

Lemma resource_agent_raises_on_bad_use_case_witness :
  exists e,
    run (resource_collection_agent
           (Sample.chatbot_use_cases ++ [VStr "Forecasting"])
           perform_GoogleSearch)
      (map SearchReply [inr (Some [Sample.acme_item]); inr None])
    = Some (Raised e, resource_calls Sample.chatbot_use_cases)
    /\ exn_cls e = AttributeError.
Proof.
  apply (resource_agent_raises_on_bad_use_case Sample.chatbot_use_cases
           (VStr "Forecasting") []
           [inr (Some [Sample.acme_item]); inr None]); reflexivity.
Defined.

Lemma orchestrator_composes_witness :
  exists research_output calls,
    run (orchestrator "Acme" perform_GoogleSearch)
      ((map SearchReply Sample.research_replies
        ++ [GenReply (inr Sample.text_retail)])
       ++ (map SearchReply Sample.no_results
           ++ [GenReply (inl (Exn (OtherError "DeadlineExceeded") "timeout"))])
       ++ []
       ++ [GenReply (inr "Sorry, no ideas.")])
    = Some (Returned
              (Bundle [] [] [fallback_suggestion] research_output "Success"),
            calls).
Proof.
  pose (s1 := map SearchReply Sample.research_replies
              ++ [GenReply (inr Sample.text_retail)]).
  pose (s2 := map SearchReply Sample.no_results
              ++ [GenReply
                    (inl (Exn (OtherError "DeadlineExceeded") "timeout"))]).
  pose (research_output :=
          Some (ensure_industry
                  (dict_merge (researched "Acme" Sample.research_replies)
                     [(VStr "industry", VStr "Retail")]))).
  assert (R1 : run (research_agent "Acme" perform_GoogleSearch) s1
               = Some (Returned research_output,
                       research_calls "Acme" Sample.research_replies))
    by (vm_compute; reflexivity).
  assert (G : insufficient research_output = inr false) by reflexivity.
  destruct (run (use_case_generation_agent research_output
                   perform_GoogleSearch) s2)
    as [[o2 c2]|] eqn:R2; [|vm_compute in R2; discriminate].
  assert (O2 : o2 = Returned [])
    by (vm_compute in R2; now injection R2 as <- _).
  subst o2.
  assert (R3 : run (resource_collection_agent [] perform_GoogleSearch) []
               = Some (Returned [], [])) by reflexivity.
  destruct (run (optional_genai_proposer_agent research_output)
              [GenReply (inr "Sorry, no ideas.")])
    as [[o4 c4]|] eqn:R4; [|vm_compute in R4; discriminate].
  assert (O4 : o4 = Returned [fallback_suggestion])
    by (vm_compute in R4; now injection R4 as <- _).
  subst o4.
  exists research_output.
  exists (research_calls "Acme" Sample.research_replies ++ c2 ++ [] ++ c4).
  exact (orchestrator_composes "Acme" perform_GoogleSearch s1
           research_output _ R1 G s2 c2 _ R2 [] [] _ R3 _ c4 _ R4).
Defined.

Lemma file_name_is_sanitised_witness :
  resource_file_name (Some [(VStr "input_name", VStr "Acme Bank/EU")])
  = inr "Acme_Bank_EU_ai_resources.md"
  /\ exists base,
       "Acme_Bank_EU_ai_resources.md" = (base ++ "_ai_resources.md")%string
       /\ String.length base = 12.
Proof.
  split; [reflexivity|].
  destruct (file_name_is_sanitised
              (Some [(VStr "input_name", VStr "Acme Bank/EU")])
              "Acme_Bank_EU_ai_resources.md")
    as (d & s & base & Hd & Hs & Hf & Hl & _ & _).
  - reflexivity.
  - injection Hd as <-. vm_compute in Hs. injection Hs as <-.
    exists base. split; [exact Hf | exact Hl].
Defined.

Lemma page_without_search_results_witness :
  run (page "Acme" true) (map SearchReply Sample.no_results)
  = Some (Returned
            ([ StMarkdown "---";
               StError
                 "Could not generate a proposal due to initial research failure.";
               StSubheader "Research Attempt Summary:" ],
             inl (Exn AttributeError
                    "'NoneType' object has no attribute 'get'")),
          search_calls 5 (research_queries "Acme")).
Proof.
  apply (page_without_search_results "Acme" Sample.no_results);
    reflexivity.
Defined.

Lemma failed_generation_is_reported_witness :
  run (page "Acme" true)
    (map SearchReply Sample.research_replies
     ++ [GenReply (inl (Exn (OtherError "DeadlineExceeded") "timeout"))])
  = Some (Returned (failure_page "Error: timeout", inr tt),
          research_calls "Acme" Sample.research_replies).
Proof.
  apply (proj1 (failed_generation_is_reported "Acme" Sample.research_replies
                  eq_refl eq_refl
                  ltac:(discriminate))
           (Exn (OtherError "DeadlineExceeded") "timeout")).
Defined.

Lemma object_without_offerings_is_not_drawn_witness :
  exists d,
    run (research_agent "Acme" perform_GoogleSearch)
      (map SearchReply Sample.research_replies
       ++ [GenReply (inr Sample.text_segment)])
    = Some (Returned (Some d),
            research_calls "Acme" Sample.research_replies)
    /\ snd (display_results (failed_bundle (Some d)))
       = inl (Exn TypeError "'NoneType' object is not iterable").
Proof.
  destruct (object_without_offerings_is_not_drawn "Acme"
              Sample.research_replies Sample.text_segment
              [(VStr "segment", VStr "Banking")])
    as (d & R & _ & H).
  - reflexivity.
  - discriminate.
  - left. vm_compute. reflexivity.
  - reflexivity.
  - exists d. split; [exact R|].
    exact (proj1 (H (failed_bundle (Some d)) eq_refl)).
Defined.

Lemma successful_run_witness :
  exists calls,
    run (orchestrator "Acme" perform_GoogleSearch)
      ((map SearchReply Sample.research_replies
        ++ [GenReply (inr Sample.text_retail)])
       ++ (map SearchReply Sample.no_results
           ++ [GenReply (inr ("[" ++ Sample.text_object ++ "]")%string)])
       ++ map SearchReply [inr (Some [Sample.acme_item]); inr None]
       ++ [GenReply (inl (Exn (OtherError "DeadlineExceeded") "timeout"))])
    = Some (Returned
              (Bundle Sample.chatbot_use_cases
                 [(VStr "Chatbot",
                   [Resource "Acme Bank" "https://acme.example"
                      "Retail banking since 1950"])]
                 [fallback_suggestion]
                 (Some
                    (dict_merge (researched "Acme" Sample.research_replies)
                       [(VStr "industry", VStr "Retail")]))
                 "Success"),
            calls)
    /\ List.length calls = 13.
Proof.
  eexists.
  exact (successful_run "Acme" Sample.research_replies Sample.no_results
           [inr (Some [Sample.acme_item]); inr None] Sample.text_retail
           (inr ("[" ++ Sample.text_object ++ "]")%string)
           (inl (Exn (OtherError "DeadlineExceeded") "timeout"))
           (Profile (VStr "Retail") VNone "various products/services"
              "improving operations and customer experience" (VStr "Acme"))
           eq_refl ltac:(discriminate) eq_refl eq_refl eq_refl eq_refl
           eq_refl).
Defined.

Lemma serialization_is_decoded_at_first_tier_witness :
  run (use_case_generation_agent (Some Sample.retail) perform_GoogleSearch)
    (map SearchReply Sample.no_results
     ++ [GenReply (inr (json_dumps (VList Sample.chatbot_use_cases)))])
  = Some (Returned Sample.chatbot_use_cases,
          use_case_calls Sample.retail_profile Sample.no_results).
Proof.
  destruct (proj1 serialization_is_decoded_at_first_tier floats json
              (VList Sample.chatbot_use_cases)) as [A _].
  - intros [].
  - vm_compute. reflexivity.
  - apply A; reflexivity.
Defined.

Lemma search_results_accumulate_witness :
  exists research_data,
    run (research_searches perform_GoogleSearch (research_queries "Acme")
           (initial_research_data "Acme") EmptyString)
      (map SearchReply Sample.research_replies)
    = Some (Returned (research_data, snippets_text [Sample.acme_item]),
            search_calls 5 (research_queries "Acme"))
    /\ dict_find (VStr "search_results") research_data
       = Some (VList [value_of_item Sample.acme_item]).
Proof.
  destruct (proj1 (search_results_accumulate "Acme" Sample.research_replies
                     eq_refl))
    as (research_data & R & Hs & _).
  exists research_data. split; [exact R | exact Hs].
Defined.

End BehaviourExamples.
